(** * cllama: instance matching, reference resolution and the build pipeline

    A shallow embedding of [cllama/__main__.py] and the properties of its
    four parts: the reference resolver ([_resolve_git_package]), the
    artifact pipeline (the first half of [run], [_get_bento_info],
    [_build_bento]), the instance matcher ([_filter_instance_types]) and
    the provisioner ([_ensure_aws_security_group], the second half of
    [run]).

    Conventions.
    - A Python [str] is a [string]: the sequence of its UTF-8 bytes.  The
      operations used by the program ([split] and [strip] on ASCII
      characters, [startswith], ordering by code point) agree on the two
      views, because an ASCII byte never occurs inside a multi-byte
      sequence and UTF-8 preserves the order of code points.
    - A Python [int] is a [Z]; the quotient [SizeInMiB / 1024] is a [Q]
      (the float division by a power of two is exact on the sizes of a
      catalog).
    - A raised exception is a value of [exn]; pure code that may raise
      returns a [result], code with effects lives in the monad [M]. *)

From Stdlib Require Import ZArith QArith Lia List Ascii String Permutation Sorted.
From stdpp Require Import base tactics option list sorting strings pretty gmap.

Local Open Scope Z_scope.

(** ** Exceptions and results *)

Inductive exn : Type :=
  | ValueError (msg : string)
  | KeyError (key : string)
  | IndexError
  | AssertionError
  | TypeError
  | StopIteration
  | CalledProcessError (cmd : list string) (returncode : Z)
  | RuntimeError (msg : string) (cause : exn)
  | OSError (cmd : list string)
  | ExternalError (what : string).

Inductive result (A : Type) : Type :=
  | Ok (a : A)
  | Raise (e : exn).
Arguments Ok {A} a.
Arguments Raise {A} e.

Definition rbind {A B} (r : result A) (k : A -> result B) : result B :=
  match r with
  | Ok a => k a
  | Raise e => Raise e
  end.

Declare Scope result_scope.
Delimit Scope result_scope with res.
Notation "'let?' x ':=' r 'in' k" := (rbind r (fun x => k))
  (at level 10, x pattern, r at level 100, k at level 200) : result_scope.
Local Open Scope result_scope.

Definition is_ok {A} (r : result A) : bool :=
  match r with Ok _ => true | Raise _ => false end.

(** The value of a result that is known not to raise. *)
Definition get_or {A} (dflt : A) (r : result A) : A :=
  match r with Ok a => a | Raise _ => dflt end.

(** [d[key]] on a dictionary entry that may be absent. *)
Definition getitem {A} (key : string) (o : option A) : result A :=
  match o with
  | Some a => Ok a
  | None => Raise (KeyError key)
  end.

(** [filter(f, l)] consumed to the end, with a predicate that may raise:
    the first exception, in list order, propagates. *)
Fixpoint filter_r {A} (f : A -> result bool) (l : list A) : result (list A) :=
  match l with
  | [] => Ok []
  | x :: l' =>
      let? b := f x in
      let? r := filter_r f l' in
      Ok (if b then x :: r else r)
  end.

(** What a predicate keeps: the elements on which it returns [True]. *)
Definition accepts {A} (f : A -> result bool) (x : A) : bool :=
  match f x with Ok true => true | _ => false end.

(** [[f(x) for x in l]] with an [f] that may raise. *)
Fixpoint map_r {A B} (f : A -> result B) (l : list A) : result (list B) :=
  match l with
  | [] => Ok []
  | x :: l' =>
      let? y := f x in
      let? r := map_r f l' in
      Ok (y :: r)
  end.

(** ** Strings *)

(** [s.split(sep)] for a separator of one character. *)
Fixpoint split (sep : ascii) (s : string) : list string :=
  match s with
  | EmptyString => [EmptyString]
  | String c s' =>
      if Ascii.eqb c sep then EmptyString :: split sep s'
      else match split sep s' with
           | x :: xs => String c x :: xs
           | [] => [String c EmptyString]
           end
  end.

(** [sep.join(l)] for a separator of one character. *)
Fixpoint join (sep : ascii) (l : list string) : string :=
  match l with
  | [] => EmptyString
  | [x] => x
  | x :: l' => x +:+ String sep (join sep l')
  end.

(** [l[0]] *)
Definition head_r {A} (l : list A) : result A :=
  match l with
  | x :: _ => Ok x
  | [] => Raise IndexError
  end.

(** [s.startswith(p)] *)
Fixpoint startswith (p s : string) : bool :=
  match p with
  | EmptyString => true
  | String a p' =>
      match s with
      | EmptyString => false
      | String b s' => Ascii.eqb a b && startswith p' s'
      end
  end.

(** [s[len(p):]] *)
Fixpoint drop_string (n : nat) (s : string) : string :=
  match n, s with
  | O, _ => s
  | S n', String _ s' => drop_string n' s'
  | S _, EmptyString => EmptyString
  end.

(** [c in chars] *)
Fixpoint char_in (c : ascii) (chars : string) : bool :=
  match chars with
  | EmptyString => false
  | String a chars' => Ascii.eqb c a || char_in c chars'
  end.

(** [s.lstrip(chars)]: drop the leading characters that are in the set. *)
Fixpoint lstrip_with (drop : ascii -> bool) (s : string) : string :=
  match s with
  | EmptyString => EmptyString
  | String c s' => if drop c then lstrip_with drop s' else s
  end.

(** [s.rstrip(chars)]: drop the trailing characters that are in the set. *)
Fixpoint rstrip_with (drop : ascii -> bool) (s : string) : string :=
  match s with
  | EmptyString => EmptyString
  | String c s' =>
      match rstrip_with drop s' with
      | EmptyString => if drop c then EmptyString else String c EmptyString
      | r => String c r
      end
  end.

(** [s.strip(chars)] *)
Definition strip_with (drop : ascii -> bool) (s : string) : string :=
  rstrip_with drop (lstrip_with drop s).

Definition strip_chars (chars : string) (s : string) : string :=
  strip_with (fun c => char_in c chars) s.

(** The ASCII characters for which [str.isspace] holds: tab, line feed,
    vertical tab, form feed, carriage return, the separators 0x1c-0x1f and
    the space.  [s.strip()] removes them from both ends. *)
Definition isspace (c : ascii) : bool :=
  let n := N_of_ascii c in
  ((9 <=? n) && (n <=? 13) || (28 <=? n) && (n <=? 32))%N.

Definition strip (s : string) : string := strip_with isspace s.

(** Order of two strings by code point: [a < b]. *)
Fixpoint str_lt (a b : string) : bool :=
  match a, b with
  | _, EmptyString => false
  | EmptyString, String _ _ => true
  | String x a', String y b' =>
      if Ascii.eqb x y then str_lt a' b'
      else (N_of_ascii x <? N_of_ascii y)%N
  end.

(** ** Instance matcher *)

(** One entry of [spec["GpuInfo"]["Gpus"]].  [GpuSizeInMiB] is
    [gpu["MemoryInfo"]["SizeInMiB"]]; a field is [None] when the key is
    absent from the dictionary. *)
Record Gpu : Type := {
  Count : option Z;
  Name : option string;
  GpuSizeInMiB : option Z
}.

(** [spec["GpuInfo"]]; [Gpus] is [None] when the key is absent. *)
Record GpuInfoT : Type := {
  Gpus : option (list Gpu)
}.

(** An instance type descriptor of the catalog.  [DefaultVCpus] is
    [spec["VCpuInfo"]["DefaultVCpus"]] and [SizeInMiB] is
    [spec["MemoryInfo"]["SizeInMiB"]], [None] when a key on the way is
    absent; [GpuInfo] is [None] when the descriptor has no "GpuInfo" key. *)
Record InstanceSpec : Type := {
  InstanceType : string;
  DefaultVCpus : option Z;
  SizeInMiB : option Z;
  GpuInfo : option GpuInfoT
}.

(** [spec.get("GpuInfo", {}).get("Gpus", dflt)] *)
Definition get_gpus (dflt : list Gpu) (spec : InstanceSpec) : list Gpu :=
  match GpuInfo spec with
  | None => dflt
  | Some gi => default dflt (Gpus gi)
  end.

(** The empty dictionary [{}] read as a GPU entry. *)
Definition empty_gpu : Gpu :=
  {| Count := None; Name := None; GpuSizeInMiB := None |}.

(** [_check_instance], the closure of [_filter_instance_types] over
    [gpu_count], the resolved [gpu_memory] and [level]. *)
Definition _check_instance (gpu_count : option Z) (gpu_memory : Q)
    (level : string) (spec : InstanceSpec) : result bool :=
  if match gpu_count with None => true | Some c => c =? 0 end then
    match GpuInfo spec with
    | Some _ => Ok false
    | None => Ok true
    end
  else
    let c := default 0 gpu_count in
    match get_gpus [] spec with
    | [] => Ok false
    | it_gpu :: _ =>
        let? mib := getitem "MemoryInfo" (GpuSizeInMiB it_gpu) in
        let it_gpu_mem := Qmake mib 1024 in
        let? cnt := getitem "Count" (Count it_gpu) in
        if (cnt =? c) && Qeq_bool it_gpu_mem gpu_memory then Ok true
        else if (c <=? cnt) && Qle_bool gpu_memory it_gpu_mem then
          if String.eqb level "match" then Ok false
          else if String.eqb level "usable" then Ok true
          else Raise AssertionError
        else Ok false
    end.

(** The key of the sort: a tuple compared component by component. *)
Definition sort_key : Type := string * Z * Z * Z.

(** [_sort_key] *)
Definition _sort_key (spec : InstanceSpec) : result sort_key :=
  let? family := head_r (split "." (InstanceType spec)) in
  let? g := head_r (get_gpus [empty_gpu] spec) in
  Ok (family, default 0 (Count g), default 0 (DefaultVCpus spec),
      default 0 (SizeInMiB spec)).

(** [k1 < k2] on tuples: the first component that differs decides. *)
Definition key_lt (k1 k2 : sort_key) : bool :=
  let '(f1, g1, v1, m1) := k1 in
  let '(f2, g2, v2, m2) := k2 in
  if negb (String.eqb f1 f2) then str_lt f1 f2
  else if negb (g1 =? g2) then g1 <? g2
  else if negb (v1 =? v2) then v1 <? v2
  else m1 <? m2.

(** [sorted(l, key=...)] is a stable sort that compares keys with [<]
    only.  A stable sort has one possible result, computed here by
    insertion from the right: an element goes before the first element
    whose key is not smaller than its own, hence before every element of
    equal key that followed it in the input. *)
Fixpoint insert_by {A K} (lt : K -> K -> bool) (x : K * A) (l : list (K * A))
    : list (K * A) :=
  match l with
  | [] => [x]
  | y :: l' => if lt (fst y) (fst x) then y :: insert_by lt x l' else x :: l
  end.

Fixpoint sort_by {A K} (lt : K -> K -> bool) (l : list (K * A)) : list (K * A) :=
  match l with
  | [] => []
  | x :: l' => insert_by lt x (sort_by lt l')
  end.

(** The order of a sorted list: [x] may stand before [y] when the key of
    [y] is not smaller than the key of [x]. *)
Definition not_after {A K} (lt : K -> K -> bool) (x y : K * A) : Prop :=
  lt (fst y) (fst x) = false.

Definition sorted {A K} (lt : K -> K -> bool) (key : A -> result K) (l : list A)
    : result (list A) :=
  let? keys := map_r key l in
  Ok (map snd (sort_by lt (combine keys l))).

(** ["GpuInfo" not in spec] *)
Definition cpu_only (spec : InstanceSpec) : bool :=
  match GpuInfo spec with
  | None => true
  | Some _ => false
  end.

Section InstanceMatcher.
(** [cllama.spec.GPU_MEMORY], the table from a GPU family to its memory
    in GiB: a dictionary, read by [GPU_MEMORY[gpu_type]]. *)
Variable GPU_MEMORY : string -> option Q.

(** The first statements of [_filter_instance_types]: the memory the
    descriptors are compared with. *)
Definition resolve_gpu_memory (gpu_memory : option Q) (gpu_type : option string)
    : result Q :=
  match gpu_memory with
  | Some m => Ok m
  | None =>
      match gpu_type with
      | None => Raise (ValueError "Either gpu_memory or gpu_type must be provided")
      | Some t => getitem t (GPU_MEMORY t)
      end
  end.

(** [_filter_instance_types] *)
Definition _filter_instance_types (instance_types : list InstanceSpec)
    (gpu_count : option Z) (gpu_memory : option Q) (gpu_type : option string)
    (level : string) : result (list InstanceSpec) :=
  let? gpu_memory := resolve_gpu_memory gpu_memory gpu_type in
  let? kept := filter_r (_check_instance gpu_count gpu_memory level) instance_types in
  sorted key_lt _sort_key kept.
End InstanceMatcher.

(** ** Reference resolver *)

(** [.] of a regular expression: any character but the line feed. *)
Definition dot (c : ascii) : bool := negb (Ascii.eqb c "010").

(** A greedy [.+] at the end of a pattern takes the longest run of [.]. *)
Fixpoint take_dots (s : string) : string :=
  match s with
  | EmptyString => EmptyString
  | String c s' => if dot c then String c (take_dots s') else EmptyString
  end.

Definition nonempty (s : string) : bool :=
  match s with EmptyString => false | String _ _ => true end.

(** The tail [#subdirectory=(?P<subdirectory>.+)] of the pattern, tried at
    the start of [s]. *)
Definition match_subdirectory (s : string) : option string :=
  if startswith "#subdirectory=" s then
    let d := take_dots (drop_string 14 s) in
    if nonempty d then Some d else None
  else None.

(** [(?P<branch>.+?)#subdirectory=(?P<subdirectory>.+)]: the lazy [.+?]
    takes one character, then one more each time the rest of the pattern
    fails to match. *)
Fixpoint match_branch (s : string) : option (string * string) :=
  match s with
  | EmptyString => None
  | String c s' =>
      if dot c then
        match match_subdirectory s' with
        | Some d => Some (String c EmptyString, d)
        | None =>
            match match_branch s' with
            | Some (b, d) => Some (String c b, d)
            | None => None
            end
        end
      else None
  end.

(** [(?P<repo>.+?)@] followed by the rest of the pattern: the shortest
    [repo] after which the rest matches. *)
Fixpoint match_repo (s : string) : option (string * string * string) :=
  match s with
  | EmptyString => None
  | String c s' =>
      if dot c then
        match
          match s' with
          | String "@" s'' => match_branch s''
          | _ => None
          end
        with
        | Some (b, d) => Some (String c EmptyString, b, d)
        | None =>
            match match_repo s' with
            | Some (r, b, d) => Some (String c r, b, d)
            | None => None
            end
        end
      else None
  end.

(** [REG_GITPACKAGE.match(package)] and, on a match, its [groups()]:
    the pattern is anchored at the start of the string only. *)
Definition REG_GITPACKAGE_match (package : string)
    : option (string * string * string) :=
  if startswith "git+" package then match_repo (drop_string 4 package)
  else None.

(** *** [urllib.parse.urlparse]

    The standard library function, as in CPython 3.11 and later, on what
    the resolver reads from it.  Not covered: a host in square brackets
    (validated as an IP literal) and the NFKC check of a non-ASCII host. *)

Record ParseResult : Type := {
  scheme : string;
  netloc : string;
  path : string;
  params : string;
  query : string;
  fragment : string
}.

(** [s.split(c, 1)] when [c] occurs in [s]: the text before the first
    [c] and the text after it. *)
Fixpoint cut (c : ascii) (s : string) : option (string * string) :=
  match s with
  | EmptyString => None
  | String a s' =>
      if Ascii.eqb a c then Some (EmptyString, s')
      else match cut c s' with
           | Some (l, r) => Some (String a l, r)
           | None => None
           end
  end.

Fixpoint string_forall (p : ascii -> bool) (s : string) : bool :=
  match s with
  | EmptyString => true
  | String c s' => p c && string_forall p s'
  end.

Fixpoint string_filter (p : ascii -> bool) (s : string) : string :=
  match s with
  | EmptyString => EmptyString
  | String c s' => if p c then String c (string_filter p s') else string_filter p s'
  end.

Fixpoint string_map (f : ascii -> ascii) (s : string) : string :=
  match s with
  | EmptyString => EmptyString
  | String c s' => String (f c) (string_map f s')
  end.

Definition in_range (lo hi : N) (c : ascii) : bool :=
  ((lo <=? N_of_ascii c) && (N_of_ascii c <=? hi))%N.

Definition is_ascii_alpha (c : ascii) : bool :=
  in_range 65 90 c || in_range 97 122 c.

(** [c in scheme_chars]: letters, digits and [+-.] *)
Definition is_scheme_char (c : ascii) : bool :=
  is_ascii_alpha c || in_range 48 57 c || char_in c "+-.".

Definition lower_char (c : ascii) : ascii :=
  if in_range 65 90 c then ascii_of_N (N_of_ascii c + 32) else c.

(** [url.lstrip(_WHATWG_C0_CONTROL_OR_SPACE)] *)
Definition is_c0_or_space (c : ascii) : bool := in_range 0 32 c.

(** [_UNSAFE_URL_BYTES_TO_REMOVE]: tab, carriage return, line feed *)
Definition is_unsafe_url_byte (c : ascii) : bool :=
  (N_of_ascii c =? 9)%N || (N_of_ascii c =? 13)%N || (N_of_ascii c =? 10)%N.

(** The scheme of a URL and the text after its colon. *)
Definition split_scheme (url : string) : string * string :=
  match url, cut ":" url with
  | String c0 _, Some (String s0 s', rest) =>
      if is_ascii_alpha c0 && string_forall is_scheme_char (String s0 s')
      then (string_map lower_char (String s0 s'), rest)
      else (EmptyString, url)
  | _, _ => (EmptyString, url)
  end.

(** [_splitnetloc(url, 2)] on the text after [//]: the host runs to the
    first of [/], [?] and [#]. *)
Fixpoint splitnetloc (s : string) : string * string :=
  match s with
  | EmptyString => (EmptyString, EmptyString)
  | String c s' =>
      if char_in c "/?#" then (EmptyString, s)
      else let '(n, r) := splitnetloc s' in (String c n, r)
  end.

(** [_splitparams]: the last segment of the path is cut at its first
    semicolon. *)
Fixpoint splitparams (url : string) : string * string :=
  match url with
  | EmptyString => (EmptyString, EmptyString)
  | String c s' =>
      if char_in "/" s' then let '(p, q) := splitparams s' in (String c p, q)
      else if Ascii.eqb c "/" then
        match cut ";" s' with
        | Some (l, r) => (String c l, r)
        | None => (url, EmptyString)
        end
      else
        match cut ";" url with
        | Some (l, r) => (l, r)
        | None => (url, EmptyString)
        end
  end.

(** [uses_params] *)
Definition uses_params : list string :=
  [ EmptyString; "ftp"; "hdl"; "prospero"; "http"; "imap"; "https"; "shttp"; "rtsp";
    "rtspu"; "sip"; "sips"; "mms"; "sftp"; "tel" ].

Definition urlparse (url : string) : result ParseResult :=
  let url := lstrip_with is_c0_or_space url in
  let url := string_filter (fun c => negb (is_unsafe_url_byte c)) url in
  let '(scheme, url) := split_scheme url in
  let? located :=
    if startswith "//" url then
      let '(n, r) := splitnetloc (drop_string 2 url) in
      if xorb (char_in "[" n) (char_in "]" n) then
        Raise (ValueError "Invalid IPv6 URL")
      else if char_in "[" n then Raise (ExternalError "bracketed host")
      else Ok (n, r)
    else Ok (EmptyString, url) in
  let '(netloc, url) := located in
  let '(url, fragment) :=
    match cut "#" url with Some (l, r) => (l, r) | None => (url, EmptyString) end in
  let '(url, query) :=
    match cut "?" url with Some (l, r) => (l, r) | None => (url, EmptyString) end in
  let '(url, params) :=
    if bool_decide (scheme ∈ uses_params) && char_in ";" url
    then splitparams url else (url, EmptyString) in
  Ok {| scheme := scheme; netloc := netloc; path := url; params := params;
        query := query; fragment := fragment |}.

(** [_resolve_git_package] *)
Definition _resolve_git_package (package : string)
    : result (string * string * string * list string) :=
  match REG_GITPACKAGE_match package with
  | None => Raise (ValueError ("Invalid git package: " +:+ package))
  | Some (repo_url, branch, subdirectory) =>
      let? parsed := urlparse repo_url in
      let path_parts := netloc parsed :: split "/" (path parsed) in
      Ok (repo_url, branch, subdirectory, path_parts)
  end.

(** ** Build output *)

(** The tail of [_build_bento]: from the decoded output of the build
    command to the list it returns. *)
Definition parse_build_output (build_result : string) : list string :=
  let tag := strip build_result in
  let tag := if startswith "__tag__:" tag then strip_chars "__tag__:" tag else tag in
  split ":" tag.

(** ** The world of an invocation

    What the program touches outside itself: the file system, the
    processes it starts ([bentoml], [git], [aws]), the decoders of their
    output ([yaml], [json]), the operator at the prompt and the source of
    random identifiers.  The messages the program prints are not
    modelled. *)

(** An absolute path, as the list of its components under the root. *)
Definition fspath : Type := list string.

(** The components of a path segment given as text: [pathlib] drops the
    empty components and the components [.]. *)
Definition components (s : string) : fspath :=
  filter (fun c => c <> EmptyString /\ c <> ".") (split "/" s).

(** [base.joinpath] of parts without a slash. *)
Definition joinpath (base : fspath) (parts : list string) : fspath :=
  base ++ filter (fun c => c <> EmptyString /\ c <> ".") parts.

(** [base / s]: a segment that starts with a slash replaces the base. *)
Definition path_div (base : fspath) (s : string) : fspath :=
  if startswith "/" s then components s else base ++ components s.

(** [p.parent] *)
Definition parent (p : fspath) : fspath := removelast p.

(** [str(p)] *)
Definition path_str (p : fspath) : string :=
  String "/" (join "/" p).

(** The proper and improper ancestors of a path, the root excluded. *)
Fixpoint ancestors (p : fspath) : list fspath :=
  match p with
  | [] => []
  | c :: p' => [c] :: map (cons c) (ancestors p')
  end.

(** How a started process ends: with an exit status and its standard
    output, or not started at all (the executable is missing). *)
Inductive proc_outcome : Type :=
  | Exited (returncode : Z) (stdout : string)
  | NotStarted.

(** What an invocation did to the outside, in order. *)
Inductive event : Type :=
  | Exec (cmd : list string) (cwd : option fspath)
  | Ask (message : string) (choices : list (string * string))
  | WriteFile (file : fspath) (content : string).

(** [resources] of a service configuration.  [gpu] is [None] when the key
    is absent and [Some None] when its value is null. *)
Record Resources : Type := {
  gpu : option (option Z);
  gpu_type : option string;
  gpu_memory : option Q
}.

(** A service of the artifact; [resources] is
    [service["config"]["resources"]], [None] when a key on the way is
    absent. *)
Record Service : Type := {
  resources : option Resources
}.

(** The document [bentoml get] prints. *)
Record BentoInfo : Type := {
  services : list Service
}.

(** The collaborators, over a state [Ext] of everything that is not the
    local file system (the artifact store, the cloud account, the remote
    repositories, the operator). *)
Class Collaborators (Ext : Type) : Type := {
  (** [pathlib.Path.home()] *)
  HOME_DIR : fspath;
  (** [cllama.spec.GPU_MEMORY] *)
  GPU_MEMORY : string -> option Q;
  (** a process started with a command line and a working directory *)
  spawn : list string -> option fspath -> gset fspath -> Ext ->
          proc_outcome * (gset fspath * Ext);
  (** [shutil.rmtree(p, ignore_errors=True)]: the paths the removal
      could not remove (a file or a link in place of the directory, a
      missing permission); its errors are ignored *)
  rmtree_keeps : fspath -> gset fspath -> Ext -> gset fspath;
  (** [p.mkdir(parents=True, exist_ok=True)]: the error it ends with, if
      any ([FileExistsError], [NotADirectoryError], [PermissionError]),
      and how many of the directories on the way it made before *)
  mkdir_error : fspath -> gset fspath -> Ext -> option (exn * nat);
  (** lines 138-141 of [_get_bento_info]: the output is decoded, every
      line is cut at its first [!!] and the text is read by
      [yaml.safe_load] *)
  load_bento_info : string -> result BentoInfo;
  (** [json.loads(out)["InstanceTypes"]] *)
  load_instance_types : string -> result (list InstanceSpec);
  (** [json.loads(out)["SecurityGroups"]], each group as its ["GroupId"] *)
  load_security_groups : string -> result (list string);
  (** [json.loads(out)["GroupId"]] *)
  load_group_id : string -> result string;
  (** [questionary.select(message, choices).ask()] with choices to
      show: the value of the chosen entry, [None] when the operator
      cancels *)
  select_ask : string -> list (string * string) -> Ext ->
               result (option string) * Ext;
  (** [str(uuid.uuid4())] *)
  uuid4 : Ext -> string * Ext
}.

Record World (Ext : Type) : Type := {
  fs : gset fspath;
  ext : Ext;
  trace : list event
}.
Arguments fs {Ext} w.
Arguments ext {Ext} w.
Arguments trace {Ext} w.

(** A computation with effects: it ends with a value or an exception, in
    a new world. *)
Definition M (Ext A : Type) : Type := World Ext -> result A * World Ext.

Definition ret {Ext A} (a : A) : M Ext A := fun w => (Ok a, w).

Definition raise {Ext A} (e : exn) : M Ext A := fun w => (Raise e, w).

Definition bind {Ext A B} (m : M Ext A) (k : A -> M Ext B) : M Ext B :=
  fun w =>
    match m w with
    | (Ok a, w') => k a w'
    | (Raise e, w') => (Raise e, w')
    end.

(** A pure computation that may raise. *)
Definition lift {Ext A} (r : result A) : M Ext A := fun w => (r, w).

(** [try: m except: h]: the handler sees the exception and either takes
    it ([Some]) or lets it pass ([None]). *)
Definition try_except {Ext A} (m : M Ext A) (h : exn -> option (M Ext A))
    : M Ext A :=
  fun w =>
    match m w with
    | (Ok a, w') => (Ok a, w')
    | (Raise e, w') =>
        match h e with
        | Some k => k w'
        | None => (Raise e, w')
        end
    end.

Declare Scope eff_scope.
Delimit Scope eff_scope with eff.
Notation "'let*' x ':=' m 'in' k" := (bind m (fun x => k))
  (at level 10, x pattern, m at level 100, k at level 200) : eff_scope.
Notation "m ';;' k" := (bind m (fun _ => k))
  (at level 100, k at level 200, right associativity) : eff_scope.
Local Open Scope eff_scope.

(** [MODEL_INFOS]: a dictionary keeps the order of its keys, so it is a
    list of entries. *)
Definition MODEL_INFOS : list (string * list (string * string)) :=
  [ ("llama2",
     [ ("7b", "git+https://github.com/bojiang/bentovllm@main#subdirectory=llama2-7b-chat");
       ("7b-chat", "git+https://github.com/bojiang/bentovllm@main#subdirectory=llama2-7b-chat");
       ("7b-chat-fp16", "git+https://github.com/bojiang/bentovllm@main#subdirectory=llama2-7b-chat") ]) ].

(** [d[key]] on a dictionary given by its entries. *)
Fixpoint dict_get {V} (key : string) (d : list (string * V)) : result V :=
  match d with
  | [] => Raise (KeyError key)
  | (k, v) :: d' => if String.eqb k key then Ok v else dict_get key d'
  end.

(** [next(iter(d.keys()))] *)
Definition first_key {V} (d : list (string * V)) : result string :=
  match d with
  | [] => Raise StopIteration
  | (k, _) :: _ => Ok k
  end.

(** [_get_it_card]: the label of an instance type at the prompt. *)
Definition _get_it_card (spec : InstanceSpec) : result string :=
  let? cpus := getitem "VCpuInfo" (DefaultVCpus spec) in
  let? mem := getitem "MemoryInfo" (SizeInMiB spec) in
  let? info := getitem "GpuInfo" (GpuInfo spec) in
  let? gpus := getitem "Gpus" (Gpus info) in
  let? g := head_r gpus in
  let? name := getitem "Name" (Name g) in
  let? count := getitem "Count" (Count g) in
  Ok (InstanceType spec +:+ " (cpus: " +:+ pretty cpus +:+ ", mem: " +:+ pretty mem
      +:+ ", gpu: " +:+ name +:+ " x " +:+ pretty count +:+ ")").

(** [INIT_SCRIPT_TEMPLATE.format(repo=repo, subdirectory=subdirectory)] *)
Definition INIT_SCRIPT (repo subdirectory : string) : string :=
  "pip3 install bentoml
git clone " +:+ repo +:+ " bento_repo
cd bento_repo/" +:+ subdirectory +:+ "
pip3 install -r requirements.txt
/home/ubuntu/.local/bin/bentoml serve . --port 80
".

Section Program.
Context {Ext : Type} `{!Collaborators Ext}.

Definition CLLAMA_HOME : fspath := HOME_DIR ++ [".cllama"].
Definition BENTOML_HOME : fspath := CLLAMA_HOME ++ ["bentoml"].
Definition REPO_DIR : fspath := CLLAMA_HOME ++ ["repos"].
Definition CACHE_DIR : fspath := CLLAMA_HOME ++ ["cache"].

(** [subprocess.check_output(cmd, cwd=cwd)]: the process runs to its
    end; an exit status other than 0 raises [CalledProcessError]. *)
Definition check_output (cmd : list string) (cwd : option fspath) : M Ext string :=
  fun w =>
    let '(o, (fs', ext')) := spawn cmd cwd (fs w) (ext w) in
    let w' := {| fs := fs'; ext := ext'; trace := trace w ++ [Exec cmd cwd] |} in
    match o with
    | Exited rc out =>
        if rc =? 0 then (Ok out, w') else (Raise (CalledProcessError cmd rc), w')
    | NotStarted => (Raise (OSError cmd), w')
    end.

(** [subprocess.check_call(cmd)] and [subprocess.run(cmd, check=True)] *)
Definition check_call (cmd : list string) : M Ext unit :=
  let* _ := check_output cmd None in ret tt.

(** [p.exists()] *)
Definition path_exists (p : fspath) : M Ext bool :=
  fun w => (Ok (bool_decide (p ∈ fs w)), w).

(** [shutil.rmtree(p, ignore_errors=True)]: a removal that never
    raises.  Nothing outside the tree of [p] is touched; of the tree,
    what could not be removed stays. *)
Definition rmtree (p : fspath) : M Ext unit :=
  fun w =>
    (Ok tt, {| fs := filter (fun q => ~ p `prefix_of` q
                                      \/ q ∈ rmtree_keeps p (fs w) (ext w)) (fs w);
               ext := ext w; trace := trace w |}).

(** [p.mkdir(parents=True, exist_ok=True)]: the directories on the way
    to [p] are made from the root down; an error ends the call and
    leaves the directories made so far. *)
Definition mkdir_parents (p : fspath) : M Ext unit :=
  fun w =>
    match mkdir_error p (fs w) (ext w) with
    | Some (e, made) =>
        (Raise e, {| fs := fs w ∪ list_to_set (take made (ancestors p));
                     ext := ext w; trace := trace w |})
    | None =>
        (Ok tt, {| fs := fs w ∪ list_to_set (ancestors p);
                   ext := ext w; trace := trace w |})
    end.

(** [questionary.select(message, choices=choices).ask()]:
    [questionary.select] refuses an empty list of choices with a
    [ValueError] before anything is shown. *)
Definition ask (message : string) (choices : list (string * string))
    : M Ext (option string) :=
  fun w =>
    match choices with
    | [] => (Raise (ValueError "A list of choices needs to be provided."), w)
    | _ :: _ =>
        let '(r, ext') := select_ask message choices (ext w) in
        (r, {| fs := fs w; ext := ext';
               trace := trace w ++ [Ask message choices] |})
    end.

(** [open(file, "w")] and [f.write(content)] *)
Definition write_file (file : fspath) (content : string) : M Ext unit :=
  fun w =>
    (Ok tt, {| fs := fs w ∪ {[ file ]}; ext := ext w;
               trace := trace w ++ [WriteFile file content] |}).

Definition fresh_uuid : M Ext string :=
  fun w =>
    let '(u, ext') := uuid4 (ext w) in
    (Ok u, {| fs := fs w; ext := ext'; trace := trace w |}).

(** [_get_bento_info] *)
Definition _get_bento_info (tag : string) : M Ext BentoInfo :=
  let cmd := ["bentoml"; "get"; tag] in
  let* get_result := check_output cmd None in
  lift (load_bento_info get_result).

(** [_build_bento] *)
Definition _build_bento (bento_project_dir : fspath) (_model tag : string)
    : M Ext (list string) :=
  let cmd := ["bentoml"; "build"; "."; "--version"; tag; "--output"; "tag"] in
  let* build_result := check_output cmd (Some bento_project_dir) in
  ret (parse_build_output build_result).

Definition authorize_ingress (security_group_id port : string) : list string :=
  ["aws"; "ec2"; "authorize-security-group-ingress"; "--group-id";
   security_group_id; "--protocol"; "tcp"; "--port"; port; "--cidr"; "0.0.0.0/0"].

Definition describe_security_groups (group_name : string) : list string :=
  ["aws"; "ec2"; "describe-security-groups"; "--filters";
   "Name=group-name,Values=" +:+ group_name].

Definition create_security_group (group_name : string) : list string :=
  ["aws"; "ec2"; "create-security-group"; "--group-name"; group_name;
   "--description"; "Default VPC security group for cllama services"].

(** [_ensure_aws_security_group] *)
Definition _ensure_aws_security_group (group_name : string) : M Ext string :=
  try_except
    (let* existing_groups := check_output (describe_security_groups group_name) None in
     let* existing_groups := lift (load_security_groups existing_groups) in
     match existing_groups with
     | group :: _ => ret group
     | [] =>
         let* result := check_output (create_security_group group_name) None in
         let* security_group_id := lift (load_group_id result) in
         check_call (authorize_ingress security_group_id "80") ;;
         check_call (authorize_ingress security_group_id "443") ;;
         check_call (authorize_ingress security_group_id "22") ;;
         ret security_group_id
     end)
    (fun e =>
       match e with
       | CalledProcessError _ _ =>
           Some (raise (RuntimeError "Failed to create security group: " e))
       | _ => None
       end).

(** The command line of the clone. *)
Definition git_clone (branch repo : string) (repo_dir : fspath) : list string :=
  ["git"; "clone"; "--branch"; branch; repo; path_str repo_dir].

(** Lines 285-286 of [run]: a forced rebuild first tries to remove the
    storage directory. *)
Definition clear_repo (repo_dir : fspath) (force_rebuild : bool) : M Ext unit :=
  if force_rebuild then rmtree repo_dir else ret tt.

(** Lines 289-296 of [run]: the clone, and the attempt to remove what
    it left when it fails.  The directory above is made outside the
    [try]. *)
Definition clone_repo (repo branch : string) (repo_dir : fspath) : M Ext unit :=
  mkdir_parents (parent repo_dir) ;;
  try_except (check_call (git_clone branch repo repo_dir))
    (fun e => Some (rmtree repo_dir ;; raise e)).

(** Lines 285-296 of [run]: the storage directory is cloned into unless
    it exists. *)
Definition ensure_repo (repo branch : string) (repo_dir : fspath)
    (force_rebuild : bool) : M Ext unit :=
  clear_repo repo_dir force_rebuild ;;
  let* present := path_exists repo_dir in
  if negb present then clone_repo repo branch repo_dir else ret tt.

(** Lines 298-300 of [run]: the build and the query of what it built. *)
Definition build_and_query (repo_dir : fspath) (subdirectory model tag : string)
    : M Ext BentoInfo :=
  let bento_project_dir := path_div repo_dir subdirectory in
  let* built := _build_bento bento_project_dir model tag in
  match built with
  | [bento; tag] => _get_bento_info (bento +:+ ":" +:+ tag)
  | _ => raise (ValueError "unpack")
  end.

(** Lines 283-300 of [run]: the handler of a failed first query. *)
Definition build_path (repo branch subdirectory : string) (path_parts : list string)
    (model tag : string) (force_rebuild : bool) : M Ext BentoInfo :=
  let repo_dir := joinpath REPO_DIR path_parts in
  ensure_repo repo branch repo_dir force_rebuild ;;
  build_and_query repo_dir subdirectory model tag.

(** Lines 280-300 of [run]: the artifact is queried, and built when the
    query fails. *)
Definition get_or_build (repo branch subdirectory : string)
    (path_parts : list string) (model tag : string) (force_rebuild : bool)
    : M Ext BentoInfo :=
  try_except (_get_bento_info (model +:+ ":" +:+ tag))
    (fun e =>
       match e with
       | CalledProcessError _ _ =>
           Some (build_path repo branch subdirectory path_parts model tag force_rebuild)
       | _ => None
       end).

(** Lines 345-373 of [run]: what follows the choice [it] of an instance
    type.  The command of the launch is printed, not started; joining
    its words fails when [it] is [None]. *)
Definition launch_selected (repo subdirectory : string) (it : option string)
    : M Ext unit :=
  let* security_group_id := _ensure_aws_security_group "cllama-http-default" in
  let* u := fresh_uuid in
  let init_script_file :=
    path_div CACHE_DIR ("init_script_" +:+ String.substring 0 8 u +:+ ".sh") in
  write_file init_script_file (INIT_SCRIPT repo subdirectory) ;;
  match it with
  | Some _ => ret tt
  | None => raise TypeError
  end.

(** Lines 311-376 of [run]: the branch of the provider [aws]. *)
Definition provision_aws (repo subdirectory : string) (bento_info : BentoInfo)
    : M Ext unit :=
  let cmd := ["aws"; "ec2"; "describe-instance-types"] in
  let* _instance_types := check_output cmd None in
  let* available_it_infos := lift (load_instance_types _instance_types) in
  let* service := lift (head_r (services bento_info)) in
  match resources service with
  | None => raise (ValueError "Service config is missing")
  | Some res =>
      match gpu res with
      | Some gpu_count =>
          let* supported_its :=
            lift (_filter_instance_types GPU_MEMORY available_it_infos gpu_count
                    (gpu_memory res) (gpu_type res) "match") in
          let* choices :=
            lift (map_r (fun it_info =>
                           let? title := _get_it_card it_info in
                           Ok (title, InstanceType it_info)) supported_its) in
          let* it := ask "Select an instance type" choices in
          launch_selected repo subdirectory it
      | None => raise (ValueError "GPU is required for now")
      end
  end.

(** [run], over the table of the known models. *)
Definition run_with (infos : list (string * list (string * string)))
    (model tag : string) (force_rebuild : bool) : M Ext unit :=
  let* tag :=
    if String.eqb tag "latest"
    then lift (let? tags := dict_get model infos in first_key tags)
    else ret tag in
  let* package := lift (let? tags := dict_get model infos in dict_get tag tags) in
  let* resolved := lift (_resolve_git_package package) in
  let '(repo, branch, subdirectory, path_parts) := resolved in
  let* bento_info :=
    get_or_build repo branch subdirectory path_parts model tag force_rebuild in
  if negb (length (services bento_info) =? 1)%nat then
    raise (ValueError "Only support one service currently")
  else
    let* cloud_provider :=
      ask "Select a cloud provider"
        [("aws", "aws"); ("gcp(not supported)", "gcp(not supported)");
         ("azure(not supported))", "azure(not supported))")] in
    if bool_decide (cloud_provider = Some "aws")
    then provision_aws repo subdirectory bento_info
    else ret tt.

(** [run] *)
Definition run (model tag : string) (force_rebuild : bool) : M Ext unit :=
  run_with MODEL_INFOS model tag force_rebuild.
End Program.

(** ** Sample data

    Descriptors as the catalog of the cloud lists them, a service
    configuration and a table of GPU families, for the scenarios of the
    specification. *)

Definition gpu_entry (count : Z) (name : string) (mib : Z) : Gpu :=
  {| Count := Some count; Name := Some name; GpuSizeInMiB := Some mib |}.

Definition g4dn_xlarge : InstanceSpec :=
  {| InstanceType := "g4dn.xlarge"; DefaultVCpus := Some 4; SizeInMiB := Some 16384;
     GpuInfo := Some {| Gpus := Some [gpu_entry 1 "T4" 16384] |} |}.

Definition p3dn_2xlarge : InstanceSpec :=
  {| InstanceType := "p3dn.2xlarge"; DefaultVCpus := Some 8; SizeInMiB := Some 65536;
     GpuInfo := Some {| Gpus := Some [gpu_entry 2 "V100" 32768] |} |}.

Definition m5_24xlarge : InstanceSpec :=
  {| InstanceType := "m5.24xlarge"; DefaultVCpus := Some 96; SizeInMiB := Some 393216;
     GpuInfo := None |}.

Definition m5_metal : InstanceSpec :=
  {| InstanceType := "m5.metal"; DefaultVCpus := Some 96; SizeInMiB := Some 393216;
     GpuInfo := None |}.

(** A table of GPU families with one entry. *)
Definition sample_GPU_MEMORY (gpu_type : string) : option Q :=
  if String.eqb gpu_type "nvidia-tesla-t4" then Some (Qmake 16 1) else None.

(** ** A simulated world

    Collaborators simple enough to run: an artifact store that knows the
    tags built so far, a remote that can be reached or not, a cloud account
    with its security groups, an operator who takes the first choice of
    a prompt, and a file system that lets every directory be made and
    every tree be removed. *)

Record Sim : Type := {
  store : list string;
  remote_ok : bool;
  groups : list (string * string)
}.

Definition sim_bento_info : BentoInfo :=
  {| services :=
       [ {| resources :=
              Some {| gpu := Some (Some 0); gpu_type := None;
                      gpu_memory := Some (Qmake 16 1) |} |} ] |}.

Definition sim_spawn (cmd : list string) (cwd : option fspath)
    (files : gset fspath) (sim : Sim) : proc_outcome * (gset fspath * Sim) :=
  match cmd with
  | ["bentoml"; "get"; tag] =>
      if bool_decide (tag ∈ store sim) then (Exited 0 tag, (files, sim))
      else (Exited 1 EmptyString, (files, sim))
  | ["bentoml"; "build"; "."; "--version"; _; "--output"; "tag"] =>
      (Exited 0 "__tag__:m2:v2
",
       (files, {| store := "m2:v2" :: store sim; remote_ok := remote_ok sim;
                  groups := groups sim |}))
  | ["git"; "clone"; "--branch"; _; _; dir] =>
      (Exited (if remote_ok sim then 0 else 128) EmptyString,
       (files ∪ {[ components dir ]}, sim))
  | ["aws"; "ec2"; "describe-security-groups"; "--filters"; f] =>
      (Exited 0
         (join ","
            (map snd (List.filter
                        (fun g => String.eqb ("Name=group-name,Values=" +:+ fst g) f)
                        (groups sim)))),
       (files, sim))
  | ["aws"; "ec2"; "create-security-group"; "--group-name"; name; "--description"; _] =>
      if bool_decide (name ∈ map fst (groups sim)) then
        (Exited 254 EmptyString, (files, sim))
      else
        let id := "sg-" +:+ pretty (length (groups sim)) in
        (Exited 0 id,
         (files, {| store := store sim; remote_ok := remote_ok sim;
                    groups := groups sim ++ [(name, id)] |}))
  | ["aws"; "ec2"; "authorize-security-group-ingress"; "--group-id"; _;
     "--protocol"; _; "--port"; _; "--cidr"; _] =>
      (Exited 0 EmptyString, (files, sim))
  | ["aws"; "ec2"; "describe-instance-types"] =>
      (Exited 0 "InstanceTypes", (files, sim))
  | _ => (NotStarted, (files, sim))
  end.

Definition sim_load_security_groups (out : string) : result (list string) :=
  Ok (filter (fun id => id <> EmptyString) (split "," out)).

Definition sim_select_ask (message : string) (choices : list (string * string))
    (sim : Sim) : result (option string) * Sim :=
  (match choices with
   | (_, value) :: _ => Ok (Some value)
   | [] => Raise (ValueError "A list of choices needs to be provided.")
   end, sim).

#[export] Instance sim_collaborators : Collaborators Sim := {|
  HOME_DIR := ["home"; "operator"];
  GPU_MEMORY := sample_GPU_MEMORY;
  spawn := sim_spawn;
  rmtree_keeps := fun _ _ _ => ∅;
  mkdir_error := fun _ _ _ => None;
  load_bento_info := fun _ => Ok sim_bento_info;
  load_instance_types := fun _ => Ok [g4dn_xlarge; p3dn_2xlarge];
  load_security_groups := sim_load_security_groups;
  load_group_id := fun out => Ok out;
  select_ask := sim_select_ask;
  uuid4 := fun sim => ("0f8fad5b-d9cb-469f-a165-70867728950e", sim)
|}.

(** The simulated world on another file system: one that lets nothing
    be removed when [locked] is set, and on which making a directory ends
    with a given error. *)
Definition sim_on_files (locked : bool) (mkdir_fails : option (exn * nat))
    : Collaborators Sim := {|
  HOME_DIR := ["home"; "operator"];
  GPU_MEMORY := sample_GPU_MEMORY;
  spawn := sim_spawn;
  rmtree_keeps := fun _ files _ => if locked then files else ∅;
  mkdir_error := fun _ _ _ => mkdir_fails;
  load_bento_info := fun _ => Ok sim_bento_info;
  load_instance_types := fun _ => Ok [g4dn_xlarge; p3dn_2xlarge];
  load_security_groups := sim_load_security_groups;
  load_group_id := fun out => Ok out;
  select_ask := sim_select_ask;
  uuid4 := fun sim => ("0f8fad5b-d9cb-469f-a165-70867728950e", sim)
|}.

(** The table of the scenarios: one model [m] with one tag [v]. *)
Definition sim_infos : list (string * list (string * string)) :=
  [ ("m", [ ("v", "git+https://github.com/org/repo@main#subdirectory=sub/dir") ]) ].

(** The world before an invocation: the directories made at import, an
    empty store, an account without security groups. *)
Definition sim_world (reachable : bool) : World Sim :=
  {| fs := list_to_set (ancestors (["home"; "operator"; ".cllama"; "repos"]))
           ∪ {[ ["home"; "operator"; ".cllama"; "cache"] ]};
     ext := {| store := []; remote_ok := reachable; groups := [] |};
     trace := [] |}.

(** ** More of the simulated world, and the events of an invocation *)

(** What follows a greedy [.+] at the end of the pattern: nothing, or a
    line feed. *)
Definition at_line_end (rest : string) : Prop :=
  rest = EmptyString \/ exists r, rest = String "010" r.

(** A process table of the simulated world in which the build prints a
    given text. *)
Definition sim_spawn_printing (text : string) (cmd : list string) (cwd : option fspath)
    (files : gset fspath) (sim : Sim) : proc_outcome * (gset fspath * Sim) :=
  match cmd with
  | "bentoml" :: "build" :: _ => (Exited 0 text, (files, sim))
  | _ => sim_spawn cmd cwd files sim
  end.

(** A process table of the simulated world in which the cloud refuses
    the ingress rule of one port. *)
Definition sim_spawn_refusing (port : string) (cmd : list string) (cwd : option fspath)
    (files : gset fspath) (sim : Sim) : proc_outcome * (gset fspath * Sim) :=
  if String.eqb (nth 2 cmd EmptyString) "authorize-security-group-ingress"
     && String.eqb (nth 8 cmd EmptyString) port
  then (Exited 254 EmptyString, (files, sim))
  else sim_spawn cmd cwd files sim.

(** Collaborators of the simulated world with a given process table, a
    given document of the artifact and a given catalog. *)
Definition sim_custom
    (processes : list string -> option fspath -> gset fspath -> Sim ->
                 proc_outcome * (gset fspath * Sim))
    (info : BentoInfo) (catalog : list InstanceSpec) : Collaborators Sim := {|
  HOME_DIR := ["home"; "operator"];
  GPU_MEMORY := sample_GPU_MEMORY;
  spawn := processes;
  rmtree_keeps := fun _ _ _ => ∅;
  mkdir_error := fun _ _ _ => None;
  load_bento_info := fun _ => Ok info;
  load_instance_types := fun _ => Ok catalog;
  load_security_groups := sim_load_security_groups;
  load_group_id := fun out => Ok out;
  select_ask := sim_select_ask;
  uuid4 := fun sim => ("0f8fad5b-d9cb-469f-a165-70867728950e", sim)
|}.

(** An event that launches an instance: a command [aws ec2 run-instances]. *)
Definition starts_instance (ev : event) : bool :=
  match ev with
  | Exec ("aws" :: "ec2" :: "run-instances" :: _) _ => true
  | _ => false
  end.

(** A computation that adds to the trace, and only events of one kind. *)
Definition adds_only {Ext A : Type} (P : event -> Prop) (m : M Ext A) : Prop :=
  forall w, exists evs, trace (snd (m w)) = trace w ++ evs /\ Forall P evs.

(** The five commands of [_ensure_aws_security_group], in their order. *)
Definition security_group_commands (group_name id : string) : list event :=
  [ Exec ["aws"; "ec2"; "describe-security-groups"; "--filters";
          "Name=group-name,Values=" +:+ group_name] None;
    Exec ["aws"; "ec2"; "create-security-group"; "--group-name"; group_name;
          "--description"; "Default VPC security group for cllama services"] None;
    Exec ["aws"; "ec2"; "authorize-security-group-ingress"; "--group-id"; id;
          "--protocol"; "tcp"; "--port"; "80"; "--cidr"; "0.0.0.0/0"] None;
    Exec ["aws"; "ec2"; "authorize-security-group-ingress"; "--group-id"; id;
          "--protocol"; "tcp"; "--port"; "443"; "--cidr"; "0.0.0.0/0"] None;
    Exec ["aws"; "ec2"; "authorize-security-group-ingress"; "--group-id"; id;
          "--protocol"; "tcp"; "--port"; "22"; "--cidr"; "0.0.0.0/0"] None ].

(** * Properties *)

(** ** Results, filters and sorts *)

Lemma rbind_Ok {A B} (r : result A) (k : A -> result B) (b : B) :
  rbind r k = Ok b -> exists a, r = Ok a /\ k a = Ok b.
Proof. destruct r as [a|e]; simpl; [eauto | discriminate]. Qed.

Lemma rbind_Raise {A B} (r : result A) (k : A -> result B) (e : exn) :
  rbind r k = Raise e -> r = Raise e \/ exists a, r = Ok a /\ k a = Raise e.
Proof. destruct r as [a|e']; simpl; [eauto | intros [= ->]; auto]. Qed.

Lemma filter_r_Ok {A} (f : A -> result bool) (l r : list A) :
  filter_r f l = Ok r ->
  Forall (fun x => is_ok (f x) = true) l /\ r = List.filter (accepts f) l.
Proof.
  revert r; induction l as [|x l IH]; simpl; intros r H.
  - injection H as <-. split; [constructor | reflexivity].
  - apply rbind_Ok in H as (b & Hb & H).
    apply rbind_Ok in H as (r' & Hr' & H). injection H as <-.
    destruct (IH _ Hr') as [Hall ->]. split.
    + constructor; [now rewrite Hb | exact Hall].
    + assert (accepts f x = b) as -> by (unfold accepts; rewrite Hb; now destruct b).
      reflexivity.
Qed.

Lemma filter_r_total {A} (f : A -> result bool) (l : list A) :
  Forall (fun x => is_ok (f x) = true) l ->
  filter_r f l = Ok (List.filter (accepts f) l).
Proof.
  induction 1 as [|x l Hx _ IH]; simpl; [reflexivity|].
  rewrite IH. destruct (f x) as [b|e] eqn:E; [|discriminate]. simpl.
  assert (accepts f x = b) as -> by (unfold accepts; rewrite E; now destruct b).
  reflexivity.
Qed.

Lemma filter_r_Raise {A} (f : A -> result bool) (l : list A) (e : exn) :
  filter_r f l = Raise e -> exists x, In x l /\ f x = Raise e.
Proof.
  induction l as [|x l IH]; simpl; [discriminate|]. intros H.
  apply rbind_Raise in H as [H | (b & Hb & H)]; [exists x; auto|].
  apply rbind_Raise in H as [H | (r & _ & H)]; [|discriminate].
  destruct (IH H) as (y & Hy & Hfy). exists y; auto.
Qed.

Lemma map_r_Ok {A B} (f : A -> result B) (l : list A) (r : list B) :
  map_r f l = Ok r -> Forall2 (fun x y => f x = Ok y) l r.
Proof.
  revert r; induction l as [|x l IH]; simpl; intros r H.
  - injection H as <-. constructor.
  - apply rbind_Ok in H as (y & Hy & H).
    apply rbind_Ok in H as (r' & Hr' & H). injection H as <-.
    constructor; auto.
Qed.

Lemma map_r_total {A B} (f : A -> result B) (l : list A) :
  Forall (fun x => is_ok (f x) = true) l -> exists r, map_r f l = Ok r.
Proof.
  induction 1 as [|x l Hx _ [r IH]]; simpl; [eauto|].
  destruct (f x) as [y|e]; [|discriminate]. simpl. rewrite IH. simpl. eauto.
Qed.

Lemma map_r_Raise {A B} (f : A -> result B) (l : list A) (e : exn) :
  map_r f l = Raise e -> exists x, In x l /\ f x = Raise e.
Proof.
  induction l as [|x l IH]; simpl; [discriminate|]. intros H.
  apply rbind_Raise in H as [H | (b & Hb & H)]; [exists x; auto|].
  apply rbind_Raise in H as [H | (r & _ & H)]; [|discriminate].
  destruct (IH H) as (y & Hy & Hfy). exists y; auto.
Qed.

Lemma Forall2_combine_snd {A B} (P : A -> B -> Prop) (l : list A) (ks : list B) :
  Forall2 P l ks -> map snd (combine ks l) = l.
Proof. induction 1; simpl; congruence. Qed.

Lemma insert_by_Permutation {A K} (lt : K -> K -> bool) (x : K * A) l :
  Permutation (insert_by lt x l) (x :: l).
Proof.
  induction l as [|y l IH]; simpl; [reflexivity|].
  destruct (lt y.1 x.1); [|reflexivity].
  rewrite IH. apply perm_swap.
Qed.

Lemma sort_by_Permutation {A K} (lt : K -> K -> bool) (l : list (K * A)) :
  Permutation (sort_by lt l) l.
Proof.
  induction l as [|x l IH]; simpl; [reflexivity|].
  rewrite insert_by_Permutation. now rewrite IH.
Qed.

Lemma sorted_Permutation {A K} (lt : K -> K -> bool) (key : A -> result K)
    (l r : list A) :
  sorted lt key l = Ok r -> Permutation r l.
Proof.
  unfold sorted. intros H. apply rbind_Ok in H as (ks & Hks & H).
  injection H as <-. apply map_r_Ok in Hks.
  rewrite sort_by_Permutation. now rewrite (Forall2_combine_snd _ _ _ Hks).
Qed.

(** ** The instance matcher keeps eligible descriptors only *)

Lemma _filter_instance_types_Ok tbl catalog gpu_count gpu_memory gpu_type level out :
  _filter_instance_types tbl catalog gpu_count gpu_memory gpu_type level = Ok out ->
  exists m,
    resolve_gpu_memory tbl gpu_memory gpu_type = Ok m /\
    Forall (fun d => is_ok (_check_instance gpu_count m level d) = true) catalog /\
    Permutation out (List.filter (accepts (_check_instance gpu_count m level)) catalog).
Proof.
  unfold _filter_instance_types. intros H.
  apply rbind_Ok in H as (m & Hm & H). apply rbind_Ok in H as (kept & Hkept & H).
  exists m. apply filter_r_Ok in Hkept as [Hall ->].
  split; [exact Hm|]. split; [exact Hall|]. eapply sorted_Permutation, H.
Qed.

Lemma Qeq_bool_true (x y : Q) : Qeq_bool x y = true -> Qeq x y.
Proof. apply Qeq_bool_iff. Qed.

Lemma Qle_bool_true (x y : Q) : Qle_bool x y = true -> Qle x y.
Proof. apply Qle_bool_iff. Qed.

(** C1.  Every descriptor the filter returns satisfies the eligibility
    predicate.  With a requirement of no GPU, a returned descriptor has no
    "GpuInfo".  With a requirement of [c > 0] GPUs and the memory [m] the
    requirement resolves to, the first GPU entry of a returned descriptor
    has a count and a memory (its MiB divided by 1024) equal to [c] and
    [m] at the level "match" (Exact), and each at least [c] and [m] at the
    level "usable". *)
Theorem C1_filter_eligible tbl catalog gpu_count gpu_memory gpu_type level out d :
  _filter_instance_types tbl catalog gpu_count gpu_memory gpu_type level = Ok out ->
  In d out ->
  (gpu_count = Some 0 -> GpuInfo d = None) /\
  (forall c m, gpu_count = Some c -> 0 < c ->
     resolve_gpu_memory tbl gpu_memory gpu_type = Ok m ->
     exists g rest cnt mib,
       get_gpus [] d = g :: rest /\ Count g = Some cnt /\ GpuSizeInMiB g = Some mib /\
       (level = "match" -> cnt = c /\ Qeq (Qmake mib 1024) m) /\
       (level = "usable" -> c <= cnt /\ Qle m (Qmake mib 1024))).
Proof.
  intros H Hd.
  apply _filter_instance_types_Ok in H as (m & Hm & _ & Hperm).
  apply (Permutation_in _ Hperm) in Hd. apply filter_In in Hd as [_ Hacc].
  unfold accepts in Hacc.
  destruct (_check_instance gpu_count m level d) as [[|]|] eqn:Hchk; try discriminate.
  clear Hacc. unfold _check_instance in Hchk. split.
  - intros ->. simpl in Hchk. now destruct (GpuInfo d).
  - intros c m' -> Hc Hm'. rewrite Hm in Hm'. injection Hm' as <-.
    replace (c =? 0) with false in Hchk by (symmetry; apply Z.eqb_neq; lia).
    simpl in Hchk. destruct (get_gpus [] d) as [|g rest] eqn:Hg; [discriminate|].
    destruct (GpuSizeInMiB g) as [mib|] eqn:Hmib; [|discriminate].
    destruct (Count g) as [cnt|] eqn:Hcnt; [|discriminate]. simpl in Hchk.
    exists g, rest, cnt, mib.
    split; [reflexivity|]. split; [exact Hcnt|]. split; [exact Hmib|].
    destruct ((cnt =? c) && Qeq_bool (Qmake mib 1024) m) eqn:Heq.
    + apply andb_prop in Heq as [H1 H2]. apply Z.eqb_eq in H1.
      apply Qeq_bool_true in H2. split; intros _.
      * split; [exact H1 | exact H2].
      * split; [lia | rewrite H2; apply Qle_refl].
    + destruct ((c <=? cnt) && Qle_bool m (Qmake mib 1024)) eqn:Hge;
        [|discriminate].
      apply andb_prop in Hge as [H1 H2]. apply Z.leb_le in H1.
      apply Qle_bool_true in H2. split; intros ->.
      * discriminate.
      * split; assumption.
Qed.

(** ** When the instance matcher fails *)

Lemma _check_instance_Raise gpu_count m level d e :
  _check_instance gpu_count m level d = Raise e ->
  e = AssertionError \/ exists k, e = KeyError k.
Proof.
  unfold _check_instance.
  destruct (match gpu_count with Some c => c =? 0 | None => true end).
  - destruct (GpuInfo d); discriminate.
  - destruct (get_gpus [] d) as [|g rest]; [discriminate|].
    destruct (GpuSizeInMiB g) as [mib|]; simpl; [|intros [= <-]; eauto].
    destruct (Count g) as [cnt|]; simpl; [|intros [= <-]; eauto].
    repeat (match goal with |- context [if ?b then _ else _] => destruct b end);
      try discriminate.
    intros [= <-]; auto.
Qed.

Lemma _sort_key_Raise d e : _sort_key d = Raise e -> e = IndexError.
Proof.
  unfold _sort_key. destruct (split "." (InstanceType d)); simpl.
  - now intros [= <-].
  - destruct (get_gpus [empty_gpu] d); simpl; [now intros [= <-] | discriminate].
Qed.

Lemma split_nonempty sep s : split sep s <> [].
Proof.
  destruct s as [|c s]; simpl; [discriminate|].
  destruct (Ascii.eqb c sep); [discriminate|].
  destruct (split sep s); discriminate.
Qed.

Lemma _sort_key_cpu_only d : cpu_only d = true -> is_ok (_sort_key d) = true.
Proof.
  unfold cpu_only, _sort_key, get_gpus. destruct (GpuInfo d); [discriminate|].
  intros _. pose proof (split_nonempty "." (InstanceType d)).
  now destruct (split "." (InstanceType d)).
Qed.

Lemma _check_instance_no_gpu gpu_count m level d :
  gpu_count = Some 0 \/ gpu_count = None ->
  _check_instance gpu_count m level d = Ok (cpu_only d).
Proof.
  unfold _check_instance, cpu_only. intros [-> | ->]; simpl; now destruct (GpuInfo d).
Qed.

(** C3, as the code has it.  The filter fails with the missing-GPU-spec
    error (a [ValueError]) exactly when neither a GPU memory nor a GPU
    family is given, whatever the GPU count is; a family that the table
    does not resolve fails with a [KeyError]; and for a requirement of no
    GPU the filter succeeds, returning the descriptors without "GpuInfo",
    once a memory or a resolvable family is given. *)
Theorem C3_missing_gpu_spec tbl catalog gpu_count gpu_memory gpu_type level :
  ((exists msg, _filter_instance_types tbl catalog gpu_count gpu_memory gpu_type level
                = Raise (ValueError msg))
   <-> gpu_memory = None /\ gpu_type = None) /\
  (forall t, gpu_memory = None -> gpu_type = Some t -> tbl t = None ->
     _filter_instance_types tbl catalog gpu_count gpu_memory gpu_type level
     = Raise (KeyError t)) /\
  (forall m, resolve_gpu_memory tbl gpu_memory gpu_type = Ok m ->
     gpu_count = Some 0 \/ gpu_count = None ->
     exists out,
       _filter_instance_types tbl catalog gpu_count gpu_memory gpu_type level = Ok out /\
       Permutation out (List.filter cpu_only catalog)).
Proof.
  split; [split|split].
  - intros [msg H]. unfold _filter_instance_types in H.
    apply rbind_Raise in H as [H | (m & Hm & H)].
    + unfold resolve_gpu_memory in H. destruct gpu_memory; [discriminate|].
      destruct gpu_type as [t|]; [|auto].
      unfold getitem in H. destruct (tbl t); discriminate.
    + apply rbind_Raise in H as [H | (kept & Hk & H)].
      * apply filter_r_Raise in H as (x & _ & Hx).
        apply _check_instance_Raise in Hx as [Hx | [k Hx]]; discriminate.
      * unfold sorted in H. apply rbind_Raise in H as [H | (ks & _ & H)];
          [|discriminate].
        apply map_r_Raise in H as (x & _ & Hx).
        apply _sort_key_Raise in Hx. discriminate.
  - intros [-> ->]. eexists. reflexivity.
  - intros t -> -> Ht. unfold _filter_instance_types, resolve_gpu_memory, getitem.
    now rewrite Ht.
  - intros m Hm Hc. unfold _filter_instance_types. rewrite Hm. simpl.
    rewrite filter_r_total.
    2:{ apply Forall_forall. intros d _. now rewrite _check_instance_no_gpu. }
    simpl.
    assert (Hfil : List.filter (accepts (_check_instance gpu_count m level)) catalog
                   = List.filter cpu_only catalog).
    { apply filter_ext. intros d. unfold accepts.
      rewrite _check_instance_no_gpu by exact Hc. now destruct (cpu_only d). }
    rewrite Hfil.
    destruct (map_r_total _sort_key (List.filter cpu_only catalog)) as [ks Hks].
    { apply Forall_forall. intros d Hd. apply list_elem_of_In in Hd.
      apply filter_In in Hd as [_ Hd].
      now apply _sort_key_cpu_only. }
    unfold sorted. rewrite Hks. simpl. eexists. split; [reflexivity|].
    rewrite sort_by_Permutation.
    apply map_r_Ok in Hks. now rewrite (Forall2_combine_snd _ _ _ Hks).
Qed.

(** ** The order of the sort keys *)

Lemma ascii_eqb_N x y : Ascii.eqb x y = false -> N_of_ascii x <> N_of_ascii y.
Proof.
  intros H E. apply Ascii.eqb_neq in H. apply H.
  rewrite <- (ascii_N_embedding x), <- (ascii_N_embedding y). now rewrite E.
Qed.

Lemma str_lt_irrefl a : str_lt a a = false.
Proof.
  induction a as [|x a IH]; simpl; [reflexivity|]. now rewrite Ascii.eqb_refl.
Qed.

Lemma str_lt_trans a b c :
  str_lt a b = true -> str_lt b c = true -> str_lt a c = true.
Proof.
  revert b c; induction a as [|x a IH]; intros [|y b] [|z c]; simpl;
    try discriminate; try reflexivity.
  destruct (Ascii.eqb x y) eqn:Exy.
  - apply Ascii.eqb_eq in Exy as ->. destruct (Ascii.eqb y z); [apply IH | auto].
  - destruct (Ascii.eqb y z) eqn:Eyz.
    + apply Ascii.eqb_eq in Eyz as <-. now rewrite Exy.
    + intros H1 H2. apply N.ltb_lt in H1, H2.
      destruct (Ascii.eqb x z) eqn:Exz.
      * apply Ascii.eqb_eq in Exz as ->. lia.
      * apply N.ltb_lt. lia.
Qed.

Lemma str_lt_total a b : str_lt a b = false -> str_lt b a = false -> a = b.
Proof.
  revert b; induction a as [|x a IH]; intros [|y b]; simpl;
    try discriminate; try reflexivity.
  rewrite (Ascii.eqb_sym y x). destruct (Ascii.eqb x y) eqn:Exy.
  - apply Ascii.eqb_eq in Exy as ->. intros H1 H2. f_equal. now apply IH.
  - intros H1 H2. apply N.ltb_ge in H1, H2. apply ascii_eqb_N in Exy. lia.
Qed.

Lemma key_lt_irrefl k : key_lt k k = false.
Proof.
  destruct k as [[[f g] v] m]. simpl.
  rewrite String.eqb_refl, !Z.eqb_refl. simpl. apply Z.ltb_irrefl.
Qed.

Lemma key_lt_trans k1 k2 k3 :
  key_lt k1 k2 = true -> key_lt k2 k3 = true -> key_lt k1 k3 = true.
Proof.
  destruct k1 as [[[f1 g1] v1] m1], k2 as [[[f2 g2] v2] m2], k3 as [[[f3 g3] v3] m3].
  simpl.
  destruct (String.eqb_spec f1 f2) as [->|Hf12]; simpl.
  - destruct (String.eqb_spec f2 f3) as [->|Hf23]; simpl; [|auto].
    destruct (Z.eqb_spec g1 g2) as [->|Hg12]; simpl.
    + destruct (Z.eqb_spec g2 g3) as [->|Hg23]; simpl; [|auto].
      destruct (Z.eqb_spec v1 v2) as [->|Hv12]; simpl.
      * destruct (Z.eqb_spec v2 v3) as [->|Hv23]; simpl; [|auto]. lia.
      * destruct (Z.eqb_spec v2 v3) as [->|Hv23]; simpl.
        -- destruct (Z.eqb_spec v1 v3); simpl; [lia | auto].
        -- destruct (Z.eqb_spec v1 v3); simpl; lia.
    + destruct (Z.eqb_spec g2 g3) as [->|Hg23]; simpl.
      * destruct (Z.eqb_spec g1 g3); simpl; [lia | auto].
      * destruct (Z.eqb_spec g1 g3); simpl; lia.
  - destruct (String.eqb_spec f2 f3) as [->|Hf23]; simpl.
    + destruct (String.eqb_spec f1 f3); simpl; [contradiction | auto].
    + intros H1 H2. pose proof (str_lt_trans _ _ _ H1 H2) as H3.
      destruct (String.eqb_spec f1 f3) as [->|]; simpl; [|exact H3].
      now rewrite str_lt_irrefl in H3.
Qed.

Lemma key_lt_total k1 k2 : key_lt k1 k2 = false -> key_lt k2 k1 = false -> k1 = k2.
Proof.
  destruct k1 as [[[f1 g1] v1] m1], k2 as [[[f2 g2] v2] m2]. simpl.
  rewrite (String.eqb_sym f2 f1), (Z.eqb_sym g2 g1), (Z.eqb_sym v2 v1).
  destruct (String.eqb_spec f1 f2) as [->|Hf]; simpl.
  - destruct (Z.eqb_spec g1 g2) as [->|Hg]; simpl; [|lia].
    destruct (Z.eqb_spec v1 v2) as [->|Hv]; simpl; [|lia].
    intros H1 H2. f_equal. lia.
  - intros H1 H2. destruct Hf. now apply str_lt_total.
Qed.

(** ** A stable sort and the order of its input *)

Section StableSort.
Context {A K : Type} (lt : K -> K -> bool).
Hypothesis lt_irrefl : forall k, lt k k = false.
Hypothesis lt_trans : forall a b c, lt a b = true -> lt b c = true -> lt a c = true.
Hypothesis lt_total : forall a b, lt a b = false -> lt b a = false -> a = b.

Local Abbreviation not_after := (@not_after A K lt).

Lemma lt_asym a b : lt a b = true -> lt b a = false.
Proof.
  intros H. destruct (lt b a) eqn:E; [|reflexivity].
  pose proof (lt_trans _ _ _ H E) as H'. now rewrite lt_irrefl in H'.
Qed.

Lemma not_after_trans x y z : not_after x y -> not_after y z -> not_after x z.
Proof.
  unfold not_after. intros H1 H2.
  destruct (lt (fst z) (fst x)) eqn:E; [|reflexivity].
  destruct (lt (fst x) (fst y)) eqn:Exy.
  - pose proof (lt_trans _ _ _ E Exy). congruence.
  - pose proof (lt_total _ _ Exy H1) as Heq. rewrite Heq in E. congruence.
Qed.

Lemma insert_by_HdRel a x l :
  not_after a x -> HdRel not_after a l -> HdRel not_after a (insert_by lt x l).
Proof.
  intros Hax Hl. destruct l as [|y l]; simpl; [now constructor|].
  destruct (lt (fst y) (fst x)); constructor; [now inversion Hl | exact Hax].
Qed.

Lemma insert_by_Sorted x l :
  Sorted not_after l -> Sorted not_after (insert_by lt x l).
Proof.
  induction 1 as [|y l Hs IH Hhd]; simpl; [repeat constructor|].
  destruct (lt (fst y) (fst x)) eqn:E.
  - constructor; [exact IH|]. apply insert_by_HdRel; [|exact Hhd].
    unfold not_after. now apply lt_asym.
  - constructor; [now constructor|]. constructor. exact E.
Qed.

Lemma sort_by_Sorted l : Sorted not_after (sort_by lt l).
Proof.
  induction l as [|x l IH]; simpl; [constructor | now apply insert_by_Sorted].
Qed.

Lemma NoDup_fst_inj (l : list (K * A)) x y :
  NoDup (map fst l) -> In x l -> In y l -> fst x = fst y -> x = y.
Proof.
  induction l as [|z l IH]; simpl; [contradiction|].
  intros Hnd [->|Hx] [->|Hy] E; [reflexivity | | |].
  - apply NoDup_cons_1_1 in Hnd as Hz. destruct Hz. rewrite E.
    apply list_elem_of_In. now apply in_map.
  - apply NoDup_cons_1_1 in Hnd as Hz. destruct Hz. rewrite <- E.
    apply list_elem_of_In. now apply in_map.
  - apply NoDup_cons_1_2 in Hnd. now apply IH.
Qed.

(** With keys that are pairwise distinct, the order of the input does
    not show in the output. *)
Lemma sort_by_Permutation_eq (l1 l2 : list (K * A)) :
  Permutation l1 l2 -> NoDup (map fst l1) -> sort_by lt l1 = sort_by lt l2.
Proof.
  intros Hp Hnd.
  apply (StronglySorted_unique_strong not_after).
  - intros x1 x2 H1 H2 R12 R21.
    apply list_elem_of_In in H1, H2.
    apply (Permutation_in _ (sort_by_Permutation lt l1)) in H1.
    apply (Permutation_in _ (sort_by_Permutation lt l2)) in H2.
    apply (Permutation_in _ (Permutation_sym Hp)) in H2.
    apply (NoDup_fst_inj l1); try assumption. now apply lt_total.
  - apply Sorted.Sorted_StronglySorted; [|apply sort_by_Sorted].
    intros x y z. apply not_after_trans.
  - apply Sorted.Sorted_StronglySorted; [|apply sort_by_Sorted].
    intros x y z. apply not_after_trans.
  - rewrite !sort_by_Permutation. exact Hp.
Qed.
End StableSort.

(** ** The order of the output and the order of the catalog *)

Lemma map_r_Ok_map {A B} (f : A -> result B) (dflt : B) (l : list A) (r : list B) :
  map_r f l = Ok r -> r = map (fun x => get_or dflt (f x)) l.
Proof.
  intros H. apply map_r_Ok in H. induction H as [|x y l r Hxy _ IH]; simpl;
    [reflexivity|]. now rewrite Hxy, IH.
Qed.

Lemma combine_map_l {A B} (g : A -> B) (l : list A) :
  combine (map g l) l = map (fun x => (g x, x)) l.
Proof. induction l; simpl; congruence. Qed.

Lemma Permutation_List_filter {A} (f : A -> bool) (l l' : list A) :
  Permutation l l' -> Permutation (List.filter f l) (List.filter f l').
Proof.
  induction 1 as [|x l l' _ IH|x y l|l l' l'' _ IH1 _ IH2]; simpl.
  - reflexivity.
  - destruct (f x); [now constructor | exact IH].
  - destruct (f x), (f y); try reflexivity. apply perm_swap.
  - now transitivity (List.filter f l').
Qed.

Lemma sorted_Ok_inv {A K} (lt : K -> K -> bool) (key : A -> result K) (dflt : K)
    (l r : list A) :
  sorted lt key l = Ok r ->
  Forall (fun x => is_ok (key x) = true) l /\
  r = map snd (sort_by lt (map (fun x => (get_or dflt (key x), x)) l)).
Proof.
  unfold sorted. intros H. apply rbind_Ok in H as (ks & Hks & H).
  injection H as <-. split.
  - apply map_r_Ok in Hks. induction Hks as [|x y l r Hxy _ IH];
      constructor; [now rewrite Hxy | exact IH].
  - rewrite (map_r_Ok_map key dflt _ _ Hks). now rewrite combine_map_l.
Qed.

Lemma sorted_total {A K} (lt : K -> K -> bool) (key : A -> result K) (dflt : K)
    (l : list A) :
  Forall (fun x => is_ok (key x) = true) l ->
  sorted lt key l = Ok (map snd (sort_by lt (map (fun x => (get_or dflt (key x), x)) l))).
Proof.
  intros Hall. destruct (map_r_total key l Hall) as [ks Hks].
  unfold sorted. rewrite Hks. simpl.
  rewrite (map_r_Ok_map key dflt _ _ Hks). now rewrite combine_map_l.
Qed.

(** C5, as the code has it.  The filter is a function of its inputs, so
    two runs on the same inputs return the same output; and on a permuted
    catalog it returns the same sequence whenever the sort keys of the
    descriptors it returns are pairwise distinct. *)
Theorem C5_order_reproducible tbl catalog catalog' gpu_count gpu_memory gpu_type level :
  (forall r1 r2,
     _filter_instance_types tbl catalog gpu_count gpu_memory gpu_type level = r1 ->
     _filter_instance_types tbl catalog gpu_count gpu_memory gpu_type level = r2 ->
     r1 = r2) /\
  (Permutation catalog catalog' ->
   forall out keys,
     _filter_instance_types tbl catalog gpu_count gpu_memory gpu_type level = Ok out ->
     map_r _sort_key out = Ok keys -> NoDup keys ->
     _filter_instance_types tbl catalog' gpu_count gpu_memory gpu_type level = Ok out).
Proof.
  split; [congruence|]. intros Hperm out keys H Hkeys Hnd.
  set (dflt := (EmptyString, 0, 0, 0) : sort_key).
  unfold _filter_instance_types in *.
  apply rbind_Ok in H as (m & Hm & H). rewrite Hm. simpl.
  apply rbind_Ok in H as (kept & Hkept & H).
  apply filter_r_Ok in Hkept as [Hall ->].
  rewrite filter_r_total by (now rewrite <- Hperm). simpl.
  set (acc := accepts (_check_instance gpu_count m level)) in *.
  assert (Hk : Permutation (List.filter acc catalog) (List.filter acc catalog'))
    by now apply Permutation_List_filter.
  pose proof (sorted_Permutation _ _ _ _ H) as Hout.
  apply (sorted_Ok_inv _ _ dflt) in H as [Hok ->].
  rewrite (sorted_total _ _ dflt) by (now rewrite <- Hk).
  do 2 f_equal. symmetry. apply sort_by_Permutation_eq.
  - apply key_lt_irrefl.
  - apply key_lt_trans.
  - apply key_lt_total.
  - apply Permutation_map. now symmetry.
  - rewrite map_map. simpl.
    rewrite (map_r_Ok_map _ dflt _ _ Hkeys) in Hnd.
    now rewrite <- Hout.
Qed.

(** ** The instance matcher on the sample catalog *)

(** Scenario A at the level "usable": both GPU descriptors are returned,
    and the second one satisfies the eligibility predicate. *)
Lemma C1_filter_eligible_witness :
  _filter_instance_types sample_GPU_MEMORY [p3dn_2xlarge; m5_24xlarge; g4dn_xlarge]
    (Some 1) (Some (Qmake 16 1)) None "usable" = Ok [g4dn_xlarge; p3dn_2xlarge] /\
  In p3dn_2xlarge [g4dn_xlarge; p3dn_2xlarge] /\
  ((Some 1 = Some 0 -> GpuInfo p3dn_2xlarge = None) /\
   (forall c m, Some 1 = Some c -> 0 < c ->
      resolve_gpu_memory sample_GPU_MEMORY (Some (Qmake 16 1)) None = Ok m ->
      exists g rest cnt mib,
        get_gpus [] p3dn_2xlarge = g :: rest /\ Count g = Some cnt /\
        GpuSizeInMiB g = Some mib /\
        ("usable" = "match" -> cnt = c /\ Qeq (Qmake mib 1024) m) /\
        ("usable" = "usable" -> c <= cnt /\ Qle m (Qmake mib 1024)))).
Proof.
  assert (H : _filter_instance_types sample_GPU_MEMORY
                [p3dn_2xlarge; m5_24xlarge; g4dn_xlarge]
                (Some 1) (Some (Qmake 16 1)) None "usable"
              = Ok [g4dn_xlarge; p3dn_2xlarge]) by (vm_compute; reflexivity).
  assert (Hin : In p3dn_2xlarge [g4dn_xlarge; p3dn_2xlarge]) by (simpl; tauto).
  split; [exact H|]. split; [exact Hin|].
  exact (C1_filter_eligible _ _ _ _ _ _ _ _ H Hin).
Defined.

(** Scenario A at the level "match": the descriptor with one GPU of
    16 GiB only. *)
Example scenario_A_exact :
  _filter_instance_types sample_GPU_MEMORY [g4dn_xlarge; p3dn_2xlarge]
    (Some 1) (Some (Qmake 16 1)) None "match" = Ok [g4dn_xlarge].
Proof. vm_compute; reflexivity. Qed.

(** C3 as stated fails: with a requirement of no GPU and neither a memory
    nor a family, the filter raises instead of returning the CPU-only
    descriptors. *)
Lemma C3_counterexample :
  _filter_instance_types sample_GPU_MEMORY [m5_24xlarge; g4dn_xlarge]
    (Some 0) None None "match"
  = Raise (ValueError "Either gpu_memory or gpu_type must be provided").
Proof. vm_compute; reflexivity. Qed.

(** A requirement of no GPU with a family of the table: the filter
    returns the CPU-only descriptor. *)
Lemma C3_missing_gpu_spec_witness :
  resolve_gpu_memory sample_GPU_MEMORY None (Some "nvidia-tesla-t4") = Ok (Qmake 16 1) /\
  exists out,
    _filter_instance_types sample_GPU_MEMORY [m5_24xlarge; g4dn_xlarge]
      (Some 0) None (Some "nvidia-tesla-t4") "match" = Ok out /\
    Permutation out (List.filter cpu_only [m5_24xlarge; g4dn_xlarge]).
Proof.
  assert (H : resolve_gpu_memory sample_GPU_MEMORY None (Some "nvidia-tesla-t4")
              = Ok (Qmake 16 1)) by (vm_compute; reflexivity).
  split; [exact H|].
  exact (proj2 (proj2 (C3_missing_gpu_spec sample_GPU_MEMORY [m5_24xlarge; g4dn_xlarge]
                         (Some 0) None (Some "nvidia-tesla-t4") "match"))
           _ H (or_introl eq_refl)).
Defined.

(** C5 as stated fails: two descriptors of the same sort key come out in
    the order in which the catalog lists them. *)
Lemma C5_counterexample :
  Permutation [m5_24xlarge; m5_metal] [m5_metal; m5_24xlarge] /\
  _filter_instance_types sample_GPU_MEMORY [m5_24xlarge; m5_metal]
    (Some 0) (Some (Qmake 16 1)) None "match" = Ok [m5_24xlarge; m5_metal] /\
  _filter_instance_types sample_GPU_MEMORY [m5_metal; m5_24xlarge]
    (Some 0) (Some (Qmake 16 1)) None "match" = Ok [m5_metal; m5_24xlarge] /\
  [m5_24xlarge; m5_metal] <> [m5_metal; m5_24xlarge].
Proof.
  split; [apply perm_swap|].
  split; [vm_compute; reflexivity|].
  split; [vm_compute; reflexivity|]. discriminate.
Qed.

(** The GPU descriptors of the sample catalog have distinct keys: a
    shuffled catalog gives the same output. *)
Lemma C5_order_reproducible_witness :
  Permutation [p3dn_2xlarge; m5_24xlarge; g4dn_xlarge]
              [g4dn_xlarge; p3dn_2xlarge; m5_24xlarge] /\
  _filter_instance_types sample_GPU_MEMORY [p3dn_2xlarge; m5_24xlarge; g4dn_xlarge]
    (Some 1) (Some (Qmake 16 1)) None "usable" = Ok [g4dn_xlarge; p3dn_2xlarge] /\
  map_r _sort_key [g4dn_xlarge; p3dn_2xlarge]
    = Ok [("g4dn", 1, 4, 16384); ("p3dn", 2, 8, 65536)] /\
  NoDup [("g4dn", 1, 4, 16384); ("p3dn", 2, 8, 65536)] /\
  _filter_instance_types sample_GPU_MEMORY [g4dn_xlarge; p3dn_2xlarge; m5_24xlarge]
    (Some 1) (Some (Qmake 16 1)) None "usable" = Ok [g4dn_xlarge; p3dn_2xlarge].
Proof.
  assert (Hp : Permutation [p3dn_2xlarge; m5_24xlarge; g4dn_xlarge]
                           [g4dn_xlarge; p3dn_2xlarge; m5_24xlarge]).
  { apply Permutation_sym. apply (Permutation_cons_app [p3dn_2xlarge; m5_24xlarge] []).
    reflexivity. }
  assert (H : _filter_instance_types sample_GPU_MEMORY
                [p3dn_2xlarge; m5_24xlarge; g4dn_xlarge]
                (Some 1) (Some (Qmake 16 1)) None "usable"
              = Ok [g4dn_xlarge; p3dn_2xlarge]) by (vm_compute; reflexivity).
  assert (Hk : map_r _sort_key [g4dn_xlarge; p3dn_2xlarge]
               = Ok [("g4dn", 1, 4, 16384); ("p3dn", 2, 8, 65536)])
    by (vm_compute; reflexivity).
  assert (Hnd : NoDup [("g4dn", 1, 4, 16384); ("p3dn", 2, 8, 65536) : sort_key]).
  { apply NoDup_cons. split; [|apply NoDup_singleton].
    intros Hin. apply list_elem_of_In in Hin. simpl in Hin.
    destruct Hin as [Hin|[]]. discriminate. }
  repeat (split; [assumption|]).
  exact (proj2 (C5_order_reproducible sample_GPU_MEMORY _ _ _ _ _ _) Hp _ _ H Hk Hnd).
Defined.

(** ** The reference resolver *)

Lemma join_split sep s : join sep (split sep s) = s.
Proof.
  induction s as [|c s IH]; simpl; [reflexivity|].
  destruct (Ascii.eqb_spec c sep) as [->|Hc].
  - pose proof (split_nonempty sep s) as Hne.
    destruct (split sep s) as [|x xs]; [contradiction|].
    simpl. now rewrite <- IH.
  - destruct (split sep s) as [|x xs] eqn:E; [now apply split_nonempty in E|].
    rewrite <- IH. now destruct xs.
Qed.

Lemma split_inj sep s1 s2 : split sep s1 = split sep s2 -> s1 = s2.
Proof.
  intros H. rewrite <- (join_split sep s1), <- (join_split sep s2). now rewrite H.
Qed.

Lemma _resolve_git_package_Ok package repo_url branch subdirectory path_parts :
  _resolve_git_package package = Ok (repo_url, branch, subdirectory, path_parts) ->
  REG_GITPACKAGE_match package = Some (repo_url, branch, subdirectory) /\
  exists parsed,
    urlparse repo_url = Ok parsed /\
    path_parts = netloc parsed :: split "/" (path parsed).
Proof.
  unfold _resolve_git_package.
  destruct (REG_GITPACKAGE_match package) as [[[r b] d]|]; [|discriminate].
  intros H. apply rbind_Ok in H as (parsed & Hp & H).
  injection H as -> -> -> <-. split; [reflexivity|]. now exists parsed.
Qed.

(** C2, as the code has it.  Scenario B: the reference is parsed into the
    branch "main" and the subdirectory "sub/dir"; the storage path segments
    are the host followed by the pieces of the URL path between slashes,
    the empty piece before the leading slash included; joined under a base
    directory they name [base/github.com/org/repo]. *)
Theorem C2_scenario_B :
  _resolve_git_package "git+https://github.com/org/repo@main#subdirectory=sub/dir"
  = Ok ("https://github.com/org/repo", "main", "sub/dir",
        ["github.com"; EmptyString; "org"; "repo"]) /\
  forall base : fspath,
    joinpath base ["github.com"; EmptyString; "org"; "repo"]
    = base ++ ["github.com"; "org"; "repo"].
Proof. split; [vm_compute; reflexivity | intros base; reflexivity]. Qed.

(** C2 as stated fails: the segments are not the three-element list. *)
Lemma C2_counterexample :
  exists path_parts,
    _resolve_git_package "git+https://github.com/org/repo@main#subdirectory=sub/dir"
    = Ok ("https://github.com/org/repo", "main", "sub/dir", path_parts) /\
    path_parts <> ["github.com"; "org"; "repo"].
Proof.
  exists ["github.com"; EmptyString; "org"; "repo"].
  split; [vm_compute; reflexivity | discriminate].
Qed.

(** C6, as the code has it.  The storage path segments of two well-formed
    references are equal exactly when the hosts and the paths of their
    repository URLs are equal: the derivation is injective on the pair of
    host and path, and blind to the rest of the URL. *)
Theorem C6_segments_by_host_and_path
    package1 package2 repo1 branch1 sub1 parts1 repo2 branch2 sub2 parts2 u1 u2 :
  _resolve_git_package package1 = Ok (repo1, branch1, sub1, parts1) ->
  _resolve_git_package package2 = Ok (repo2, branch2, sub2, parts2) ->
  urlparse repo1 = Ok u1 ->
  urlparse repo2 = Ok u2 ->
  (parts1 = parts2 <-> netloc u1 = netloc u2 /\ path u1 = path u2).
Proof.
  intros H1 H2 Hu1 Hu2.
  apply _resolve_git_package_Ok in H1 as (_ & p1 & Hp1 & ->).
  apply _resolve_git_package_Ok in H2 as (_ & p2 & Hp2 & ->).
  rewrite Hu1 in Hp1. rewrite Hu2 in Hp2.
  injection Hp1 as <-. injection Hp2 as <-. split.
  - intros [= Hn Hp]. split; [exact Hn | now apply split_inj in Hp].
  - intros [-> ->]. reflexivity.
Qed.

(** C6 as stated fails: two references whose URLs differ in the scheme
    have the same storage path segments. *)
Lemma C6_counterexample :
  exists path_parts,
    _resolve_git_package "git+https://github.com/org/repo@main#subdirectory=sub/dir"
    = Ok ("https://github.com/org/repo", "main", "sub/dir", path_parts) /\
    _resolve_git_package "git+http://github.com/org/repo@main#subdirectory=sub/dir"
    = Ok ("http://github.com/org/repo", "main", "sub/dir", path_parts) /\
    "https://github.com/org/repo" <> "http://github.com/org/repo".
Proof.
  exists ["github.com"; EmptyString; "org"; "repo"].
  split; [vm_compute; reflexivity|]. split; [vm_compute; reflexivity | discriminate].
Qed.

Lemma C6_segments_by_host_and_path_witness :
  _resolve_git_package "git+https://github.com/org/repo@main#subdirectory=sub/dir"
  = Ok ("https://github.com/org/repo", "main", "sub/dir",
        ["github.com"; EmptyString; "org"; "repo"]) /\
  _resolve_git_package "git+https://github.com/org/other@main#subdirectory=sub/dir"
  = Ok ("https://github.com/org/other", "main", "sub/dir",
        ["github.com"; EmptyString; "org"; "other"]) /\
  (["github.com"; EmptyString; "org"; "repo"] = ["github.com"; EmptyString; "org"; "other"]
   <-> "github.com" = "github.com" /\ "/org/repo" = "/org/other").
Proof.
  assert (H1 : _resolve_git_package
                 "git+https://github.com/org/repo@main#subdirectory=sub/dir"
               = Ok ("https://github.com/org/repo", "main", "sub/dir",
                     ["github.com"; EmptyString; "org"; "repo"])) by (vm_compute; reflexivity).
  assert (H2 : _resolve_git_package
                 "git+https://github.com/org/other@main#subdirectory=sub/dir"
               = Ok ("https://github.com/org/other", "main", "sub/dir",
                     ["github.com"; EmptyString; "org"; "other"])) by (vm_compute; reflexivity).
  split; [exact H1|]. split; [exact H2|].
  exact (C6_segments_by_host_and_path _ _ _ _ _ _ _ _ _ _
           {| scheme := "https"; netloc := "github.com"; path := "/org/repo";
              params := EmptyString; query := EmptyString; fragment := EmptyString |}
           {| scheme := "https"; netloc := "github.com"; path := "/org/other";
              params := EmptyString; query := EmptyString; fragment := EmptyString |}
           H1 H2 eq_refl eq_refl).
Defined.

(** ** The identity printed by the build *)

Lemma length_append (a b : string) :
  String.length (a +:+ b) = (String.length a + String.length b)%nat.
Proof. induction a as [|c a IH]; simpl; [reflexivity | now rewrite IH]. Qed.

Lemma append_assoc (a b c : string) : (a +:+ b) +:+ c = a +:+ b +:+ c.
Proof.
  induction a as [|x a IH]; [reflexivity|].
  change (String x ((a +:+ b) +:+ c) = String x (a +:+ b +:+ c)). now rewrite IH.
Qed.

Lemma lstrip_with_length drop s :
  (String.length (lstrip_with drop s) <= String.length s)%nat.
Proof.
  induction s as [|c s IH]; simpl; [lia|]. destruct (drop c); simpl; lia.
Qed.

Lemma rstrip_with_length drop s :
  (String.length (rstrip_with drop s) <= String.length s)%nat.
Proof.
  induction s as [|c s IH]; simpl; [lia|].
  destruct (rstrip_with drop s); [destruct (drop c)|]; simpl in *; lia.
Qed.

Lemma rstrip_with_keep drop c s :
  drop c = false -> rstrip_with drop (String c s) = String c (rstrip_with drop s).
Proof. intros H. simpl. rewrite H. now destruct (rstrip_with drop s). Qed.

Lemma rstrip_with_append_keep drop p c s :
  drop c = false ->
  rstrip_with drop (p +:+ String c s) = p +:+ String c (rstrip_with drop s).
Proof.
  intros H. induction p as [|a p IH]; [now apply rstrip_with_keep|].
  change (rstrip_with drop (String a p +:+ String c s))
    with (match rstrip_with drop (p +:+ String c s) with
          | EmptyString => if drop a then EmptyString else String a EmptyString
          | r => String a r
          end).
  rewrite IH. now destruct p.
Qed.

Lemma rstrip_with_last_keep drop c s :
  drop c = false ->
  rstrip_with drop (s +:+ String c EmptyString) = s +:+ String c EmptyString.
Proof.
  intros H. induction s as [|a s IH]; simpl; [now rewrite H|].
  rewrite IH. now destruct s.
Qed.

Lemma rstrip_with_last_drop drop c s :
  drop c = true ->
  rstrip_with drop (s +:+ String c EmptyString) = rstrip_with drop s.
Proof.
  intros H. induction s as [|a s IH]; simpl; [now rewrite H|]. now rewrite IH.
Qed.

(** What [lstrip] leaves of a string that ends with [c] is empty or ends
    with [c]. *)
Lemma lstrip_with_last drop c s :
  lstrip_with drop (s +:+ String c EmptyString) = EmptyString \/
  exists s', lstrip_with drop (s +:+ String c EmptyString) = s' +:+ String c EmptyString /\
             (String.length s' <= String.length s)%nat.
Proof.
  induction s as [|a s IH]; simpl.
  - destruct (drop c); [now left|]. right. exists EmptyString. split; [reflexivity | simpl; lia].
  - destruct (drop a).
    + destruct IH as [IH | (s' & IH & Hlen)]; [now left|].
      right. exists s'. split; [exact IH | simpl; lia].
    + right. exists (String a s). split; [reflexivity | simpl; lia].
Qed.

Lemma tag_chars_not_space c : char_in c "__tag__:" = true -> isspace c = false.
Proof.
  simpl. intros H.
  repeat (apply orb_prop in H as [H|H];
          [apply Ascii.eqb_eq in H as ->; reflexivity|]).
  discriminate.
Qed.

Lemma parse_build_output_short out name version :
  (String.length (strip_chars "__tag__:" (strip out))
   < String.length (name +:+ ":" +:+ version))%nat ->
  startswith "__tag__:" (strip out) = true ->
  parse_build_output out <> [name; version].
Proof.
  unfold parse_build_output. intros Hlen -> H.
  apply (f_equal (join ":")) in H. rewrite join_split in H. simpl in H.
  rewrite H in Hlen. exact (Nat.lt_irrefl _ Hlen).
Qed.

(** C10.  When the output of the build starts with the marker, the
    characters of the marker are removed from both ends as a set.  So the
    output [__tag__:tag2:v1] gives the name [2], and for every name that
    begins, or version that ends, with one of the characters [_ t a g :]
    the list returned is not the pair of the name and the version. *)
Theorem C10_marker_stripped_as_set :
  (forall out, startswith "__tag__:" (strip out) = true ->
     parse_build_output out = split ":" (strip_chars "__tag__:" (strip out))) /\
  parse_build_output "__tag__:tag2:v1" = ["2"; "v1"] /\
  (forall c name version, char_in c "__tag__:" = true ->
     parse_build_output ("__tag__:" +:+ String c name +:+ ":" +:+ version)
     <> [String c name; version]) /\
  (forall c name version, char_in c "__tag__:" = true ->
     parse_build_output ("__tag__:" +:+ name +:+ ":" +:+ version +:+ String c EmptyString)
     <> [name; version +:+ String c EmptyString]).
Proof.
  split; [|split; [|split]].
  - intros out H. unfold parse_build_output. now rewrite H.
  - vm_compute; reflexivity.
  - intros c name version Hc.
    pose proof (tag_chars_not_space c Hc) as Hsp.
    set (rest := name +:+ ":" +:+ version).
    assert (Hstrip : strip ("__tag__:" +:+ String c rest)
                     = "__tag__:" +:+ String c (rstrip_with isspace rest)).
    { unfold strip, strip_with.
      change (lstrip_with isspace ("__tag__:" +:+ String c rest))
        with ("__tag__:" +:+ String c rest).
      now apply rstrip_with_append_keep. }
    change ("__tag__:" +:+ String c name +:+ ":" +:+ version)
      with ("__tag__:" +:+ String c rest).
    apply parse_build_output_short; rewrite Hstrip.
    + unfold strip_chars, strip_with.
      set (drop := fun c => char_in c "__tag__:").
      assert (Hl : lstrip_with drop ("__tag__:" +:+ String c (rstrip_with isspace rest))
                   = lstrip_with drop (rstrip_with isspace rest)).
      { change (lstrip_with drop ("__tag__:" +:+ String c (rstrip_with isspace rest)))
          with (if drop c then lstrip_with drop (rstrip_with isspace rest)
                else String c (rstrip_with isspace rest)).
        unfold drop at 1. now rewrite Hc. }
      rewrite Hl.
      eapply Nat.le_lt_trans; [apply rstrip_with_length|].
      eapply Nat.le_lt_trans; [apply lstrip_with_length|].
      pose proof (rstrip_with_length isspace rest).
      change (String.length (String c name +:+ ":" +:+ version))
        with (S (String.length rest)). lia.
    + reflexivity.
  - intros c name version Hc.
    pose proof (tag_chars_not_space c Hc) as Hsp.
    set (body := name +:+ ":" +:+ version).
    assert (Hout : "__tag__:" +:+ name +:+ ":" +:+ version +:+ String c EmptyString
                   = ("__tag__:" +:+ body) +:+ String c EmptyString).
    { unfold body. now rewrite !append_assoc. }
    assert (Hnv : name +:+ ":" +:+ version +:+ String c EmptyString
                  = body +:+ String c EmptyString).
    { unfold body. now rewrite !append_assoc. }
    assert (Hstrip : strip (("__tag__:" +:+ body) +:+ String c EmptyString)
                     = ("__tag__:" +:+ body) +:+ String c EmptyString).
    { unfold strip, strip_with. simpl lstrip_with.
      now apply (rstrip_with_last_keep isspace c ("__tag__:" +:+ body)). }
    rewrite Hout. apply parse_build_output_short; rewrite Hstrip, ?Hnv.
    + unfold strip_chars, strip_with.
      set (drop := fun c => char_in c "__tag__:").
      change (lstrip_with drop (("__tag__:" +:+ body) +:+ String c EmptyString))
        with (lstrip_with drop (body +:+ String c EmptyString)).
      rewrite length_append.
      change (String.length (String c EmptyString)) with 1%nat.
      destruct (lstrip_with_last drop c body) as [-> | (s' & -> & Hlen)].
      * change (String.length (rstrip_with drop EmptyString)) with 0%nat. lia.
      * rewrite rstrip_with_last_drop by exact Hc.
        pose proof (rstrip_with_length drop s'). lia.
    + reflexivity.
Qed.

Lemma C10_marker_stripped_as_set_witness :
  (char_in "t" "__tag__:" = true /\
   parse_build_output ("__tag__:" +:+ String "t" "ag2" +:+ ":" +:+ "v1")
   <> [String "t" "ag2"; "v1"]) /\
  (char_in "a" "__tag__:" = true /\
   parse_build_output ("__tag__:" +:+ "m" +:+ ":" +:+ "bet" +:+ String "a" EmptyString)
   <> ["m"; "bet" +:+ String "a" EmptyString]).
Proof.
  destruct C10_marker_stripped_as_set as (_ & _ & Hname & Hversion).
  split; (split; [reflexivity|]).
  - exact (Hname "t"%char "ag2" "v1" eq_refl).
  - exact (Hversion "a"%char "m" "bet" eq_refl).
Defined.

(** ** The artifact pipeline *)

Section Pipeline.
Context {Ext : Type} `{!Collaborators Ext}.

Lemma rmtree_left (p q : fspath) (w : World Ext) :
  p `prefix_of` q ->
  q ∈ fs (snd (rmtree p w)) <-> q ∈ fs w /\ q ∈ rmtree_keeps p (fs w) (ext w).
Proof.
  intros Hp. simpl. rewrite elem_of_filter. split.
  - intros [[Hn|Hk] Hq]; [contradiction | auto].
  - intros [Hq Hk]. auto.
Qed.

Lemma mkdir_parents_trace (p : fspath) (w : World Ext) :
  trace (snd (mkdir_parents p w)) = trace w.
Proof.
  unfold mkdir_parents. now destruct (mkdir_error p (fs w) (ext w)) as [[e made]|].
Qed.

Lemma clear_repo_spec (repo_dir : fspath) (force_rebuild : bool) (w : World Ext) :
  clear_repo repo_dir force_rebuild w = (Ok tt, snd (clear_repo repo_dir force_rebuild w))
  /\ trace (snd (clear_repo repo_dir force_rebuild w)) = trace w.
Proof. destruct force_rebuild; split; reflexivity. Qed.

Lemma check_output_trace (cmd : list string) (cwd : option fspath) (w : World Ext) :
  trace (snd (check_output cmd cwd w)) = trace w ++ [Exec cmd cwd].
Proof.
  unfold check_output. destruct (spawn cmd cwd (fs w) (ext w)) as [o [fs' ext']].
  destruct o as [rc out|]; [destruct (rc =? 0)|]; reflexivity.
Qed.

Lemma check_call_trace (cmd : list string) (w : World Ext) :
  trace (snd (check_call cmd w)) = trace w ++ [Exec cmd None].
Proof.
  unfold check_call, bind. rewrite <- (check_output_trace cmd None w).
  destruct (check_output cmd None w) as [[out|e] w']; reflexivity.
Qed.

(** C7, as the code has it.  In the build path the clone is started
    only when the storage directory does not exist (after the removal a
    forced rebuild asks for): when it exists no process is started and
    the directory is left as it is.  When the clone fails, the removal of
    the storage directory is tried, with its errors ignored, and the error
    of the clone is the error of the build path whatever the removal did;
    the clone is the only process that was started.  What is at or under
    the storage directory afterwards is what the clone left there and the
    removal could not remove. *)
Theorem C7_clone_cleanup repo branch subdirectory path_parts model tag force_rebuild
    (w : World Ext) :
  let repo_dir := joinpath REPO_DIR path_parts in
  let w1 := snd (clear_repo repo_dir force_rebuild w) in
  (repo_dir ∈ fs w1 ->
   ensure_repo repo branch repo_dir force_rebuild w = (Ok tt, w1) /\
   trace w1 = trace w) /\
  (repo_dir ∉ fs w1 ->
   forall w1' e w2,
     mkdir_parents (parent repo_dir) w1 = (Ok tt, w1') ->
     check_call (git_clone branch repo repo_dir) w1' = (Raise e, w2) ->
     let w3 := snd (rmtree repo_dir w2) in
     ensure_repo repo branch repo_dir force_rebuild w = (Raise e, w3) /\
     build_path repo branch subdirectory path_parts model tag force_rebuild w
     = (Raise e, w3) /\
     trace w3 = trace w ++ [Exec (git_clone branch repo repo_dir) None] /\
     (forall q, repo_dir `prefix_of` q ->
        q ∈ fs w3 <-> q ∈ fs w2 /\ q ∈ rmtree_keeps repo_dir (fs w2) (ext w2))).
Proof.
  intros repo_dir w1.
  destruct (clear_repo_spec repo_dir force_rebuild w) as [Hclear Htrace].
  fold w1 in Hclear, Htrace. split.
  - intros Hin. split; [|exact Htrace].
    unfold ensure_repo, bind. rewrite Hclear. unfold path_exists.
    now rewrite bool_decide_eq_true_2.
  - intros Hnotin w1' e w2 Hmkdir Hclone w3.
    assert (Hensure : ensure_repo repo branch repo_dir force_rebuild w = (Raise e, w3)).
    { unfold ensure_repo, bind. rewrite Hclear. unfold path_exists.
      rewrite bool_decide_eq_false_2 by exact Hnotin.
      change (negb false) with true. cbv iota.
      unfold clone_repo, bind, try_except. rewrite Hmkdir, Hclone. reflexivity. }
    split; [exact Hensure|]. split; [|split].
    + unfold build_path, bind. fold repo_dir. now rewrite Hensure.
    + pose proof (check_call_trace (git_clone branch repo repo_dir) w1') as Ht.
      rewrite Hclone in Ht. simpl in Ht.
      pose proof (mkdir_parents_trace (parent repo_dir) w1) as Hm.
      rewrite Hmkdir in Hm. simpl in Hm.
      unfold w3. simpl. rewrite Ht, Hm. now rewrite Htrace.
    + intros q Hq. now apply rmtree_left.
Qed.

(** C9.  When the first query of the artifact fails, the sources are in
    place (cloned) and the build returns the identity of [bento] and
    [version], the pipeline ends with the query of [bento:version]: its
    result is the result of that query, and that query is the last command
    it started. *)
Theorem C9_requery_built_identity repo branch subdirectory path_parts model tag
    force_rebuild (w w1 w2 w3 : World Ext) cmd returncode bento version :
  _get_bento_info (model +:+ ":" +:+ tag) w
  = (Raise (CalledProcessError cmd returncode), w1) ->
  ensure_repo repo branch (joinpath REPO_DIR path_parts) force_rebuild w1 = (Ok tt, w2) ->
  _build_bento (path_div (joinpath REPO_DIR path_parts) subdirectory) model tag w2
  = (Ok [bento; version], w3) ->
  get_or_build repo branch subdirectory path_parts model tag force_rebuild w
  = _get_bento_info (bento +:+ ":" +:+ version) w3 /\
  trace (snd (get_or_build repo branch subdirectory path_parts model tag
                force_rebuild w))
  = trace w3 ++ [Exec ["bentoml"; "get"; bento +:+ ":" +:+ version] None].
Proof.
  intros Hquery Hrepo Hbuild.
  assert (H : get_or_build repo branch subdirectory path_parts model tag force_rebuild w
              = _get_bento_info (bento +:+ ":" +:+ version) w3).
  { unfold get_or_build, try_except. rewrite Hquery.
    unfold build_path, bind. rewrite Hrepo.
    unfold build_and_query, bind. now rewrite Hbuild. }
  split; [exact H|]. rewrite H. unfold _get_bento_info, bind, lift.
  rewrite <- (check_output_trace ["bentoml"; "get"; bento +:+ ":" +:+ version] None w3).
  now destruct (check_output _ None w3) as [[out|e] w4].
Qed.
End Pipeline.

(** ** The provisioner *)

Section Provisioner.
Context {Ext : Type} `{!Collaborators Ext}.

Lemma _ensure_aws_security_group_found group_name (w w1 : World Ext) out group others :
  check_output (describe_security_groups group_name) None w = (Ok out, w1) ->
  load_security_groups out = Ok (group :: others) ->
  _ensure_aws_security_group group_name w = (Ok group, w1).
Proof.
  intros Hd Hl. unfold _ensure_aws_security_group, try_except, bind, lift.
  now rewrite Hd, Hl.
Qed.

Lemma check_call_Ok cmd (w w' : World Ext) :
  check_call cmd w = (Ok tt, w') -> trace w' = trace w ++ [Exec cmd None].
Proof.
  intros H. pose proof (check_call_trace cmd w) as Ht. now rewrite H in Ht.
Qed.

Lemma check_output_Ok cmd cwd (w w' : World Ext) out :
  check_output cmd cwd w = (Ok out, w') -> trace w' = trace w ++ [Exec cmd cwd].
Proof.
  intros H. pose proof (check_output_trace cmd cwd w) as Ht. now rewrite H in Ht.
Qed.

(** C8.  The security group is looked up by its name before anything
    else.  A group that the lookup finds is returned, and the lookup is
    then the only command: no group is created.  When the lookup finds
    none, the group is created and exactly the three ingress rules for the
    TCP ports 80, 443 and 22 from all sources are authorized, in this
    order, before the new id is returned.  So a second call, made once the
    first has returned [id] and the account lists that group under the
    name, returns [id] again and creates nothing. *)
Theorem C8_ensure_security_group_idempotent group_name (w : World Ext) :
  (exists rest,
     trace (snd (_ensure_aws_security_group group_name w))
     = trace w ++ Exec (describe_security_groups group_name) None :: rest) /\
  (forall out w1 group others,
     check_output (describe_security_groups group_name) None w = (Ok out, w1) ->
     load_security_groups out = Ok (group :: others) ->
     _ensure_aws_security_group group_name w = (Ok group, w1) /\
     trace w1 = trace w ++ [Exec (describe_security_groups group_name) None]) /\
  (forall out w1 created w2 id w3 w4 w5,
     check_output (describe_security_groups group_name) None w = (Ok out, w1) ->
     load_security_groups out = Ok [] ->
     check_output (create_security_group group_name) None w1 = (Ok created, w2) ->
     load_group_id created = Ok id ->
     check_call (authorize_ingress id "80") w2 = (Ok tt, w3) ->
     check_call (authorize_ingress id "443") w3 = (Ok tt, w4) ->
     check_call (authorize_ingress id "22") w4 = (Ok tt, w5) ->
     _ensure_aws_security_group group_name w = (Ok id, w5) /\
     trace w5 = trace w ++
       [ Exec (describe_security_groups group_name) None;
         Exec (create_security_group group_name) None;
         Exec ["aws"; "ec2"; "authorize-security-group-ingress"; "--group-id"; id;
               "--protocol"; "tcp"; "--port"; "80"; "--cidr"; "0.0.0.0/0"] None;
         Exec ["aws"; "ec2"; "authorize-security-group-ingress"; "--group-id"; id;
               "--protocol"; "tcp"; "--port"; "443"; "--cidr"; "0.0.0.0/0"] None;
         Exec ["aws"; "ec2"; "authorize-security-group-ingress"; "--group-id"; id;
               "--protocol"; "tcp"; "--port"; "22"; "--cidr"; "0.0.0.0/0"] None ]) /\
  (forall id w' out w'' others,
     _ensure_aws_security_group group_name w = (Ok id, w') ->
     check_output (describe_security_groups group_name) None w' = (Ok out, w'') ->
     load_security_groups out = Ok (id :: others) ->
     _ensure_aws_security_group group_name w' = (Ok id, w'') /\
     trace w'' = trace w' ++ [Exec (describe_security_groups group_name) None]).
Proof.
  split; [|split; [|split]].
  - unfold _ensure_aws_security_group, try_except, bind.
    pose proof (check_output_trace (describe_security_groups group_name) None w) as Ht.
    destruct (check_output (describe_security_groups group_name) None w)
      as [[out|e] w1]; simpl in Ht.
    + unfold lift. destruct (load_security_groups out) as [[|group others]|e].
      * pose proof (check_output_trace (create_security_group group_name) None w1) as Ht1.
        destruct (check_output (create_security_group group_name) None w1)
          as [[created|e] w2]; simpl in Ht1.
        -- destruct (load_group_id created) as [id|e].
           ++ pose proof (check_call_trace (authorize_ingress id "80") w2) as Ht2.
              destruct (check_call (authorize_ingress id "80") w2) as [[[]|e] w3];
                simpl in Ht2.
              ** pose proof (check_call_trace (authorize_ingress id "443") w3) as Ht3.
                 destruct (check_call (authorize_ingress id "443") w3) as [[[]|e] w4];
                   simpl in Ht3.
                 --- pose proof (check_call_trace (authorize_ingress id "22") w4) as Ht4.
                     destruct (check_call (authorize_ingress id "22") w4)
                       as [[[]|e] w5]; simpl in Ht4.
                     +++ eexists. simpl. rewrite Ht4, Ht3, Ht2, Ht1, Ht.
                         rewrite <- !app_assoc. reflexivity.
                     +++ eexists. destruct e; simpl; rewrite Ht4, Ht3, Ht2, Ht1, Ht;
                           rewrite <- !app_assoc; reflexivity.
                 --- eexists. destruct e; simpl; rewrite Ht3, Ht2, Ht1, Ht;
                       rewrite <- !app_assoc; reflexivity.
              ** eexists. destruct e; simpl; rewrite Ht2, Ht1, Ht;
                   rewrite <- !app_assoc; reflexivity.
           ++ eexists. destruct e; simpl; rewrite Ht1, Ht;
                rewrite <- !app_assoc; reflexivity.
        -- eexists. destruct e; simpl; rewrite Ht1, Ht;
             rewrite <- !app_assoc; reflexivity.
      * exists []. simpl. exact Ht.
      * exists []. destruct e; simpl; exact Ht.
    + exists []. destruct e; simpl; exact Ht.
  - intros out w1 group others Hd Hl. split.
    + eapply _ensure_aws_security_group_found; eassumption.
    + eapply check_output_Ok, Hd.
  - intros out w1 created w2 id w3 w4 w5 Hd Hl Hc Hid H80 H443 H22. split.
    + unfold _ensure_aws_security_group, try_except, bind, lift.
      rewrite Hd, Hl, Hc, Hid, H80, H443, H22. reflexivity.
    + apply check_output_Ok in Hd, Hc. apply check_call_Ok in H80, H443, H22.
      rewrite H22, H443, H80, Hc, Hd. rewrite <- !app_assoc. reflexivity.
  - intros id w' out w'' others _ Hd Hl. split.
    + eapply _ensure_aws_security_group_found; eassumption.
    + eapply check_output_Ok, Hd.
Qed.
End Provisioner.

(** ** An empty list of eligible instance types *)

Lemma _filter_instance_types_gpu_only tbl catalog gpu_memory gpu_type level m :
  resolve_gpu_memory tbl gpu_memory gpu_type = Ok m ->
  Forall (fun d => cpu_only d = false) catalog ->
  _filter_instance_types tbl catalog (Some 0) gpu_memory gpu_type level = Ok [].
Proof.
  intros Hm Hall. unfold _filter_instance_types. rewrite Hm. simpl.
  rewrite filter_r_total.
  2:{ apply Forall_forall. intros d _. rewrite _check_instance_no_gpu; auto. }
  assert (Hnone : List.filter (accepts (_check_instance (Some 0) m level)) catalog = []).
  { induction Hall as [|d l Hd _ IH]; simpl; [reflexivity|].
    unfold accepts at 1. rewrite _check_instance_no_gpu by auto. now rewrite Hd. }
  rewrite Hnone. reflexivity.
Qed.

Section EmptySelection.
Context {Ext : Type} `{!Collaborators Ext}.

(** C4, as the code has it.  An empty sequence of eligible descriptors is
    a normal result of the filter: a requirement of no GPU (with a memory
    or a resolvable family) against a catalog of GPU-equipped descriptors
    returns the empty list and raises nothing.  [run] does not look at the
    length of the list; it hands the list to the prompt of the instance
    type, and [questionary.select] refuses an empty list of choices with
    its [ValueError].  The invocation ends there: the listing of the
    instance types is the only command provisioning has started.  With
    neither a memory nor a family in the requirement the invocation ends
    at the same place with the error of the missing GPU specification,
    whatever the catalog holds. *)
Theorem C4_empty_result_fails_at_prompt :
  (forall tbl catalog gpu_memory gpu_type level m,
     resolve_gpu_memory tbl gpu_memory gpu_type = Ok m ->
     Forall (fun d => cpu_only d = false) catalog ->
     _filter_instance_types tbl catalog (Some 0) gpu_memory gpu_type level = Ok []) /\
  (forall repo subdirectory bento_info (w w1 : World Ext) out catalog service others
          res gpu_count,
     check_output ["aws"; "ec2"; "describe-instance-types"] None w = (Ok out, w1) ->
     load_instance_types out = Ok catalog ->
     services bento_info = service :: others ->
     resources service = Some res ->
     gpu res = Some gpu_count ->
     trace w1 = trace w ++ [Exec ["aws"; "ec2"; "describe-instance-types"] None] /\
     (_filter_instance_types GPU_MEMORY catalog gpu_count (gpu_memory res) (gpu_type res)
        "match" = Ok [] ->
      provision_aws repo subdirectory bento_info w
      = (Raise (ValueError "A list of choices needs to be provided."), w1)) /\
     (gpu_memory res = None -> gpu_type res = None ->
      provision_aws repo subdirectory bento_info w
      = (Raise (ValueError "Either gpu_memory or gpu_type must be provided"), w1))).
Proof.
  split; [apply _filter_instance_types_gpu_only|].
  intros repo subdirectory bento_info w w1 out catalog service others res gpu_count
    Hd Hl Hs Hr Hg.
  split; [exact (check_output_Ok _ _ _ _ _ Hd)|].
  assert (Hstart :
            provision_aws repo subdirectory bento_info w
            = bind (lift (_filter_instance_types GPU_MEMORY catalog gpu_count
                            (gpu_memory res) (gpu_type res) "match"))
                (fun supported_its =>
                   let* choices :=
                     lift (map_r (fun it_info =>
                                    let? title := _get_it_card it_info in
                                    Ok (title, InstanceType it_info)) supported_its) in
                   let* it := ask "Select an instance type" choices in
                   launch_selected repo subdirectory it) w1).
  { unfold provision_aws. unfold bind at 1. rewrite Hd.
    unfold bind at 1, lift at 1. rewrite Hl.
    unfold bind at 1, lift at 1. rewrite Hs. simpl head_r. cbv iota.
    rewrite Hr, Hg. reflexivity. }
  split.
  - intros Hf. rewrite Hstart.
    unfold bind at 1, lift at 1. rewrite Hf. reflexivity.
  - intros Hmem Hty. rewrite Hstart.
    unfold bind at 1, lift at 1. unfold _filter_instance_types.
    rewrite Hmem, Hty. reflexivity.
Qed.
End EmptySelection.

(** ** The scenarios in the simulated world *)

(** Scenario D.  C4 as stated fails.  The requirement of the scenario,
    no GPU and nothing else, ends with the error of the missing GPU
    specification, not with an error about the catalog.  With a memory
    added, the filter returns the empty list and raises nothing. *)
Lemma C4_counterexample :
  _filter_instance_types sample_GPU_MEMORY [g4dn_xlarge; p3dn_2xlarge]
    (Some 0) None None "match"
  = Raise (ValueError "Either gpu_memory or gpu_type must be provided") /\
  _filter_instance_types sample_GPU_MEMORY [g4dn_xlarge; p3dn_2xlarge]
    (Some 0) (Some (Qmake 16 1)) None "match" = Ok [].
Proof. split; vm_compute; reflexivity. Qed.

(** Scenario D in the simulated world, with a memory in the requirement
    and without: both invocations end in provisioning after the listing of
    the instance types, the first at the prompt, the second in the
    filter. *)
Lemma C4_empty_result_fails_at_prompt_witness :
  (resolve_gpu_memory sample_GPU_MEMORY (Some (Qmake 16 1)) None = Ok (Qmake 16 1) /\
   Forall (fun d => cpu_only d = false) [g4dn_xlarge; p3dn_2xlarge] /\
   _filter_instance_types sample_GPU_MEMORY [g4dn_xlarge; p3dn_2xlarge]
     (Some 0) (Some (Qmake 16 1)) None "match" = Ok []) /\
  (exists w1,
     check_output ["aws"; "ec2"; "describe-instance-types"] None (sim_world true)
     = (Ok "InstanceTypes", w1) /\
     trace w1 = [Exec ["aws"; "ec2"; "describe-instance-types"] None] /\
     provision_aws "https://github.com/org/repo" "sub/dir" sim_bento_info (sim_world true)
     = (Raise (ValueError "A list of choices needs to be provided."), w1) /\
     provision_aws "https://github.com/org/repo" "sub/dir"
       {| services := [ {| resources := Some {| gpu := Some (Some 0); gpu_type := None;
                                                 gpu_memory := None |} |} ] |}
       (sim_world true)
     = (Raise (ValueError "Either gpu_memory or gpu_type must be provided"), w1)).
Proof.
  destruct (C4_empty_result_fails_at_prompt (Ext := Sim)) as [Hfilter Hrun].
  assert (Hm : resolve_gpu_memory sample_GPU_MEMORY (Some (Qmake 16 1)) None
               = Ok (Qmake 16 1)) by reflexivity.
  assert (Hall : Forall (fun d => cpu_only d = false) [g4dn_xlarge; p3dn_2xlarge])
    by (repeat constructor).
  pose proof (Hfilter sample_GPU_MEMORY _ _ _ "match" _ Hm Hall) as Hempty.
  split; [split; [exact Hm | split; [exact Hall | exact Hempty]]|].
  eexists.
  assert (Hd : check_output ["aws"; "ec2"; "describe-instance-types"] None (sim_world true)
               = (Ok "InstanceTypes",
                  snd (check_output ["aws"; "ec2"; "describe-instance-types"] None
                         (sim_world true))))
    by (vm_compute; reflexivity).
  split; [exact Hd|].
  destruct (Hrun "https://github.com/org/repo" "sub/dir" sim_bento_info (sim_world true) _
              "InstanceTypes" [g4dn_xlarge; p3dn_2xlarge] _ [] _ (Some 0)
              Hd eq_refl eq_refl eq_refl eq_refl) as (Htrace & Hprompt & _).
  destruct (Hrun "https://github.com/org/repo" "sub/dir"
              {| services := [ {| resources := Some {| gpu := Some (Some 0);
                                                        gpu_type := None;
                                                        gpu_memory := None |} |} ] |}
              (sim_world true) _
              "InstanceTypes" [g4dn_xlarge; p3dn_2xlarge] _ [] _ (Some 0)
              Hd eq_refl eq_refl eq_refl eq_refl) as (_ & _ & Hbare).
  split; [exact Htrace|]. split; [exact (Hprompt Hempty) | exact (Hbare eq_refl eq_refl)].
Defined.

(** The clone fails in a world whose remote cannot be reached, on a file
    system that lets the tree be removed: the directory the clone made is
    gone, with everything under it, when the error leaves the build path.
    In the world after a clone that succeeded, the directory is there and
    no second clone is started. *)
Lemma C7_clone_cleanup_witness :
  let repo_dir := ["home"; "operator"; ".cllama"; "repos"; "github.com"; "org"; "repo"] in
  let cmd := git_clone "main" "https://github.com/org/repo" repo_dir in
  let cloned := snd (clone_repo "https://github.com/org/repo" "main" repo_dir
                       (sim_world true)) in
  ((repo_dir ∉ fs (sim_world false)) /\
   exists w1' w2 w3,
     mkdir_parents (parent repo_dir) (sim_world false) = (Ok tt, w1') /\
     check_call cmd w1' = (Raise (CalledProcessError cmd 128), w2) /\
     ensure_repo "https://github.com/org/repo" "main" repo_dir false (sim_world false)
     = (Raise (CalledProcessError cmd 128), w3) /\
     build_path "https://github.com/org/repo" "main" "sub/dir"
       ["github.com"; EmptyString; "org"; "repo"] "m" "v" false (sim_world false)
     = (Raise (CalledProcessError cmd 128), w3) /\
     trace w3 = trace (sim_world false) ++ [Exec cmd None] /\
     (repo_dir ∈ fs w2) /\
     (forall q, repo_dir `prefix_of` q -> q ∉ fs w3)) /\
  ((repo_dir ∈ fs cloned) /\
   ensure_repo "https://github.com/org/repo" "main" repo_dir false cloned
   = (Ok tt, cloned)).
Proof.
  intros repo_dir cmd cloned. split.
  - assert (Hnotin : repo_dir ∉ fs (sim_world false))
      by (apply (proj1 (bool_decide_eq_false _)); vm_compute; reflexivity).
    split; [exact Hnotin|].
    set (w1' := snd (mkdir_parents (parent repo_dir) (sim_world false))).
    set (w2 := snd (check_call cmd w1')).
    assert (Hmkdir : mkdir_parents (parent repo_dir) (sim_world false) = (Ok tt, w1'))
      by reflexivity.
    assert (Hclone : check_call cmd w1' = (Raise (CalledProcessError cmd 128), w2))
      by (vm_compute; reflexivity).
    exists w1', w2, (snd (rmtree repo_dir w2)).
    split; [exact Hmkdir|]. split; [exact Hclone|].
    assert (H : ensure_repo "https://github.com/org/repo" "main" repo_dir false
                  (sim_world false)
                = (Raise (CalledProcessError cmd 128), snd (rmtree repo_dir w2)) /\
                build_path "https://github.com/org/repo" "main" "sub/dir"
                  ["github.com"; EmptyString; "org"; "repo"] "m" "v" false (sim_world false)
                = (Raise (CalledProcessError cmd 128), snd (rmtree repo_dir w2)) /\
                trace (snd (rmtree repo_dir w2))
                = trace (sim_world false) ++ [Exec cmd None] /\
                (forall q, repo_dir `prefix_of` q ->
                   q ∈ fs (snd (rmtree repo_dir w2))
                   <-> q ∈ fs w2 /\ q ∈ rmtree_keeps repo_dir (fs w2) (ext w2)))
      by exact (proj2 (C7_clone_cleanup "https://github.com/org/repo" "main" "sub/dir"
                         ["github.com"; EmptyString; "org"; "repo"] "m" "v" false
                         (sim_world false))
                  Hnotin w1' (CalledProcessError cmd 128) w2 Hmkdir Hclone).
    destruct H as (He & Hb & Ht & Hleft).
    split; [exact He|]. split; [exact Hb|]. split; [exact Ht|].
    split; [apply (proj1 (bool_decide_eq_true _)); vm_compute; reflexivity|].
    intros q Hq Hin. apply Hleft in Hin as [_ Hkept]; [|exact Hq].
    exact (not_elem_of_empty q Hkept).
  - assert (Hin : repo_dir ∈ fs cloned)
      by (apply (proj1 (bool_decide_eq_true _)); vm_compute; reflexivity).
    split; [exact Hin|].
    exact (proj1 (proj1 (C7_clone_cleanup "https://github.com/org/repo" "main" "sub/dir"
                           ["github.com"; EmptyString; "org"; "repo"] "m" "v" false
                           cloned) Hin)).
Defined.

(** C7 as stated fails.  On a file system that lets nothing be removed,
    the clone makes the storage directory and fails: the removal is tried
    and its failure ignored, the error of the clone leaves the build path
    and the half-made directory is still there. *)
Lemma C7_counterexample :
  (["home"; "operator"; ".cllama"; "repos"; "github.com"; "org"; "repo"]
     ∉ fs (sim_world false)) /\
  fst (build_path (Collaborators0 := sim_on_files true None)
         "https://github.com/org/repo" "main" "sub/dir"
         ["github.com"; EmptyString; "org"; "repo"] "m" "v" false (sim_world false))
  = Raise (CalledProcessError
             (git_clone "main" "https://github.com/org/repo"
                ["home"; "operator"; ".cllama"; "repos"; "github.com"; "org"; "repo"])
             128) /\
  ["home"; "operator"; ".cllama"; "repos"; "github.com"; "org"; "repo"]
    ∈ fs (snd (build_path (Collaborators0 := sim_on_files true None)
                 "https://github.com/org/repo" "main" "sub/dir"
                 ["github.com"; EmptyString; "org"; "repo"] "m" "v" false
                 (sim_world false))).
Proof.
  split; [apply (proj1 (bool_decide_eq_false _)); vm_compute; reflexivity|].
  split; [vm_compute; reflexivity|].
  apply (proj1 (bool_decide_eq_true _)); vm_compute; reflexivity.
Qed.

(** Scenario C: the query of [m:v] fails, the clone and the build
    succeed, the build prints the identity [m2:v2]. *)
Lemma C9_requery_built_identity_witness :
  exists w1 w2 w3,
    _get_bento_info "m:v" (sim_world true)
    = (Raise (CalledProcessError ["bentoml"; "get"; "m:v"] 1), w1) /\
    ensure_repo "https://github.com/org/repo" "main"
      (joinpath REPO_DIR ["github.com"; EmptyString; "org"; "repo"]) false w1 = (Ok tt, w2) /\
    _build_bento (path_div (joinpath REPO_DIR ["github.com"; EmptyString; "org"; "repo"]) "sub/dir")
      "m" "v" w2 = (Ok ["m2"; "v2"], w3) /\
    get_or_build "https://github.com/org/repo" "main" "sub/dir"
      ["github.com"; EmptyString; "org"; "repo"] "m" "v" false (sim_world true)
    = _get_bento_info "m2:v2" w3 /\
    trace (snd (get_or_build "https://github.com/org/repo" "main" "sub/dir"
                  ["github.com"; EmptyString; "org"; "repo"] "m" "v" false (sim_world true)))
    = trace w3 ++ [Exec ["bentoml"; "get"; "m2:v2"] None].
Proof.
  eexists _, _, _.
  assert (H1 : _get_bento_info "m:v" (sim_world true)
               = (Raise (CalledProcessError ["bentoml"; "get"; "m:v"] 1),
                  snd (_get_bento_info "m:v" (sim_world true))))
    by (vm_compute; reflexivity).
  set (w1 := snd (_get_bento_info "m:v" (sim_world true))) in *.
  assert (H2 : ensure_repo "https://github.com/org/repo" "main"
                 (joinpath REPO_DIR ["github.com"; EmptyString; "org"; "repo"]) false w1
               = (Ok tt, snd (ensure_repo "https://github.com/org/repo" "main"
                    (joinpath REPO_DIR ["github.com"; EmptyString; "org"; "repo"]) false w1)))
    by (vm_compute; reflexivity).
  set (w2 := snd (ensure_repo _ _ _ _ w1)) in *.
  assert (H3 : _build_bento
                 (path_div (joinpath REPO_DIR ["github.com"; EmptyString; "org"; "repo"]) "sub/dir")
                 "m" "v" w2
               = (Ok ["m2"; "v2"],
                  snd (_build_bento
                         (path_div (joinpath REPO_DIR ["github.com"; EmptyString; "org"; "repo"])
                            "sub/dir") "m" "v" w2)))
    by (vm_compute; reflexivity).
  split; [exact H1|]. split; [exact H2|]. split; [exact H3|].
  exact (C9_requery_built_identity "https://github.com/org/repo" "main" "sub/dir"
           ["github.com"; EmptyString; "org"; "repo"] "m" "v" false (sim_world true) w1 w2 _
           ["bentoml"; "get"; "m:v"] 1 "m2" "v2" H1 H2 H3).
Defined.

(** Two calls in a row in an account without the group: the first
    creates it, the second finds it and starts the lookup only. *)
Lemma C8_ensure_security_group_idempotent_witness :
  exists w' w'',
    _ensure_aws_security_group "cllama-http-default" (sim_world true) = (Ok "sg-0", w') /\
    trace w'
    = [ Exec (describe_security_groups "cllama-http-default") None;
        Exec (create_security_group "cllama-http-default") None;
        Exec (authorize_ingress "sg-0" "80") None;
        Exec (authorize_ingress "sg-0" "443") None;
        Exec (authorize_ingress "sg-0" "22") None ] /\
    check_output (describe_security_groups "cllama-http-default") None w'
    = (Ok "sg-0", w'') /\
    load_security_groups (Ext := Sim) "sg-0" = Ok ["sg-0"] /\
    _ensure_aws_security_group "cllama-http-default" w' = (Ok "sg-0", w'') /\
    trace w'' = trace w' ++ [Exec (describe_security_groups "cllama-http-default") None].
Proof.
  destruct (C8_ensure_security_group_idempotent "cllama-http-default" (sim_world true))
    as (_ & _ & Hcreate & Hagain).
  set (w0 := sim_world true).
  set (w1 := snd (check_output (describe_security_groups "cllama-http-default") None w0)).
  set (w2 := snd (check_output (create_security_group "cllama-http-default") None w1)).
  set (w3 := snd (check_call (authorize_ingress "sg-0" "80") w2)).
  set (w4 := snd (check_call (authorize_ingress "sg-0" "443") w3)).
  set (w5 := snd (check_call (authorize_ingress "sg-0" "22") w4)).
  assert (H1 : check_output (describe_security_groups "cllama-http-default") None w0
               = (Ok EmptyString, w1)) by (vm_compute; reflexivity).
  assert (H2 : check_output (create_security_group "cllama-http-default") None w1
               = (Ok "sg-0", w2)) by (vm_compute; reflexivity).
  assert (H3 : check_call (authorize_ingress "sg-0" "80") w2 = (Ok tt, w3))
    by (vm_compute; reflexivity).
  assert (H4 : check_call (authorize_ingress "sg-0" "443") w3 = (Ok tt, w4))
    by (vm_compute; reflexivity).
  assert (H5 : check_call (authorize_ingress "sg-0" "22") w4 = (Ok tt, w5))
    by (vm_compute; reflexivity).
  destruct (Hcreate EmptyString w1 "sg-0" w2 "sg-0" w3 w4 w5 H1 eq_refl H2 eq_refl H3 H4 H5)
    as [Hfirst Htrace].
  set (w'' := snd (check_output (describe_security_groups "cllama-http-default") None w5)).
  assert (H6 : check_output (describe_security_groups "cllama-http-default") None w5
               = (Ok "sg-0", w'')) by (vm_compute; reflexivity).
  assert (H7 : load_security_groups (Ext := Sim) "sg-0" = Ok ["sg-0"])
    by (vm_compute; reflexivity).
  exists w5, w''.
  split; [exact Hfirst|]. split; [exact Htrace|]. split; [exact H6|]. split; [exact H7|].
  exact (Hagain "sg-0" w5 "sg-0" w'' [] Hfirst H6 H7).
Defined.

(** * Further properties *)

(** ** The instance matcher: what is returned and in which order *)

Lemma Qeq_bool_of_Qeq (x y : Q) : Qeq x y -> Qeq_bool x y = true.
Proof. apply Qeq_bool_iff. Qed.

Lemma Qle_bool_of_Qle (x y : Q) : Qle x y -> Qle_bool x y = true.
Proof. apply Qle_bool_iff. Qed.

Lemma get_gpus_cons dflt d g rest :
  get_gpus [] d = g :: rest -> get_gpus dflt d = g :: rest.
Proof.
  unfold get_gpus. destruct (GpuInfo d) as [gi|]; [|discriminate].
  destruct (Gpus gi); simpl; [auto | discriminate].
Qed.

(** What the filter keeps has a sort key. *)
Lemma accepts_sort_key gpu_count m level d :
  accepts (_check_instance gpu_count m level) d = true ->
  is_ok (_sort_key d) = true.
Proof.
  unfold accepts, _check_instance.
  destruct (match gpu_count with Some c => c =? 0 | None => true end).
  - destruct (GpuInfo d) eqn:E; [discriminate|]. intros _.
    apply _sort_key_cpu_only. unfold cpu_only. now rewrite E.
  - destruct (get_gpus [] d) as [|g rest] eqn:E; [discriminate|]. intros _.
    unfold _sort_key. rewrite (get_gpus_cons _ _ _ _ E).
    pose proof (split_nonempty "." (InstanceType d)).
    now destruct (split "." (InstanceType d)).
Qed.

Lemma _filter_instance_types_unfold tbl catalog gpu_count gpu_memory gpu_type level m :
  resolve_gpu_memory tbl gpu_memory gpu_type = Ok m ->
  Forall (fun d => is_ok (_check_instance gpu_count m level d) = true) catalog ->
  _filter_instance_types tbl catalog gpu_count gpu_memory gpu_type level
  = Ok (map snd (sort_by key_lt
          (map (fun d => (get_or (EmptyString, 0, 0, 0) (_sort_key d), d))
             (List.filter (accepts (_check_instance gpu_count m level)) catalog)))).
Proof.
  intros Hm Hall. unfold _filter_instance_types. rewrite Hm. simpl.
  rewrite filter_r_total by exact Hall. simpl.
  apply sorted_total. apply Forall_forall. intros d Hd.
  apply list_elem_of_In, filter_In in Hd as [_ Hd]. now apply accepts_sort_key in Hd.
Qed.

(** X1.  Nothing eligible is left out.  For a requirement of [c] GPUs and
    a memory [m], a descriptor of the catalog whose first GPU entry has
    the count [c] and the memory [m] is returned at every level, and one
    whose first GPU entry has at least that count and that memory is
    returned at the level "usable". *)
Theorem X1_eligible_are_returned tbl catalog c gpu_memory gpu_type level out m
    d g rest cnt mib :
  _filter_instance_types tbl catalog (Some c) gpu_memory gpu_type level = Ok out ->
  c <> 0 ->
  resolve_gpu_memory tbl gpu_memory gpu_type = Ok m ->
  In d catalog ->
  get_gpus [] d = g :: rest -> Count g = Some cnt -> GpuSizeInMiB g = Some mib ->
  (cnt = c /\ Qeq (Qmake mib 1024) m) \/
  (level = "usable" /\ c <= cnt /\ Qle m (Qmake mib 1024)) ->
  In d out.
Proof.
  intros H Hc Hm Hd Hg Hcnt Hmib Hel.
  apply _filter_instance_types_Ok in H as (m' & Hm' & _ & Hperm).
  rewrite Hm in Hm'. injection Hm' as <-.
  apply (Permutation_in _ (Permutation_sym Hperm)). apply filter_In. split; [exact Hd|].
  unfold accepts, _check_instance. apply Z.eqb_neq in Hc. rewrite Hc.
  simpl. rewrite Hg, Hmib, Hcnt. simpl.
  destruct ((cnt =? c) && Qeq_bool (Qmake mib 1024) m) eqn:Heq; [reflexivity|].
  destruct Hel as [[-> Hq] | (-> & Hle & Hq)].
  - rewrite Z.eqb_refl, (Qeq_bool_of_Qeq _ _ Hq) in Heq. discriminate.
  - apply Z.leb_le in Hle. rewrite Hle, (Qle_bool_of_Qle _ _ Hq). reflexivity.
Qed.

Lemma X1_eligible_are_returned_witness :
  In p3dn_2xlarge [g4dn_xlarge; p3dn_2xlarge].
Proof.
  apply (X1_eligible_are_returned sample_GPU_MEMORY
           [p3dn_2xlarge; m5_24xlarge; g4dn_xlarge] 1 (Some (Qmake 16 1)) None "usable"
           [g4dn_xlarge; p3dn_2xlarge] (Qmake 16 1) p3dn_2xlarge
           (gpu_entry 2 "V100" 32768) [] 2 32768).
  - vm_compute; reflexivity.
  - discriminate.
  - reflexivity.
  - simpl; tauto.
  - reflexivity.
  - reflexivity.
  - reflexivity.
  - right. split; [reflexivity|]. split; [lia|]. vm_compute. discriminate.
Defined.

Lemma sort_by_fixpoint {A K} (lt : K -> K -> bool) (l : list (K * A)) :
  Sorted (not_after lt) l -> sort_by lt l = l.
Proof.
  induction 1 as [|x l Hs IH Hhd]; simpl; [reflexivity|]. rewrite IH.
  destruct Hhd as [|y l' Hxy]; simpl; [reflexivity|].
  unfold not_after in Hxy. now rewrite Hxy.
Qed.

Lemma Sorted_map_fst {A K} (lt : K -> K -> bool) (l : list (K * A)) :
  Sorted (not_after lt) l -> Sorted (fun k1 k2 => lt k2 k1 = false) (map fst l).
Proof.
  induction 1 as [|x l Hs IH Hhd]; simpl; constructor; [exact IH|].
  destruct Hhd; simpl; constructor. assumption.
Qed.

Lemma map_r_map_total {A B} (f : A -> result B) (dflt : B) (l : list A) :
  Forall (fun x => is_ok (f x) = true) l ->
  map_r f l = Ok (map (fun x => get_or dflt (f x)) l).
Proof.
  intros Hall. destruct (map_r_total f l Hall) as [r Hr].
  now rewrite Hr, (map_r_Ok_map f dflt l r Hr).
Qed.

(** The pairs of a sorted list of keyed descriptors are still keyed. *)
Lemma sort_by_keyed {A K} (lt : K -> K -> bool) (kf : A -> K) (l : list A) :
  sort_by lt (map (fun x => (kf x, x)) l)
  = map (fun x => (kf x, x)) (map snd (sort_by lt (map (fun x => (kf x, x)) l))).
Proof.
  assert (Hall : Forall (fun p => p = (kf (snd p), snd p))
                   (sort_by lt (map (fun x => (kf x, x)) l))).
  { apply Forall_forall. intros p Hp. apply list_elem_of_In in Hp.
    apply (Permutation_in _ (sort_by_Permutation lt _)) in Hp.
    apply in_map_iff in Hp as (x & <- & _). reflexivity. }
  induction Hall as [|p r Hp _ IH]; simpl; [reflexivity|]. now rewrite <- Hp, <- IH.
Qed.

(** X2.  The descriptors come out in ascending order of their sort keys:
    no key in the output is smaller than the key before it. *)
Theorem X2_output_sorted tbl catalog gpu_count gpu_memory gpu_type level out :
  _filter_instance_types tbl catalog gpu_count gpu_memory gpu_type level = Ok out ->
  exists keys,
    map_r _sort_key out = Ok keys /\
    Sorted (fun k1 k2 => key_lt k2 k1 = false) keys.
Proof.
  intros H. unfold _filter_instance_types in H.
  apply rbind_Ok in H as (m & _ & H). apply rbind_Ok in H as (kept & _ & H).
  pose proof (sorted_Permutation _ _ _ _ H) as Hperm.
  apply (sorted_Ok_inv _ _ ((EmptyString, 0, 0, 0) : sort_key)) in H as [Hok ->].
  set (kf := fun x => get_or ((EmptyString, 0, 0, 0) : sort_key) (_sort_key x)) in *.
  exists (map kf (map snd (sort_by key_lt (map (fun x => (kf x, x)) kept)))). split.
  - apply map_r_map_total. subst kf. now rewrite Hperm.
  - pose proof (sort_by_Sorted key_lt key_lt_irrefl key_lt_trans
                  (map (fun x => (kf x, x)) kept)) as Hs.
    apply Sorted_map_fst in Hs. rewrite sort_by_keyed in Hs.
    rewrite map_map in Hs. simpl in Hs. exact Hs.
Qed.

Lemma X2_output_sorted_witness :
  exists keys,
    map_r _sort_key [g4dn_xlarge; p3dn_2xlarge] = Ok keys /\
    Sorted (fun k1 k2 => key_lt k2 k1 = false) keys.
Proof.
  apply (X2_output_sorted sample_GPU_MEMORY [p3dn_2xlarge; m5_24xlarge; g4dn_xlarge]
           (Some 1) (Some (Qmake 16 1)) None "usable").
  vm_compute; reflexivity.
Defined.

Lemma filter_r_all_true {A} (f : A -> result bool) (l : list A) :
  Forall (fun x => f x = Ok true) l -> filter_r f l = Ok l.
Proof.
  induction 1 as [|x l Hx _ IH]; simpl; [reflexivity|]. now rewrite Hx, IH.
Qed.

(** X3.  The filter leaves its own output as it is: run on what it
    returned, with the same requirement and level, it returns the same
    sequence. *)
Theorem X3_filter_idempotent tbl catalog gpu_count gpu_memory gpu_type level out :
  _filter_instance_types tbl catalog gpu_count gpu_memory gpu_type level = Ok out ->
  _filter_instance_types tbl out gpu_count gpu_memory gpu_type level = Ok out.
Proof.
  intros H. pose proof H as H0.
  apply _filter_instance_types_Ok in H0 as (m & Hm & _ & Hperm).
  assert (Hacc : Forall (fun d => _check_instance gpu_count m level d = Ok true) out).
  { apply Forall_forall. intros d Hd. apply list_elem_of_In in Hd.
    apply (Permutation_in _ Hperm), filter_In in Hd as [_ Hd].
    unfold accepts in Hd.
    now destruct (_check_instance gpu_count m level d) as [[|]|]. }
  unfold _filter_instance_types in *. rewrite Hm in *. simpl in *.
  rewrite (filter_r_all_true _ _ Hacc). simpl.
  apply rbind_Ok in H as (kept & _ & H).
  pose proof (sorted_Permutation _ _ _ _ H) as Hp.
  apply (sorted_Ok_inv _ _ ((EmptyString, 0, 0, 0) : sort_key)) in H as [Hok Hout].
  rewrite (sorted_total _ _ ((EmptyString, 0, 0, 0) : sort_key)) by (now rewrite Hp).
  set (kf := fun x => get_or ((EmptyString, 0, 0, 0) : sort_key) (_sort_key x)) in *.
  rewrite Hout at 1. rewrite <- sort_by_keyed.
  rewrite sort_by_fixpoint
    by (apply sort_by_Sorted; [apply key_lt_irrefl | apply key_lt_trans]).
  now rewrite <- Hout.
Qed.

Lemma X3_filter_idempotent_witness :
  _filter_instance_types sample_GPU_MEMORY [g4dn_xlarge; p3dn_2xlarge]
    (Some 1) (Some (Qmake 16 1)) None "usable" = Ok [g4dn_xlarge; p3dn_2xlarge].
Proof.
  apply (X3_filter_idempotent sample_GPU_MEMORY [p3dn_2xlarge; m5_24xlarge; g4dn_xlarge]).
  vm_compute; reflexivity.
Defined.

(** ** The instance matcher: levels and errors *)

Lemma _check_instance_match_usable gpu_count m d b :
  _check_instance gpu_count m "match" d = Ok b ->
  exists b', _check_instance gpu_count m "usable" d = Ok b' /\ (b = true -> b' = true).
Proof.
  unfold _check_instance.
  destruct (match gpu_count with Some c => c =? 0 | None => true end).
  - intros H. exists b. split; [exact H | auto].
  - destruct (get_gpus [] d) as [|g rest]; [intros H; exists b; split; auto|].
    destruct (GpuSizeInMiB g) as [mib|]; simpl; [|discriminate].
    destruct (Count g) as [cnt|]; simpl; [|discriminate].
    destruct ((cnt =? default 0 gpu_count) && Qeq_bool (Qmake mib 1024) m).
    + intros H. exists b. split; auto.
    + destruct ((default 0 gpu_count <=? cnt) && Qle_bool m (Qmake mib 1024)); simpl.
      * intros [= <-]. exists true. split; [reflexivity | discriminate].
      * intros H. exists b. split; auto.
Qed.

(** X4.  What is returned at the level "match" is returned at the level
    "usable": when the filter succeeds at "match" it succeeds at "usable",
    with every descriptor of the first output in the second. *)
Theorem X4_match_within_usable tbl catalog gpu_count gpu_memory gpu_type out :
  _filter_instance_types tbl catalog gpu_count gpu_memory gpu_type "match" = Ok out ->
  exists out',
    _filter_instance_types tbl catalog gpu_count gpu_memory gpu_type "usable" = Ok out' /\
    forall d, In d out -> In d out'.
Proof.
  intros H. apply _filter_instance_types_Ok in H as (m & Hm & Hall & Hperm).
  assert (Hall' : Forall (fun d => is_ok (_check_instance gpu_count m "usable" d) = true)
                    catalog).
  { apply Forall_forall. intros d Hd. rewrite Forall_forall in Hall.
    specialize (Hall d Hd).
    destruct (_check_instance gpu_count m "match" d) as [b|] eqn:E; [|discriminate].
    apply _check_instance_match_usable in E as (b' & -> & _). reflexivity. }
  eexists. split; [apply (_filter_instance_types_unfold _ _ _ _ _ _ m Hm Hall')|].
  intros d Hd. apply (Permutation_in _ Hperm), filter_In in Hd as [Hin Hacc].
  apply in_map_iff. exists (get_or (EmptyString, 0, 0, 0) (_sort_key d), d).
  split; [reflexivity|].
  apply (Permutation_in _ (Permutation_sym (sort_by_Permutation key_lt _))).
  apply in_map_iff. exists d. split; [reflexivity|].
  apply filter_In. split; [exact Hin|].
  unfold accepts in *.
  destruct (_check_instance gpu_count m "match" d) as [[|]|] eqn:E; try discriminate.
  apply _check_instance_match_usable in E as (b' & -> & Hb). now rewrite Hb.
Qed.

Lemma X4_match_within_usable_witness :
  exists out',
    _filter_instance_types sample_GPU_MEMORY [p3dn_2xlarge; m5_24xlarge; g4dn_xlarge]
      (Some 1) (Some (Qmake 16 1)) None "usable" = Ok out' /\
    forall d, In d [g4dn_xlarge] -> In d out'.
Proof.
  apply (X4_match_within_usable sample_GPU_MEMORY [p3dn_2xlarge; m5_24xlarge; g4dn_xlarge]
           (Some 1) (Some (Qmake 16 1)) None [g4dn_xlarge]).
  vm_compute; reflexivity.
Defined.

(** X5.  A level that is neither "match" nor "usable" is noticed only on
    a descriptor that exceeds the requirement: the check of a descriptor
    raises [AssertionError] exactly when its first GPU entry has at least
    the count and the memory required without having both exactly, and
    the filter then does not return. *)
Theorem X5_unknown_level tbl catalog c gpu_memory gpu_type level m d g rest cnt mib :
  level <> "match" -> level <> "usable" -> c <> 0 ->
  get_gpus [] d = g :: rest -> Count g = Some cnt -> GpuSizeInMiB g = Some mib ->
  (_check_instance (Some c) m level d = Raise AssertionError
   <-> c <= cnt /\ Qle m (Qmake mib 1024) /\ ~ (cnt = c /\ Qeq (Qmake mib 1024) m)) /\
  (_check_instance (Some c) m level d = Raise AssertionError ->
   resolve_gpu_memory tbl gpu_memory gpu_type = Ok m -> In d catalog ->
   is_ok (_filter_instance_types tbl catalog (Some c) gpu_memory gpu_type level) = false).
Proof.
  intros Hl1 Hl2 Hc Hg Hcnt Hmib. split.
  - unfold _check_instance. apply Z.eqb_neq in Hc. rewrite Hc. simpl.
    rewrite Hg, Hmib, Hcnt. simpl.
    apply String.eqb_neq in Hl1, Hl2. rewrite Hl1, Hl2.
    destruct (Z.eqb_spec cnt c) as [->|Hne]; simpl.
    + destruct (Qeq_bool (Qmake mib 1024) m) eqn:Hq.
      * split; [discriminate|]. intros (_ & _ & Hn). destruct Hn.
        split; [reflexivity | now apply Qeq_bool_true].
      * rewrite Z.leb_refl. simpl. destruct (Qle_bool m (Qmake mib 1024)) eqn:Hle.
        -- split; [|reflexivity]. intros _. split; [lia|].
           split; [now apply Qle_bool_true|]. intros [_ Hq'].
           apply Qeq_bool_of_Qeq in Hq'. congruence.
        -- split; [discriminate|]. intros (_ & Hle' & _).
           apply Qle_bool_of_Qle in Hle'. congruence.
    + destruct (Z.leb_spec c cnt) as [Hle|Hgt]; simpl.
      * destruct (Qle_bool m (Qmake mib 1024)) eqn:Hq.
        -- split; [|reflexivity]. intros _. split; [lia|].
           split; [now apply Qle_bool_true|]. intros [Heq _]. contradiction.
        -- split; [discriminate|]. intros (_ & Hle' & _).
           apply Qle_bool_of_Qle in Hle'. congruence.
      * split; [discriminate|]. intros (Hle & _). lia.
  - intros Hchk Hm Hd.
    destruct (_filter_instance_types tbl catalog (Some c) gpu_memory gpu_type level)
      as [out|e] eqn:E; [|reflexivity].
    apply _filter_instance_types_Ok in E as (m' & Hm' & Hall & _).
    rewrite Hm in Hm'. injection Hm' as <-.
    rewrite Forall_forall in Hall. apply list_elem_of_In in Hd.
    specialize (Hall d Hd). rewrite Hchk in Hall. discriminate.
Qed.

Lemma X5_unknown_level_witness :
  _check_instance (Some 1) (Qmake 16 1) "exact" p3dn_2xlarge = Raise AssertionError /\
  is_ok (_filter_instance_types sample_GPU_MEMORY [g4dn_xlarge; p3dn_2xlarge]
           (Some 1) (Some (Qmake 16 1)) None "exact") = false.
Proof.
  destruct (X5_unknown_level sample_GPU_MEMORY [g4dn_xlarge; p3dn_2xlarge] 1
              (Some (Qmake 16 1)) None "exact" (Qmake 16 1) p3dn_2xlarge
              (gpu_entry 2 "V100" 32768) [] 2 32768)
    as [Hiff Hfilter]; try discriminate; try reflexivity.
  assert (Hchk : _check_instance (Some 1) (Qmake 16 1) "exact" p3dn_2xlarge
                 = Raise AssertionError).
  { apply Hiff. split; [lia|]. split; [vm_compute; discriminate|].
    intros [Hcnt _]. discriminate. }
  split; [exact Hchk|]. apply Hfilter; [exact Hchk | reflexivity | simpl; tauto].
Defined.

Lemma _check_instance_known_level gpu_count m level d :
  level = "match" \/ level = "usable" ->
  _check_instance gpu_count m level d <> Raise AssertionError.
Proof.
  intros Hl H. unfold _check_instance in H.
  destruct (match gpu_count with Some c => c =? 0 | None => true end).
  - destruct (GpuInfo d); discriminate.
  - destruct (get_gpus [] d) as [|g rest]; [discriminate|].
    destruct (GpuSizeInMiB g); simpl in H; [|discriminate].
    destruct (Count g); simpl in H; [|discriminate].
    destruct (_ && _); [discriminate|]. destruct (_ && _); [|discriminate].
    destruct Hl as [-> | ->]; discriminate.
Qed.

(** X6.  One GPU entry without its "Count" or its memory size is enough
    to fail the whole filter: with a requirement of GPUs and a known
    level, a catalog that holds a descriptor whose first GPU entry lacks
    one of the two keys makes the filter raise a [KeyError], wherever the
    descriptor stands and whatever the other descriptors are. *)
Theorem X6_malformed_gpu_entry tbl catalog c gpu_memory gpu_type level m d g rest :
  level = "match" \/ level = "usable" -> c <> 0 ->
  resolve_gpu_memory tbl gpu_memory gpu_type = Ok m ->
  In d catalog -> get_gpus [] d = g :: rest ->
  GpuSizeInMiB g = None \/ Count g = None ->
  exists key,
    _filter_instance_types tbl catalog (Some c) gpu_memory gpu_type level
    = Raise (KeyError key).
Proof.
  intros Hl Hc Hm Hd Hg Hmissing.
  assert (Hbad : is_ok (_check_instance (Some c) m level d) = false).
  { unfold _check_instance. apply Z.eqb_neq in Hc. rewrite Hc. simpl. rewrite Hg.
    destruct Hmissing as [-> | Hcnt]; [reflexivity|].
    destruct (GpuSizeInMiB g); [|reflexivity]. simpl. now rewrite Hcnt. }
  unfold _filter_instance_types. rewrite Hm. simpl.
  destruct (filter_r (_check_instance (Some c) m level) catalog) as [kept|e] eqn:E.
  - apply filter_r_Ok in E as [Hall _]. rewrite Forall_forall in Hall.
    apply list_elem_of_In in Hd. rewrite (Hall d Hd) in Hbad. discriminate.
  - simpl. apply filter_r_Raise in E as (x & _ & Hx).
    pose proof (_check_instance_known_level (Some c) m level x Hl) as Hna.
    apply _check_instance_Raise in Hx as Hx'. destruct Hx' as [-> | [k ->]];
      [contradiction | now exists k].
Qed.

Lemma X6_malformed_gpu_entry_witness :
  exists key,
    _filter_instance_types sample_GPU_MEMORY
      [g4dn_xlarge;
       {| InstanceType := "g5.xlarge"; DefaultVCpus := Some 4; SizeInMiB := Some 16384;
          GpuInfo := Some {| Gpus := Some [ {| Count := Some 1; Name := Some "A10G";
                                               GpuSizeInMiB := None |} ] |} |}]
      (Some 1) (Some (Qmake 16 1)) None "match"
    = Raise (KeyError key).
Proof.
  eapply (X6_malformed_gpu_entry sample_GPU_MEMORY _ 1 (Some (Qmake 16 1)) None "match"
            (Qmake 16 1)).
  - left; reflexivity.
  - discriminate.
  - reflexivity.
  - right; left; reflexivity.
  - reflexivity.
  - left; reflexivity.
Defined.

(** X7.  The sort never fails on what the filter keeps.  An exception of
    the filter is the exception of the resolution of the memory or of the
    check of a descriptor of the catalog; it is never an [IndexError]. *)
Theorem X7_filter_errors tbl catalog gpu_count gpu_memory gpu_type level e :
  _filter_instance_types tbl catalog gpu_count gpu_memory gpu_type level = Raise e ->
  (resolve_gpu_memory tbl gpu_memory gpu_type = Raise e \/
   exists m d,
     resolve_gpu_memory tbl gpu_memory gpu_type = Ok m /\ In d catalog /\
     _check_instance gpu_count m level d = Raise e) /\
  e <> IndexError.
Proof.
  intros H.
  assert (Hcases : resolve_gpu_memory tbl gpu_memory gpu_type = Raise e \/
                   exists m d,
                     resolve_gpu_memory tbl gpu_memory gpu_type = Ok m /\ In d catalog /\
                     _check_instance gpu_count m level d = Raise e).
  { destruct (resolve_gpu_memory tbl gpu_memory gpu_type) as [m|e'] eqn:Hm.
    - right. exists m.
      destruct (filter_r (_check_instance gpu_count m level) catalog) as [kept|e'] eqn:E.
      + apply filter_r_Ok in E as [Hall _].
        rewrite (_filter_instance_types_unfold _ _ _ _ _ _ m Hm Hall) in H. discriminate.
      + unfold _filter_instance_types in H. rewrite Hm in H. simpl in H.
        rewrite E in H. simpl in H. injection H as <-.
        apply filter_r_Raise in E as (d & Hd & Hx). now exists d.
    - left. unfold _filter_instance_types in H. rewrite Hm in H. simpl in H.
      now injection H as <-. }
  split; [exact Hcases|]. intros ->.
  destruct Hcases as [Hr | (m & d & _ & _ & Hx)].
  - unfold resolve_gpu_memory, getitem in Hr.
    destruct gpu_memory; [discriminate|]. destruct gpu_type as [t|]; [|discriminate].
    destruct (tbl t); discriminate.
  - apply _check_instance_Raise in Hx as [Hx | [k Hx]]; discriminate.
Qed.

Lemma X7_filter_errors_witness :
  (resolve_gpu_memory sample_GPU_MEMORY None (Some "h100") = Raise (KeyError "h100") \/
   exists m d,
     resolve_gpu_memory sample_GPU_MEMORY None (Some "h100") = Ok m /\
     In d [g4dn_xlarge] /\
     _check_instance (Some 1) m "match" d = Raise (KeyError "h100")) /\
  KeyError "h100" <> IndexError.
Proof.
  apply (X7_filter_errors sample_GPU_MEMORY [g4dn_xlarge] (Some 1) None (Some "h100")
           "match").
  vm_compute; reflexivity.
Defined.

Lemma NoDup_List_filter {A} (f : A -> bool) (l : list A) :
  NoDup l -> NoDup (List.filter f l).
Proof.
  induction 1 as [|x l Hx _ IH]; simpl; [constructor|].
  destruct (f x); [|exact IH]. constructor; [|exact IH].
  intros Hin. apply Hx. apply list_elem_of_In in Hin. apply filter_In in Hin as [Hin _].
  now apply list_elem_of_In.
Qed.

Lemma List_filter_length {A} (f : A -> bool) (l : list A) :
  (length (List.filter f l) <= length l)%nat.
Proof. induction l as [|x l IH]; simpl; [lia|]. destruct (f x); simpl; lia. Qed.

(** X8.  The filter returns descriptors of the catalog and nothing else:
    every descriptor of the output is in the catalog, the output is not
    longer than the catalog, and a catalog without repetition gives an
    output without repetition. *)
Theorem X8_output_from_catalog tbl catalog gpu_count gpu_memory gpu_type level out :
  _filter_instance_types tbl catalog gpu_count gpu_memory gpu_type level = Ok out ->
  (forall d, In d out -> In d catalog) /\
  (length out <= length catalog)%nat /\
  (NoDup catalog -> NoDup out).
Proof.
  intros H. apply _filter_instance_types_Ok in H as (m & _ & _ & Hperm).
  split; [|split].
  - intros d Hd. now apply (Permutation_in _ Hperm), filter_In in Hd as [Hd _].
  - rewrite (Permutation_length Hperm). apply List_filter_length.
  - intros Hnd. rewrite Hperm. now apply NoDup_List_filter.
Qed.

Lemma X8_output_from_catalog_witness :
  (forall d, In d [g4dn_xlarge] -> In d [p3dn_2xlarge; m5_24xlarge; g4dn_xlarge]) /\
  (length [g4dn_xlarge] <= length [p3dn_2xlarge; m5_24xlarge; g4dn_xlarge])%nat /\
  (NoDup [p3dn_2xlarge; m5_24xlarge; g4dn_xlarge] -> NoDup [g4dn_xlarge]).
Proof.
  apply (X8_output_from_catalog sample_GPU_MEMORY [p3dn_2xlarge; m5_24xlarge; g4dn_xlarge]
           (Some 1) (Some (Qmake 16 1)) None "match").
  vm_compute; reflexivity.
Defined.

(** ** The reference resolver: what a match says about the reference *)

Lemma startswith_append p s :
  startswith p s = true -> s = p +:+ drop_string (String.length p) s.
Proof.
  revert s; induction p as [|a p IH]; intros s; simpl; [reflexivity|].
  destruct s as [|b s]; [discriminate|]. intros H.
  apply andb_prop in H as [Hab Hp]. apply Ascii.eqb_eq in Hab as ->.
  change (String b s = String b (p +:+ drop_string (String.length p) s)).
  now rewrite <- IH.
Qed.

Lemma take_dots_spec s :
  string_forall dot (take_dots s) = true /\
  exists rest, s = take_dots s +:+ rest /\ at_line_end rest.
Proof.
  induction s as [|c s (IHd & rest & IHs & IHr)]; simpl.
  - split; [reflexivity|]. exists EmptyString. split; [reflexivity | now left].
  - destruct (dot c) eqn:Hc; simpl.
    + rewrite Hc, IHd. split; [reflexivity|]. exists rest. split; [|exact IHr].
      change (String c s = String c (take_dots s +:+ rest)). now rewrite <- IHs.
    + split; [reflexivity|]. exists (String c s). split; [reflexivity|].
      right. exists s. unfold dot in Hc. apply negb_false_iff, Ascii.eqb_eq in Hc.
      now rewrite Hc.
Qed.

Lemma match_subdirectory_Some s d :
  match_subdirectory s = Some d ->
  nonempty d = true /\ string_forall dot d = true /\
  exists rest, s = "#subdirectory=" +:+ d +:+ rest /\ at_line_end rest.
Proof.
  unfold match_subdirectory. destruct (startswith "#subdirectory=" s) eqn:Hs;
    [|discriminate].
  destruct (nonempty (take_dots (drop_string 14 s))) eqn:Hn; [|discriminate].
  intros [= <-]. split; [exact Hn|].
  destruct (take_dots_spec (drop_string 14 s)) as (Hd & rest & Hrest & Hend).
  split; [exact Hd|]. exists rest. split; [|exact Hend].
  apply startswith_append in Hs. rewrite Hs at 1.
  change (String.length "#subdirectory=") with 14%nat. now rewrite Hrest at 1.
Qed.

Lemma match_branch_Some s b d :
  match_branch s = Some (b, d) ->
  nonempty b = true /\ string_forall dot b = true /\
  nonempty d = true /\ string_forall dot d = true /\
  exists rest, s = b +:+ "#subdirectory=" +:+ d +:+ rest /\ at_line_end rest.
Proof.
  revert b; induction s as [|c s IH]; intros b; simpl; [discriminate|].
  destruct (dot c) eqn:Hc; [|discriminate].
  destruct (match_subdirectory s) as [d'|] eqn:Hsub.
  - intros [= <- <-]. apply match_subdirectory_Some in Hsub as (Hn & Hd & rest & -> & He).
    simpl. rewrite Hc. repeat split; try assumption. now exists rest.
  - destruct (match_branch s) as [[b' d']|]; [|discriminate]. intros [= <- <-].
    destruct (IH b' eq_refl) as (_ & Hb & Hn & Hd & rest & Hs & He).
    simpl. rewrite Hc, Hb. repeat split; try assumption.
    exists rest. split; [|exact He].
    change (String c s = String c (b' +:+ "#subdirectory=" +:+ d' +:+ rest)).
    now rewrite <- Hs.
Qed.

Lemma match_at (s : string) (f : string -> option (string * string)) :
  match s with
  | String "@" s'' => f s''
  | _ => None
  end
  = match s with
    | String c s'' => if Ascii.eqb c "@" then f s'' else None
    | EmptyString => None
    end.
Proof.
  destruct s as [|c s]; [reflexivity|].
  destruct c as [[] [] [] [] [] [] [] []]; reflexivity.
Qed.

Lemma match_repo_Some s r b d :
  match_repo s = Some (r, b, d) ->
  nonempty r = true /\ string_forall dot r = true /\
  nonempty b = true /\ string_forall dot b = true /\
  nonempty d = true /\ string_forall dot d = true /\
  exists rest, s = r +:+ "@" +:+ b +:+ "#subdirectory=" +:+ d +:+ rest /\ at_line_end rest.
Proof.
  revert r; induction s as [|c s IH]; intros r; simpl; [discriminate|].
  destruct (dot c) eqn:Hc; [|discriminate]. rewrite match_at.
  destruct (match s with
            | String c0 s'' => if Ascii.eqb c0 "@" then match_branch s'' else None
            | EmptyString => None
            end) as [[b' d']|] eqn:Hat.
  - intros [= <- <- <-]. destruct s as [|c0 s'']; [discriminate|].
    destruct (Ascii.eqb_spec c0 "@") as [->|]; [|discriminate].
    apply match_branch_Some in Hat as (Hnb & Hb & Hnd & Hd & rest & -> & He).
    simpl. rewrite Hc. repeat split; try assumption. now exists rest.
  - destruct (match_repo s) as [[[r' b'] d']|]; [|discriminate]. intros [= <- <- <-].
    destruct (IH r' eq_refl) as (_ & Hr & Hnb & Hb & Hnd & Hd & rest & Hs & He).
    simpl. rewrite Hc, Hr. repeat split; try assumption.
    exists rest. split; [|exact He].
    change (String c s
            = String c (r' +:+ "@" +:+ b' +:+ "#subdirectory=" +:+ d' +:+ rest)).
    now rewrite <- Hs.
Qed.

(** X9.  A reference that resolves has the shape of the pattern: it is
    [git+], the repository, [@], the branch, [#subdirectory=] and the
    subdirectory, followed by nothing or by a line feed and more text;
    the three parts are not empty and hold no line feed. *)
Theorem X9_resolved_reference_shape package repo_url branch subdirectory path_parts :
  _resolve_git_package package = Ok (repo_url, branch, subdirectory, path_parts) ->
  (exists rest,
     package = "git+" +:+ repo_url +:+ "@" +:+ branch +:+ "#subdirectory=" +:+ subdirectory
               +:+ rest /\
     (rest = EmptyString \/ exists r, rest = String "010" r)) /\
  (nonempty repo_url = true /\ string_forall dot repo_url = true) /\
  (nonempty branch = true /\ string_forall dot branch = true) /\
  (nonempty subdirectory = true /\ string_forall dot subdirectory = true).
Proof.
  intros H. apply _resolve_git_package_Ok in H as [H _].
  unfold REG_GITPACKAGE_match in H.
  destruct (startswith "git+" package) eqn:Hs; [|discriminate].
  apply match_repo_Some in H as (Hnr & Hr & Hnb & Hb & Hnd & Hd & rest & Hp & He).
  apply startswith_append in Hs. change (String.length "git+") with 4%nat in Hs.
  split; [|auto]. exists rest. split; [|exact He]. rewrite Hs at 1. now rewrite Hp at 1.
Qed.

Lemma X9_resolved_reference_shape_witness :
  exists rest,
    "git+https://github.com/org/repo@main#subdirectory=sub/dir"
    = "git+" +:+ "https://github.com/org/repo" +:+ "@" +:+ "main" +:+ "#subdirectory="
      +:+ "sub/dir" +:+ rest /\
    (rest = EmptyString \/ exists r, rest = String "010" r).
Proof.
  apply (X9_resolved_reference_shape
           "git+https://github.com/org/repo@main#subdirectory=sub/dir"
           "https://github.com/org/repo" "main" "sub/dir"
           ["github.com"; EmptyString; "org"; "repo"]).
  vm_compute; reflexivity.
Defined.

(** ** The reference resolver: round trip and rejection *)

Lemma take_dots_all d : string_forall dot d = true -> take_dots d = d.
Proof.
  induction d as [|c d IH]; simpl; [reflexivity|]. intros H.
  apply andb_prop in H as [Hc Hd]. now rewrite Hc, IH.
Qed.

Lemma match_subdirectory_render d :
  nonempty d = true -> string_forall dot d = true ->
  match_subdirectory ("#subdirectory=" +:+ d) = Some d.
Proof.
  intros Hn Hd. unfold match_subdirectory.
  change (startswith "#subdirectory=" ("#subdirectory=" +:+ d)) with true.
  change (drop_string 14 ("#subdirectory=" +:+ d)) with d.
  cbv iota. now rewrite (take_dots_all d Hd), Hn.
Qed.

Lemma match_subdirectory_other c s :
  Ascii.eqb c "#" = false -> match_subdirectory (String c s) = None.
Proof.
  intros H. unfold match_subdirectory.
  change (startswith "#subdirectory=" (String c s))
    with (Ascii.eqb "#" c && startswith "subdirectory=" s).
  now rewrite Ascii.eqb_sym, H.
Qed.

Lemma match_branch_render b d :
  nonempty b = true -> string_forall dot b = true -> char_in "#" b = false ->
  nonempty d = true -> string_forall dot d = true ->
  match_branch (b +:+ "#subdirectory=" +:+ d) = Some (b, d).
Proof.
  intros Hnb Hb Hh Hnd Hd. induction b as [|c b IH]; [discriminate|].
  change (dot c && string_forall dot b = true) in Hb.
  change (Ascii.eqb "#" c || char_in "#" b = false) in Hh.
  apply andb_prop in Hb as [Hc Hb]. apply orb_false_elim in Hh as [_ Hh].
  change (match_branch (String c b +:+ "#subdirectory=" +:+ d))
    with (if dot c then
            match match_subdirectory (b +:+ "#subdirectory=" +:+ d) with
            | Some d0 => Some (String c EmptyString, d0)
            | None =>
                match match_branch (b +:+ "#subdirectory=" +:+ d) with
                | Some (b0, d0) => Some (String c b0, d0)
                | None => None
                end
            end
          else None).
  rewrite Hc. destruct b as [|c0 b].
  - change (EmptyString +:+ "#subdirectory=" +:+ d) with ("#subdirectory=" +:+ d).
    now rewrite match_subdirectory_render.
  - pose proof Hh as Hc0.
    change (Ascii.eqb "#" c0 || char_in "#" b = false) in Hc0.
    apply orb_false_elim in Hc0 as [Hc0 _]. rewrite Ascii.eqb_sym in Hc0.
    change (String c0 b +:+ "#subdirectory=" +:+ d)
      with (String c0 (b +:+ "#subdirectory=" +:+ d)) at 1.
    rewrite match_subdirectory_other by exact Hc0.
    now rewrite IH.
Qed.

Lemma match_repo_render r tail b d :
  nonempty r = true -> string_forall dot r = true -> char_in "@" r = false ->
  match_branch tail = Some (b, d) ->
  match_repo (r +:+ "@" +:+ tail) = Some (r, b, d).
Proof.
  intros Hnr Hr Ha Htail. induction r as [|c r IH]; [discriminate|].
  change (dot c && string_forall dot r = true) in Hr.
  change (Ascii.eqb "@" c || char_in "@" r = false) in Ha.
  apply andb_prop in Hr as [Hc Hr]. apply orb_false_elim in Ha as [_ Ha].
  change (match_repo (String c r +:+ "@" +:+ tail))
    with (if dot c then
            match
              match r +:+ "@" +:+ tail with
              | String "@" s'' => match_branch s''
              | _ => None
              end
            with
            | Some (b0, d0) => Some (String c EmptyString, b0, d0)
            | None =>
                match match_repo (r +:+ "@" +:+ tail) with
                | Some (r0, b0, d0) => Some (String c r0, b0, d0)
                | None => None
                end
            end
          else None).
  rewrite Hc, match_at. destruct r as [|c0 r].
  - change (EmptyString +:+ "@" +:+ tail) with (String "@" tail).
    cbv iota. rewrite Ascii.eqb_refl. now rewrite Htail.
  - pose proof Ha as Hc0.
    change (Ascii.eqb "@" c0 || char_in "@" r = false) in Hc0.
    apply orb_false_elim in Hc0 as [Hc0 _]. rewrite Ascii.eqb_sym in Hc0.
    change (String c0 r +:+ "@" +:+ tail) with (String c0 (r +:+ "@" +:+ tail)) at 1.
    cbv iota. rewrite Hc0. now rewrite IH.
Qed.

(** X10.  Round trip.  A repository without [@], a branch without [#] and
    a subdirectory, none of them empty or holding a line feed, written as
    [git+<repo>@<branch>#subdirectory=<subdir>], resolve to themselves;
    the segments are the host and the pieces of the path of the
    repository. *)
Theorem X10_render_then_resolve repo_url branch subdirectory parsed :
  nonempty repo_url = true -> string_forall dot repo_url = true ->
  char_in "@" repo_url = false ->
  nonempty branch = true -> string_forall dot branch = true ->
  char_in "#" branch = false ->
  nonempty subdirectory = true -> string_forall dot subdirectory = true ->
  urlparse repo_url = Ok parsed ->
  _resolve_git_package
    ("git+" +:+ repo_url +:+ "@" +:+ branch +:+ "#subdirectory=" +:+ subdirectory)
  = Ok (repo_url, branch, subdirectory, netloc parsed :: split "/" (path parsed)).
Proof.
  intros Hnr Hr Ha Hnb Hb Hh Hnd Hd Hu.
  unfold _resolve_git_package, REG_GITPACKAGE_match.
  change (startswith "git+"
            ("git+" +:+ repo_url +:+ "@" +:+ branch +:+ "#subdirectory=" +:+ subdirectory))
    with true.
  change (drop_string 4
            ("git+" +:+ repo_url +:+ "@" +:+ branch +:+ "#subdirectory=" +:+ subdirectory))
    with (repo_url +:+ "@" +:+ branch +:+ "#subdirectory=" +:+ subdirectory).
  cbv iota.
  rewrite (match_repo_render repo_url _ branch subdirectory Hnr Hr Ha
             (match_branch_render branch subdirectory Hnb Hb Hh Hnd Hd)).
  now rewrite Hu.
Qed.

Lemma X10_render_then_resolve_witness :
  _resolve_git_package
    ("git+" +:+ "https://github.com/bojiang/bentovllm" +:+ "@" +:+ "main" +:+
     "#subdirectory=" +:+ "llama2-7b-chat")
  = Ok ("https://github.com/bojiang/bentovllm", "main", "llama2-7b-chat",
        "github.com" :: split "/" "/bojiang/bentovllm").
Proof.
  apply (X10_render_then_resolve "https://github.com/bojiang/bentovllm" "main"
           "llama2-7b-chat"
           {| scheme := "https"; netloc := "github.com"; path := "/bojiang/bentovllm";
              params := EmptyString; query := EmptyString; fragment := EmptyString |});
    reflexivity.
Defined.

Lemma char_in_append c a b : char_in c (a +:+ b) = char_in c a || char_in c b.
Proof.
  induction a as [|x a IH]; [reflexivity|].
  change (char_in c (String x a +:+ b)) with (Ascii.eqb c x || char_in c (a +:+ b)).
  rewrite IH. simpl. now rewrite orb_assoc.
Qed.

(** X11.  A reference that does not start with [git+], or holds no [@],
    or holds no [#], is rejected with the [ValueError] that names it, and
    nothing of it is returned. *)
Theorem X11_malformed_reference package :
  startswith "git+" package = false \/ char_in "@" package = false \/
  char_in "#" package = false ->
  _resolve_git_package package = Raise (ValueError ("Invalid git package: " +:+ package)).
Proof.
  intros H. unfold _resolve_git_package.
  destruct (REG_GITPACKAGE_match package) as [[[r b] d]|] eqn:E; [|reflexivity].
  exfalso. unfold REG_GITPACKAGE_match in E.
  destruct (startswith "git+" package) eqn:Hs; [|discriminate].
  apply match_repo_Some in E as (_ & _ & _ & _ & _ & _ & rest & Hp & _).
  apply startswith_append in Hs. change (String.length "git+") with 4%nat in Hs.
  rewrite Hp in Hs.
  destruct H as [H | [H | H]]; [discriminate| |]; rewrite Hs in H;
    rewrite !char_in_append in H; simpl in H;
    repeat (apply orb_false_elim in H as [? H]); discriminate.
Qed.

Lemma X11_malformed_reference_witness :
  _resolve_git_package "git+https://github.com/org/repo#subdirectory=sub"
  = Raise (ValueError ("Invalid git package: "
                       +:+ "git+https://github.com/org/repo#subdirectory=sub")).
Proof.
  apply X11_malformed_reference. right; left. reflexivity.
Defined.

(** ** The storage path segments *)

Lemma splitnetloc_no_slash s : char_in "/" (fst (splitnetloc s)) = false.
Proof.
  induction s as [|c s IH]; [reflexivity|].
  change (splitnetloc (String c s))
    with (if char_in c "/?#" then (EmptyString, String c s)
          else let '(n, r) := splitnetloc s in (String c n, r)).
  destruct (char_in c "/?#") eqn:Hc; [reflexivity|].
  destruct (splitnetloc s) as [n r]. simpl in IH |- *.
  change (char_in c "/?#") with (Ascii.eqb c "/" || char_in c "?#") in Hc.
  apply orb_false_elim in Hc as [Hc _].
  change (Ascii.eqb "/" c || char_in "/" n = false).
  now rewrite Ascii.eqb_sym, Hc, IH.
Qed.

Lemma urlparse_netloc_no_slash url parsed :
  urlparse url = Ok parsed -> char_in "/" (netloc parsed) = false.
Proof.
  unfold urlparse.
  destruct (split_scheme _) as [sch u].
  destruct (startswith "//" u).
  - pose proof (splitnetloc_no_slash (drop_string 2 u)) as Hn.
    destruct (splitnetloc (drop_string 2 u)) as [n r]. simpl in Hn.
    destruct (xorb _ _); [discriminate|]. destruct (char_in "[" n); [discriminate|].
    simpl. destruct (cut "#" r) as [[l1 r1]|]; destruct (cut "?" _) as [[l2 r2]|];
      destruct (_ && _); try destruct (splitparams _);
      intros [= <-]; exact Hn.
  - simpl. destruct (cut "#" u) as [[l1 r1]|]; destruct (cut "?" _) as [[l2 r2]|];
      destruct (_ && _); try destruct (splitparams _);
      intros [= <-]; reflexivity.
Qed.

Lemma split_no_sep sep s : Forall (fun x => char_in sep x = false) (split sep s).
Proof.
  induction s as [|c s IH]; simpl; [repeat constructor|].
  destruct (Ascii.eqb_spec c sep) as [->|Hc].
  - constructor; [reflexivity | exact IH].
  - destruct (split sep s) as [|x xs]; [repeat constructor|].
    + change (Ascii.eqb sep c || false = false).
      apply Ascii.eqb_neq in Hc. now rewrite Ascii.eqb_sym, Hc.
    + inversion IH as [|? ? Hx Hxs]; subst. constructor; [|exact Hxs].
      change (Ascii.eqb sep c || char_in sep x = false).
      apply Ascii.eqb_neq in Hc. now rewrite Ascii.eqb_sym, Hc, Hx.
Qed.

(** X12.  The storage path segments of a resolved reference are a host
    followed by at least one piece of the path, and no segment holds a
    slash: each names at most one directory level under the base. *)
Theorem X12_segments_without_slash package repo_url branch subdirectory path_parts :
  _resolve_git_package package = Ok (repo_url, branch, subdirectory, path_parts) ->
  Forall (fun segment => char_in "/" segment = false) path_parts /\
  (2 <= length path_parts)%nat.
Proof.
  intros H. apply _resolve_git_package_Ok in H as (_ & parsed & Hp & ->). split.
  - constructor; [now apply (urlparse_netloc_no_slash repo_url) | apply split_no_sep].
  - pose proof (split_nonempty "/" (path parsed)).
    destruct (split "/" (path parsed)); [contradiction | simpl; lia].
Qed.

Lemma X12_segments_without_slash_witness :
  Forall (fun segment => char_in "/" segment = false)
    ["github.com"; EmptyString; "org"; "repo"] /\
  (2 <= length ["github.com"; EmptyString; "org"; "repo"])%nat.
Proof.
  apply (X12_segments_without_slash
           "git+https://github.com/org/repo@main#subdirectory=sub/dir"
           "https://github.com/org/repo" "main" "sub/dir").
  vm_compute; reflexivity.
Defined.

(** ** The identity printed by the build: the well-formed case *)

Lemma rstrip_with_all drop s : string_forall drop s = true -> rstrip_with drop s = EmptyString.
Proof.
  induction s as [|c s IH]; [reflexivity|].
  change (drop c && string_forall drop s = true -> rstrip_with drop (String c s) = EmptyString).
  intros H. apply andb_prop in H as [Hc Hs]. simpl. now rewrite (IH Hs), Hc.
Qed.

Lemma split_single sep s : char_in sep s = false -> split sep s = [s].
Proof.
  induction s as [|c s IH]; [reflexivity|].
  change (Ascii.eqb sep c || char_in sep s = false -> split sep (String c s) = [String c s]).
  intros H. apply orb_false_elim in H as [Hc Hs]. simpl.
  rewrite Ascii.eqb_sym, Hc. now rewrite (IH Hs).
Qed.

Lemma split_append sep a b :
  char_in sep a = false -> split sep (a +:+ String sep b) = a :: split sep b.
Proof.
  induction a as [|c a IH].
  - intros _. change (split sep (String sep b) = EmptyString :: split sep b).
    simpl. now rewrite Ascii.eqb_refl.
  - change (Ascii.eqb sep c || char_in sep a = false ->
            split sep (String c (a +:+ String sep b)) = String c a :: split sep b).
    intros H. apply orb_false_elim in H as [Hc Ha]. simpl.
    rewrite Ascii.eqb_sym, Hc. now rewrite (IH Ha).
Qed.

(** X13.  Round trip of a well-formed identity.  When the name starts,
    and the version ends, with a character that is neither one of
    [_ t a g :] nor (for the version) a blank, and neither holds a colon,
    the output [__tag__:<name>:<version>] followed by blanks is read back
    as the name and the version. *)
Theorem X13_identity_round_trip first name last version blanks :
  char_in first "__tag__:" = false ->
  char_in last "__tag__:" = false -> isspace last = false ->
  char_in ":" (String first name) = false ->
  char_in ":" (version +:+ String last EmptyString) = false ->
  string_forall isspace blanks = true ->
  parse_build_output
    ("__tag__:" +:+ String first name +:+ ":" +:+ (version +:+ String last EmptyString)
     +:+ blanks)
  = [String first name; version +:+ String last EmptyString].
Proof.
  intros Hf Hl Hsp Hcn Hcv Hb.
  set (body := String first name +:+ ":" +:+ version).
  assert (Hout : "__tag__:" +:+ String first name +:+ ":" +:+
                 (version +:+ String last EmptyString) +:+ blanks
                 = ("__tag__:" +:+ body) +:+ String last blanks).
  { unfold body. rewrite !append_assoc. reflexivity. }
  assert (Hbody : body +:+ String last EmptyString
                  = String first name +:+ ":" +:+ (version +:+ String last EmptyString)).
  { unfold body. rewrite !append_assoc. reflexivity. }
  unfold parse_build_output. rewrite Hout.
  assert (Hstrip : strip (("__tag__:" +:+ body) +:+ String last blanks)
                   = "__tag__:" +:+ body +:+ String last EmptyString).
  { unfold strip, strip_with.
    change (lstrip_with isspace (("__tag__:" +:+ body) +:+ String last blanks))
      with (("__tag__:" +:+ body) +:+ String last blanks).
    rewrite rstrip_with_append_keep by exact Hsp.
    rewrite (rstrip_with_all _ _ Hb). now rewrite append_assoc. }
  rewrite Hstrip.
  change (startswith "__tag__:" ("__tag__:" +:+ body +:+ String last EmptyString))
    with true. cbv iota.
  unfold strip_chars, strip_with.
  set (drop := fun c => char_in c "__tag__:").
  assert (Hl' : lstrip_with drop ("__tag__:" +:+ body +:+ String last EmptyString)
                = body +:+ String last EmptyString).
  { change (lstrip_with drop ("__tag__:" +:+ body +:+ String last EmptyString))
      with (if drop first
            then lstrip_with drop ((name +:+ ":" +:+ version) +:+ String last EmptyString)
            else body +:+ String last EmptyString).
    unfold drop at 1. now rewrite Hf. }
  rewrite Hl', (rstrip_with_last_keep drop last body Hl), Hbody.
  change (String first name +:+ ":" +:+ (version +:+ String last EmptyString))
    with (String first name +:+ String ":" (version +:+ String last EmptyString)).
  rewrite split_append by exact Hcn. now rewrite split_single.
Qed.

Lemma X13_identity_round_trip_witness :
  parse_build_output
    ("__tag__:" +:+ String "l" "lama2" +:+ ":" +:+ ("7b-cha" +:+ String "7" EmptyString)
     +:+ String "010" EmptyString)
  = [String "l" "lama2"; "7b-cha" +:+ String "7" EmptyString].
Proof.
  apply (X13_identity_round_trip "l" "lama2" "7" "7b-cha" (String "010" EmptyString));
    reflexivity.
Defined.

Lemma char_in_lstrip_with c drop s :
  char_in c s = false -> char_in c (lstrip_with drop s) = false.
Proof.
  induction s as [|a s IH]; [reflexivity|].
  change (Ascii.eqb c a || char_in c s = false ->
          char_in c (if drop a then lstrip_with drop s else String a s) = false).
  intros H. destruct (drop a); [|exact H].
  apply orb_false_elim in H as [_ H]. now apply IH.
Qed.

Lemma char_in_rstrip_with c drop s :
  char_in c s = false -> char_in c (rstrip_with drop s) = false.
Proof.
  induction s as [|a s IH]; [reflexivity|].
  change (Ascii.eqb c a || char_in c s = false ->
          char_in c (rstrip_with drop (String a s)) = false).
  intros H. apply orb_false_elim in H as [Ha Hs]. specialize (IH Hs). simpl.
  destruct (rstrip_with drop s) as [|b r].
  - destruct (drop a); [reflexivity|].
    change (Ascii.eqb c a || false = false). now rewrite Ha.
  - change (Ascii.eqb c a || char_in c (String b r) = false). now rewrite Ha, IH.
Qed.

Lemma startswith_char_in p c s :
  char_in c p = true -> startswith p s = true -> char_in c s = true.
Proof.
  intros Hp Hs. apply startswith_append in Hs. rewrite Hs, char_in_append.
  now rewrite Hp.
Qed.

Lemma parse_build_output_no_colon out :
  char_in ":" out = false -> parse_build_output out = [strip out].
Proof.
  intros H. unfold parse_build_output.
  assert (Hs : char_in ":" (strip out) = false).
  { unfold strip, strip_with. now apply char_in_rstrip_with, char_in_lstrip_with. }
  destruct (startswith "__tag__:" (strip out)) eqn:E.
  - apply (startswith_char_in _ ":") in E; [congruence | reflexivity].
  - now apply split_single.
Qed.

(** ** The artifact pipeline: when it queries, clones and builds *)

Section PipelineSteps.
Context {Ext : Type} `{!Collaborators Ext}.

Lemma _get_bento_info_trace tag (w : World Ext) :
  trace (snd (_get_bento_info tag w)) = trace w ++ [Exec ["bentoml"; "get"; tag] None].
Proof.
  unfold _get_bento_info, bind, lift.
  rewrite <- (check_output_trace ["bentoml"; "get"; tag] None w).
  now destruct (check_output _ None w) as [[out|e] w1].
Qed.

(** X14.  The second query is made only after a build that ends with the
    status 0 and prints one name and one version.  When the build fails
    its error is the error of the step; when it prints a text that does
    not split into two pieces at the colon (a text without a colon, for
    one) the step fails with a [ValueError]; in both cases the build is
    the only command of the step. *)
Theorem X14_build_without_pair repo_dir subdirectory model tag (w : World Ext) :
  let cmd := ["bentoml"; "build"; "."; "--version"; tag; "--output"; "tag"] in
  let dir := path_div repo_dir subdirectory in
  (forall e w1,
     check_output cmd (Some dir) w = (Raise e, w1) ->
     build_and_query repo_dir subdirectory model tag w = (Raise e, w1) /\
     trace w1 = trace w ++ [Exec cmd (Some dir)]) /\
  (forall out w1,
     check_output cmd (Some dir) w = (Ok out, w1) ->
     length (parse_build_output out) <> 2%nat ->
     build_and_query repo_dir subdirectory model tag w
     = (Raise (ValueError "unpack"), w1) /\
     trace w1 = trace w ++ [Exec cmd (Some dir)]) /\
  (forall out w1,
     check_output cmd (Some dir) w = (Ok out, w1) ->
     char_in ":" out = false ->
     build_and_query repo_dir subdirectory model tag w
     = (Raise (ValueError "unpack"), w1)).
Proof.
  intros cmd dir.
  assert (Hlen : forall out w1,
            check_output cmd (Some dir) w = (Ok out, w1) ->
            length (parse_build_output out) <> 2%nat ->
            build_and_query repo_dir subdirectory model tag w
            = (Raise (ValueError "unpack"), w1)).
  { intros out w1 H Hn. unfold build_and_query, _build_bento, bind.
    fold dir. fold cmd. rewrite H. unfold ret.
    destruct (parse_build_output out) as [|a [|b [|c l]]]; try reflexivity.
    now destruct Hn. }
  split; [|split].
  - intros e w1 H. split.
    + unfold build_and_query, _build_bento, bind. fold dir. fold cmd. now rewrite H.
    + pose proof (check_output_trace cmd (Some dir) w) as Ht. now rewrite H in Ht.
  - intros out w1 H Hn. split; [exact (Hlen out w1 H Hn)|].
    pose proof (check_output_trace cmd (Some dir) w) as Ht. now rewrite H in Ht.
  - intros out w1 H Hc. apply (Hlen out w1 H).
    rewrite (parse_build_output_no_colon out Hc). discriminate.
Qed.

(** X15.  Unless the first query ends with a status other than 0, the
    pipeline is that query and nothing else: its result, also an error
    such as a missing executable or an unreadable document, is the result
    of the pipeline, the query is the only command, and a forced rebuild
    is not looked at. *)
Theorem X15_query_only repo branch subdirectory path_parts model tag force_rebuild
    (w : World Ext) :
  (forall cmd returncode,
     fst (_get_bento_info (model +:+ ":" +:+ tag) w)
     <> Raise (CalledProcessError cmd returncode)) ->
  get_or_build repo branch subdirectory path_parts model tag force_rebuild w
  = _get_bento_info (model +:+ ":" +:+ tag) w /\
  trace (snd (get_or_build repo branch subdirectory path_parts model tag
                force_rebuild w))
  = trace w ++ [Exec ["bentoml"; "get"; model +:+ ":" +:+ tag] None].
Proof.
  intros Hne.
  assert (H : get_or_build repo branch subdirectory path_parts model tag force_rebuild w
              = _get_bento_info (model +:+ ":" +:+ tag) w).
  { unfold get_or_build, try_except.
    destruct (_get_bento_info (model +:+ ":" +:+ tag) w) as [[info|e] w1];
      [reflexivity|].
    destruct e; try reflexivity. now destruct (Hne cmd returncode). }
  split; [exact H|]. rewrite H. apply _get_bento_info_trace.
Qed.

End PipelineSteps.


(** A build that prints a name without a version. *)
Lemma X14_build_without_pair_witness :
  exists w1,
    check_output (Collaborators0 := sim_custom (sim_spawn_printing "llama2") sim_bento_info [])
      ["bentoml"; "build"; "."; "--version"; "v"; "--output"; "tag"]
      (Some (path_div ["repos"] "sub")) (sim_world true) = (Ok "llama2", w1) /\
    char_in ":" "llama2" = false /\
    build_and_query (Collaborators0 := sim_custom (sim_spawn_printing "llama2") sim_bento_info [])
      ["repos"] "sub" "m" "v" (sim_world true) = (Raise (ValueError "unpack"), w1).
Proof.
  eexists.
  assert (H : check_output
                (Collaborators0 := sim_custom (sim_spawn_printing "llama2") sim_bento_info [])
                ["bentoml"; "build"; "."; "--version"; "v"; "--output"; "tag"]
                (Some (path_div ["repos"] "sub")) (sim_world true)
              = (Ok "llama2",
                 snd (check_output
                        (Collaborators0 := sim_custom (sim_spawn_printing "llama2")
                                             sim_bento_info [])
                        ["bentoml"; "build"; "."; "--version"; "v"; "--output"; "tag"]
                        (Some (path_div ["repos"] "sub")) (sim_world true))))
    by (vm_compute; reflexivity).
  split; [exact H|]. split; [reflexivity|].
  exact (proj2 (proj2 (X14_build_without_pair
                         (Collaborators0 := sim_custom (sim_spawn_printing "llama2")
                                              sim_bento_info [])
                         ["repos"] "sub" "m" "v" (sim_world true)))
           "llama2" _ H eq_refl).
Defined.

(** The artifact is in the store: the first query finds it. *)
Lemma X15_query_only_witness :
  let w := {| fs := ∅;
              ext := {| store := ["m2:v2"]; remote_ok := false; groups := [] |};
              trace := [] |} in
  get_or_build (Collaborators0 := sim_collaborators)
    "https://github.com/org/repo" "main" "sub/dir"
    ["github.com"; EmptyString; "org"; "repo"] "m2" "v2" true w
  = _get_bento_info "m2:v2" w /\
  trace (snd (get_or_build (Collaborators0 := sim_collaborators)
                "https://github.com/org/repo" "main" "sub/dir"
                ["github.com"; EmptyString; "org"; "repo"] "m2" "v2" true w))
  = trace w ++ [Exec ["bentoml"; "get"; "m2:v2"] None].
Proof.
  intros w. apply (X15_query_only (Ext := Sim)). intros cmd returncode.
  vm_compute. discriminate.
Defined.

(** ** The commands of the build path *)

Section BuildPathCommands.
Context {Ext : Type} `{!Collaborators Ext}.

Lemma build_and_query_commands repo_dir subdirectory model tag (w : World Ext) :
  exists identity started,
    trace (snd (build_and_query repo_dir subdirectory model tag w)) = trace w ++ started /\
    started `prefix_of`
      [ Exec ["bentoml"; "build"; "."; "--version"; tag; "--output"; "tag"]
          (Some (path_div repo_dir subdirectory));
        Exec ["bentoml"; "get"; identity] None ].
Proof.
  unfold build_and_query, _build_bento, bind, ret.
  set (cmd := ["bentoml"; "build"; "."; "--version"; tag; "--output"; "tag"]).
  set (dir := path_div repo_dir subdirectory).
  pose proof (check_output_trace cmd (Some dir) w) as Ht.
  destruct (check_output cmd (Some dir) w) as [[out|e] w1]; simpl in Ht.
  - destruct (parse_build_output out) as [|bento [|version [|x l]]];
      try (exists EmptyString; eexists; split; [exact Ht | now eexists]).
    exists (bento +:+ ":" +:+ version). eexists.
    split; [rewrite _get_bento_info_trace, Ht, <- app_assoc; reflexivity|].
    now exists [].
  - exists EmptyString. eexists. split; [exact Ht | now eexists].
Qed.

Lemma ensure_repo_commands repo branch repo_dir force_rebuild (w : World Ext) :
  exists started,
    trace (snd (ensure_repo repo branch repo_dir force_rebuild w)) = trace w ++ started /\
    (started = [] \/ started = [Exec (git_clone branch repo repo_dir) None]).
Proof.
  destruct (clear_repo_spec repo_dir force_rebuild w) as [Hclear Htrace].
  set (w1 := snd (clear_repo repo_dir force_rebuild w)) in *.
  unfold ensure_repo, bind. rewrite Hclear. unfold path_exists.
  destruct (bool_decide (repo_dir ∈ fs w1)).
  - change (negb true) with false. cbv iota. exists []. split; [|now left].
    simpl. now rewrite Htrace, app_nil_r.
  - change (negb false) with true. cbv iota.
    unfold clone_repo, bind, try_except.
    pose proof (mkdir_parents_trace (parent repo_dir) w1) as Hm.
    destruct (mkdir_parents (parent repo_dir) w1) as [[[]|e] w2]; simpl in Hm.
    + pose proof (check_call_trace (git_clone branch repo repo_dir) w2) as Ht.
      exists [Exec (git_clone branch repo repo_dir) None]. split; [|now right].
      destruct (check_call (git_clone branch repo repo_dir) w2) as [[[]|e] w3];
        simpl in Ht |- *; rewrite Ht, Hm, Htrace; reflexivity.
    + exists []. split; [|now left]. simpl. now rewrite Hm, Htrace, app_nil_r.
Qed.

(** X17.  The build path starts at most three commands and repeats none:
    the clone (when the storage directory is not there), then the build,
    then the query of what was built.  What it started is always a
    beginning of that sequence. *)
Theorem X17_build_path_commands repo branch subdirectory path_parts model tag
    force_rebuild (w : World Ext) :
  let repo_dir := joinpath REPO_DIR path_parts in
  let clone := Exec (git_clone branch repo repo_dir) None in
  let build := Exec ["bentoml"; "build"; "."; "--version"; tag; "--output"; "tag"]
                 (Some (path_div repo_dir subdirectory)) in
  exists identity started,
    trace (snd (build_path repo branch subdirectory path_parts model tag force_rebuild w))
    = trace w ++ started /\
    (started `prefix_of` [clone; build; Exec ["bentoml"; "get"; identity] None] \/
     started `prefix_of` [build; Exec ["bentoml"; "get"; identity] None]).
Proof.
  intros repo_dir clone build.
  destruct (ensure_repo_commands repo branch repo_dir force_rebuild w)
    as (cloned & Ht & Hcloned).
  unfold build_path, bind. fold repo_dir.
  destruct (ensure_repo repo branch repo_dir force_rebuild w) as [[[]|e] w1];
    simpl in Ht.
  - destruct (build_and_query_commands repo_dir subdirectory model tag w1)
      as (identity & started & Ht' & [k Hk]).
    exists identity, (cloned ++ started). split.
    + now rewrite Ht', Ht, app_assoc.
    + destruct Hcloned as [-> | ->].
      * right. now exists k.
      * left. exists k. simpl. now rewrite <- Hk.
  - exists EmptyString, cloned. split; [exact Ht|].
    destruct Hcloned as [-> | ->]; left; now eexists.
Qed.
End BuildPathCommands.

(** ** The command [run]: the table of the models and the service *)

Lemma dict_get_missing {V} (key : string) (d : list (string * V)) :
  Forall (fun entry => fst entry <> key) d -> dict_get key d = Raise (KeyError key).
Proof.
  induction 1 as [|[k v] d Hk _ IH]; simpl; [reflexivity|].
  apply String.eqb_neq in Hk. simpl in Hk. now rewrite Hk.
Qed.

Section RunGates.
Context {Ext : Type} `{!Collaborators Ext}.

(** X18.  A model that is not in the table, or a tag (other than
    "latest") that the model does not have, ends [run] with a [KeyError]
    before anything is done: no command is started, no prompt is shown and
    the world is as it was. *)
Theorem X18_unknown_model_or_tag infos model tag force_rebuild (w : World Ext) :
  (Forall (fun entry => fst entry <> model) infos ->
   run_with infos model tag force_rebuild w = (Raise (KeyError model), w)) /\
  (forall tags,
     dict_get model infos = Ok tags -> tag <> "latest" ->
     Forall (fun entry => fst entry <> tag) tags ->
     run_with infos model tag force_rebuild w = (Raise (KeyError tag), w)).
Proof.
  split.
  - intros Hm. apply dict_get_missing in Hm. unfold run_with, bind, lift, ret.
    rewrite Hm. simpl. now destruct (String.eqb tag "latest").
  - intros tags Hm Hl Ht. apply dict_get_missing in Ht.
    apply String.eqb_neq in Hl. unfold run_with, bind, lift, ret.
    rewrite Hl, Hm. simpl. now rewrite Ht.
Qed.

(** X19.  The tag "latest" stands for the first tag of the model in the
    table: [run] with "latest" is [run] with that tag. *)
Theorem X19_latest_is_first_tag infos model force_rebuild (w : World Ext)
    first package others :
  dict_get model infos = Ok ((first, package) :: others) ->
  run_with infos model "latest" force_rebuild w
  = run_with infos model first force_rebuild w.
Proof.
  intros Hm. destruct (String.eqb_spec first "latest") as [->|Hne]; [reflexivity|].
  apply String.eqb_neq in Hne. unfold run_with, bind at 1 7, lift at 1, ret.
  rewrite Hne, Hm. reflexivity.
Qed.

(** X20.  An artifact with no service, or with more than one, ends [run]
    with a [ValueError] right after the artifact is resolved: no prompt is
    shown and no command of the cloud is started. *)
Theorem X20_one_service_only infos model tag force_rebuild (w w1 : World Ext)
    tags package repo branch subdirectory path_parts bento_info :
  tag <> "latest" ->
  dict_get model infos = Ok tags ->
  dict_get tag tags = Ok package ->
  _resolve_git_package package = Ok (repo, branch, subdirectory, path_parts) ->
  get_or_build repo branch subdirectory path_parts model tag force_rebuild w
  = (Ok bento_info, w1) ->
  length (services bento_info) <> 1%nat ->
  run_with infos model tag force_rebuild w
  = (Raise (ValueError "Only support one service currently"), w1).
Proof.
  intros Hl Hm Ht Hr Hg Hs. apply String.eqb_neq in Hl. apply Nat.eqb_neq in Hs.
  unfold run_with, bind, lift, ret. rewrite Hl, Hm. simpl. rewrite Ht, Hr, Hg.
  now rewrite Hs.
Qed.

Lemma _get_it_card_cpu_only d :
  GpuInfo d = None -> exists key, _get_it_card d = Raise (KeyError key).
Proof.
  intros H. unfold _get_it_card. destruct (DefaultVCpus d); simpl; [|eauto].
  destruct (SizeInMiB d); simpl; [|eauto]. rewrite H. simpl. eauto.
Qed.

(** X21.  A service that asks for no GPU cannot be offered an instance
    type.  When the filter returns a descriptor for such a service, the
    descriptor has no "GpuInfo", the label of the prompt cannot be made,
    and the provisioning ends with a [KeyError] before the prompt: the
    listing of the instance types is its only command. *)
Theorem X21_no_gpu_no_label repo subdirectory bento_info (w w1 : World Ext)
    out catalog service others res gpu_count d kept :
  check_output ["aws"; "ec2"; "describe-instance-types"] None w = (Ok out, w1) ->
  load_instance_types out = Ok catalog ->
  services bento_info = service :: others ->
  resources service = Some res ->
  gpu res = Some gpu_count ->
  gpu_count = Some 0 \/ gpu_count = None ->
  _filter_instance_types GPU_MEMORY catalog gpu_count (gpu_memory res) (gpu_type res)
    "match" = Ok (d :: kept) ->
  exists key,
    provision_aws repo subdirectory bento_info w = (Raise (KeyError key), w1) /\
    trace w1 = trace w ++ [Exec ["aws"; "ec2"; "describe-instance-types"] None].
Proof.
  intros Hd Hl Hs Hr Hg Hc Hf.
  assert (Hcpu : GpuInfo d = None).
  { pose proof Hf as Hf'.
    apply _filter_instance_types_Ok in Hf' as (m & _ & _ & Hperm).
    assert (Hin : In d (d :: kept)) by (simpl; auto).
    apply (Permutation_in _ Hperm), filter_In in Hin as [_ Hacc].
    unfold accepts in Hacc. rewrite _check_instance_no_gpu in Hacc by exact Hc.
    unfold cpu_only in Hacc. now destruct (GpuInfo d). }
  destruct (_get_it_card_cpu_only d Hcpu) as [key Hkey]. exists key. split.
  - unfold provision_aws. unfold bind at 1. rewrite Hd.
    unfold bind at 1, lift at 1. rewrite Hl.
    unfold bind at 1, lift at 1. rewrite Hs. simpl head_r. cbv iota. rewrite Hr, Hg.
    unfold bind at 1, lift at 1. rewrite Hf.
    unfold bind at 1, lift at 1. simpl map_r. rewrite Hkey. reflexivity.
  - pose proof (check_output_trace ["aws"; "ec2"; "describe-instance-types"] None w) as Ht.
    now rewrite Hd in Ht.
Qed.
End RunGates.

Lemma X18_unknown_model_or_tag_witness :
  run (Ext := Sim) "mistral" "7b" false (sim_world true)
  = (Raise (KeyError "mistral"), sim_world true) /\
  run (Ext := Sim) "llama2" "13b" true (sim_world true)
  = (Raise (KeyError "13b"), sim_world true).
Proof.
  split.
  - apply (proj1 (X18_unknown_model_or_tag MODEL_INFOS "mistral" "7b" false
                    (sim_world true))).
    repeat constructor; discriminate.
  - refine (proj2 (X18_unknown_model_or_tag MODEL_INFOS "llama2" "13b" true
                     (sim_world true)) _ eq_refl _ _).
    + discriminate.
    + repeat constructor; discriminate.
Defined.

Lemma X19_latest_is_first_tag_witness :
  run (Ext := Sim) "llama2" "latest" false (sim_world true)
  = run (Ext := Sim) "llama2" "7b" false (sim_world true).
Proof.
  unfold run. eapply (X19_latest_is_first_tag (Ext := Sim)). reflexivity.
Defined.

(** An artifact without a service. *)
Lemma X20_one_service_only_witness :
  exists w1,
    get_or_build (Collaborators0 := sim_custom sim_spawn {| services := [] |} [])
      "https://github.com/org/repo" "main" "sub/dir"
      ["github.com"; EmptyString; "org"; "repo"] "m" "v" false (sim_world true)
    = (Ok {| services := [] |}, w1) /\
    run_with (Collaborators0 := sim_custom sim_spawn {| services := [] |} [])
      sim_infos "m" "v" false (sim_world true)
    = (Raise (ValueError "Only support one service currently"), w1).
Proof.
  eexists.
  assert (H : get_or_build (Collaborators0 := sim_custom sim_spawn {| services := [] |} [])
                "https://github.com/org/repo" "main" "sub/dir"
                ["github.com"; EmptyString; "org"; "repo"] "m" "v" false (sim_world true)
              = (Ok {| services := [] |},
                 snd (get_or_build
                        (Collaborators0 := sim_custom sim_spawn {| services := [] |} [])
                        "https://github.com/org/repo" "main" "sub/dir"
                        ["github.com"; EmptyString; "org"; "repo"] "m" "v" false
                        (sim_world true))))
    by (vm_compute; reflexivity).
  split; [exact H|].
  refine (X20_one_service_only
            (Collaborators0 := sim_custom sim_spawn {| services := [] |} [])
            sim_infos "m" "v" false (sim_world true) _
            [("v", "git+https://github.com/org/repo@main#subdirectory=sub/dir")]
            "git+https://github.com/org/repo@main#subdirectory=sub/dir"
            "https://github.com/org/repo" "main" "sub/dir"
            ["github.com"; EmptyString; "org"; "repo"] {| services := [] |}
            _ eq_refl eq_refl _ H _).
  - discriminate.
  - vm_compute; reflexivity.
  - discriminate.
Defined.

(** A service without GPU and a catalog with an instance type without
    GPU. *)
Lemma X21_no_gpu_no_label_witness :
  exists key w1,
    provision_aws (Collaborators0 := sim_custom sim_spawn sim_bento_info
                                       [g4dn_xlarge; m5_24xlarge])
      "https://github.com/org/repo" "sub/dir" sim_bento_info (sim_world true)
    = (Raise (KeyError key), w1) /\
    trace w1 = trace (sim_world true)
               ++ [Exec ["aws"; "ec2"; "describe-instance-types"] None].
Proof.
  set (C := sim_custom sim_spawn sim_bento_info [g4dn_xlarge; m5_24xlarge]).
  assert (Hd : check_output (Collaborators0 := C)
                 ["aws"; "ec2"; "describe-instance-types"] None (sim_world true)
               = (Ok "InstanceTypes",
                  snd (check_output (Collaborators0 := C)
                         ["aws"; "ec2"; "describe-instance-types"] None
                         (sim_world true))))
    by (vm_compute; reflexivity).
  assert (Hf : _filter_instance_types sample_GPU_MEMORY [g4dn_xlarge; m5_24xlarge]
                 (Some 0) (Some (Qmake 16 1)) None "match" = Ok [m5_24xlarge])
    by (vm_compute; reflexivity).
  destruct (X21_no_gpu_no_label (Collaborators0 := C)
              "https://github.com/org/repo" "sub/dir" sim_bento_info (sim_world true) _
              "InstanceTypes" [g4dn_xlarge; m5_24xlarge] _ [] _ (Some 0) m5_24xlarge []
              Hd eq_refl eq_refl eq_refl eq_refl (or_introl eq_refl) Hf)
    as (key & Hp & Ht).
  exists key. eexists. split; [exact Hp | exact Ht].
Defined.

(** ** The security group: errors and the commands that are started *)

Section SecurityGroup.
Context {Ext : Type} `{!Collaborators Ext}.

Lemma check_output_exit cmd cwd (w : World Ext) rc out files' ext' :
  spawn cmd cwd (fs w) (ext w) = (Exited rc out, (files', ext')) ->
  check_output cmd cwd w
  = (if rc =? 0 then Ok out else Raise (CalledProcessError cmd rc),
     {| fs := files'; ext := ext'; trace := trace w ++ [Exec cmd cwd] |}).
Proof. intros H. unfold check_output. rewrite H. now destruct (rc =? 0). Qed.

(** X22.  A failed command of the cloud never leaves the function as a
    [CalledProcessError]: it is wrapped in a [RuntimeError].  In
    particular, when the lookup itself ends with a status other than 0 the
    function ends with the [RuntimeError] of that failure and the lookup
    is the only command; nothing is created. *)
Theorem X22_process_errors_wrapped group_name (w : World Ext) :
  (forall cmd returncode,
     fst (_ensure_aws_security_group group_name w)
     <> Raise (CalledProcessError cmd returncode)) /\
  (forall rc out files' ext',
     spawn (describe_security_groups group_name) None (fs w) (ext w)
     = (Exited rc out, (files', ext')) ->
     rc <> 0 ->
     _ensure_aws_security_group group_name w
     = (Raise (RuntimeError "Failed to create security group: "
                 (CalledProcessError (describe_security_groups group_name) rc)),
        {| fs := files'; ext := ext';
           trace := trace w ++ [Exec (describe_security_groups group_name) None] |})).
Proof.
  split.
  - intros cmd rc. unfold _ensure_aws_security_group, try_except.
    match goal with |- context [?body w] =>
      match type of body with M Ext string => destruct (body w) as [[id|e] w1] end
    end; [discriminate|].
    destruct e; discriminate.
  - intros rc out files' ext' Hs Hrc.
    unfold _ensure_aws_security_group, try_except, bind at 1.
    rewrite (check_output_exit _ _ _ _ _ _ _ Hs).
    apply Z.eqb_neq in Hrc. rewrite Hrc. reflexivity.
Qed.

(** X23.  Nothing is undone when a rule cannot be authorized.  When the
    group has been created and the rule of port 80 is in place, a failure
    of the rule of port 443 ends the function with a [RuntimeError]; the
    rule of port 22 is not tried, and no command removes the group. *)
Theorem X23_no_rollback group_name (w w1 w2 w3 w4 : World Ext) out created id cmd rc :
  check_output (describe_security_groups group_name) None w = (Ok out, w1) ->
  load_security_groups out = Ok [] ->
  check_output (create_security_group group_name) None w1 = (Ok created, w2) ->
  load_group_id created = Ok id ->
  check_call (authorize_ingress id "80") w2 = (Ok tt, w3) ->
  check_call (authorize_ingress id "443") w3 = (Raise (CalledProcessError cmd rc), w4) ->
  _ensure_aws_security_group group_name w
  = (Raise (RuntimeError "Failed to create security group: "
              (CalledProcessError cmd rc)), w4) /\
  trace w4 = trace w ++
    [ Exec (describe_security_groups group_name) None;
      Exec (create_security_group group_name) None;
      Exec (authorize_ingress id "80") None;
      Exec (authorize_ingress id "443") None ].
Proof.
  intros Hd Hl Hc Hid H80 H443. split.
  - unfold _ensure_aws_security_group, try_except, bind, lift.
    rewrite Hd, Hl, Hc, Hid, H80, H443. reflexivity.
  - apply check_output_Ok in Hd, Hc. apply check_call_Ok in H80.
    pose proof (check_call_trace (authorize_ingress id "443") w3) as H4.
    rewrite H443 in H4. simpl in H4.
    rewrite H4, H80, Hc, Hd. rewrite <- !app_assoc. reflexivity.
Qed.

(** X24.  Whatever the cloud answers, the commands that the function
    starts are the first ones of the lookup, the creation and the three
    authorizations, in this order, for one id: at most five commands, at
    most one creation, and never a command that deletes or changes a
    group in another way. *)
Theorem X24_security_group_commands group_name (w : World Ext) :
  exists id started,
    trace (snd (_ensure_aws_security_group group_name w)) = trace w ++ started /\
    started `prefix_of` security_group_commands group_name id.
Proof.
  unfold _ensure_aws_security_group, try_except, bind.
  pose proof (check_output_trace (describe_security_groups group_name) None w) as Ht.
  destruct (check_output (describe_security_groups group_name) None w)
    as [[out|e] w1]; simpl in Ht.
  2:{ exists EmptyString. eexists. split; [destruct e; simpl; exact Ht|].
      now eexists. }
  unfold lift. destruct (load_security_groups out) as [[|group others]|e].
  2:{ exists EmptyString. eexists. split; [exact Ht | now eexists]. }
  2:{ exists EmptyString. eexists. split; [destruct e; simpl; exact Ht | now eexists]. }
  pose proof (check_output_trace (create_security_group group_name) None w1) as Ht1.
  destruct (check_output (create_security_group group_name) None w1)
    as [[created|e] w2]; simpl in Ht1.
  2:{ exists EmptyString. eexists.
      split; [destruct e; simpl; rewrite Ht1, Ht, <- !app_assoc; reflexivity|].
      now eexists. }
  destruct (load_group_id created) as [id|e].
  2:{ exists EmptyString. eexists.
      split; [destruct e; simpl; rewrite Ht1, Ht, <- !app_assoc; reflexivity|].
      now eexists. }
  exists id.
  pose proof (check_call_trace (authorize_ingress id "80") w2) as Ht2.
  destruct (check_call (authorize_ingress id "80") w2) as [[[]|e] w3]; simpl in Ht2.
  2:{ eexists.
      split; [destruct e; simpl; rewrite Ht2, Ht1, Ht, <- !app_assoc; reflexivity|].
      now eexists. }
  pose proof (check_call_trace (authorize_ingress id "443") w3) as Ht3.
  destruct (check_call (authorize_ingress id "443") w3) as [[[]|e] w4]; simpl in Ht3.
  2:{ eexists.
      split; [destruct e; simpl; rewrite Ht3, Ht2, Ht1, Ht, <- !app_assoc; reflexivity|].
      now eexists. }
  pose proof (check_call_trace (authorize_ingress id "22") w4) as Ht4.
  destruct (check_call (authorize_ingress id "22") w4) as [[[]|e] w5]; simpl in Ht4.
  - eexists. split; [simpl; rewrite Ht4, Ht3, Ht2, Ht1, Ht, <- !app_assoc; reflexivity|].
    now exists [].
  - eexists.
    split; [destruct e; simpl; rewrite Ht4, Ht3, Ht2, Ht1, Ht, <- !app_assoc;
            reflexivity|].
    now exists [].
Qed.
End SecurityGroup.

(** An account in which the lookup is refused. *)
Lemma X22_process_errors_wrapped_witness :
  _ensure_aws_security_group
    (Collaborators0 :=
       sim_custom (fun cmd cwd files sim => (Exited 255 EmptyString, (files, sim)))
         sim_bento_info [])
    "cllama-http-default" (sim_world true)
  = (Raise (RuntimeError "Failed to create security group: "
              (CalledProcessError (describe_security_groups "cllama-http-default") 255)),
     {| fs := fs (sim_world true); ext := ext (sim_world true);
        trace := trace (sim_world true)
                 ++ [Exec (describe_security_groups "cllama-http-default") None] |}).
Proof.
  apply (proj2 (X22_process_errors_wrapped
                  (Collaborators0 :=
                     sim_custom (fun cmd cwd files sim =>
                                   (Exited 255 EmptyString, (files, sim)))
                       sim_bento_info [])
                  "cllama-http-default" (sim_world true)) 255 EmptyString);
    [reflexivity | discriminate].
Defined.

(** The cloud refuses the rule of port 443. *)
Lemma X23_no_rollback_witness :
  exists w4,
    _ensure_aws_security_group
      (Collaborators0 := sim_custom (sim_spawn_refusing "443") sim_bento_info [])
      "cllama-http-default" (sim_world true)
    = (Raise (RuntimeError "Failed to create security group: "
                (CalledProcessError (authorize_ingress "sg-0" "443") 254)), w4) /\
    trace w4 = trace (sim_world true) ++
      [ Exec (describe_security_groups "cllama-http-default") None;
        Exec (create_security_group "cllama-http-default") None;
        Exec (authorize_ingress "sg-0" "80") None;
        Exec (authorize_ingress "sg-0" "443") None ].
Proof.
  set (C := sim_custom (sim_spawn_refusing "443") sim_bento_info []).
  set (w0 := sim_world true).
  set (w1 := snd (check_output (Collaborators0 := C)
                    (describe_security_groups "cllama-http-default") None w0)).
  set (w2 := snd (check_output (Collaborators0 := C)
                    (create_security_group "cllama-http-default") None w1)).
  set (w3 := snd (check_call (Collaborators0 := C) (authorize_ingress "sg-0" "80") w2)).
  set (w4 := snd (check_call (Collaborators0 := C) (authorize_ingress "sg-0" "443") w3)).
  exists w4.
  apply (X23_no_rollback (Collaborators0 := C) "cllama-http-default" w0 w1 w2 w3 w4
           EmptyString "sg-0" "sg-0"); vm_compute; reflexivity.
Defined.

(** ** What [run] never starts *)

Section NoLaunch.
Context {Ext : Type} `{!Collaborators Ext}.
Variable P : event -> Prop.

Lemma adds_only_ret {A} (a : A) : adds_only (Ext := Ext) P (ret a).
Proof. intros w. exists []. split; [now rewrite app_nil_r | constructor]. Qed.

Lemma adds_only_raise {A} (e : exn) : adds_only (Ext := Ext) (A := A) P (raise e).
Proof. intros w. exists []. split; [now rewrite app_nil_r | constructor]. Qed.

Lemma adds_only_lift {A} (r : result A) : adds_only (Ext := Ext) P (lift r).
Proof. intros w. exists []. split; [now rewrite app_nil_r | constructor]. Qed.

Lemma adds_only_bind {A B} (m : M Ext A) (k : A -> M Ext B) :
  adds_only P m -> (forall a, adds_only P (k a)) -> adds_only P (bind m k).
Proof.
  intros Hm Hk w. unfold bind. destruct (Hm w) as (evs & Ht & Hall).
  destruct (m w) as [[a|e] w1]; simpl in Ht.
  - destruct (Hk a w1) as (evs' & Ht' & Hall').
    exists (evs ++ evs'). split; [now rewrite Ht', Ht, app_assoc|].
    apply Forall_app. now split.
  - now exists evs.
Qed.

Lemma adds_only_try_except {A} (m : M Ext A) (h : exn -> option (M Ext A)) :
  adds_only P m -> (forall e k, h e = Some k -> adds_only P k) ->
  adds_only P (try_except m h).
Proof.
  intros Hm Hh w. unfold try_except. destruct (Hm w) as (evs & Ht & Hall).
  destruct (m w) as [[a|e] w1]; simpl in Ht; [now exists evs|].
  destruct (h e) as [k|] eqn:E; [|now exists evs].
  destruct (Hh e k E w1) as (evs' & Ht' & Hall').
  exists (evs ++ evs'). split; [now rewrite Ht', Ht, app_assoc|].
  apply Forall_app. now split.
Qed.

Lemma adds_only_check_output cmd cwd :
  P (Exec cmd cwd) -> adds_only P (check_output cmd cwd).
Proof.
  intros H w. exists [Exec cmd cwd]. split; [apply check_output_trace|].
  now repeat constructor.
Qed.

Lemma adds_only_check_call cmd : P (Exec cmd None) -> adds_only P (check_call cmd).
Proof.
  intros H. apply adds_only_bind; [now apply adds_only_check_output|].
  intros _. apply adds_only_ret.
Qed.

Lemma adds_only_rmtree p : adds_only P (rmtree (Ext := Ext) p).
Proof. intros w. exists []. split; [simpl; now rewrite app_nil_r | constructor]. Qed.

Lemma adds_only_mkdir_parents p : adds_only P (mkdir_parents (Ext := Ext) p).
Proof.
  intros w. exists []. split; [|constructor].
  now rewrite mkdir_parents_trace, app_nil_r.
Qed.

Lemma adds_only_path_exists p : adds_only P (path_exists (Ext := Ext) p).
Proof. intros w. exists []. split; [simpl; now rewrite app_nil_r | constructor]. Qed.

Lemma adds_only_fresh_uuid : adds_only P fresh_uuid.
Proof.
  intros w. exists []. unfold fresh_uuid. destruct (uuid4 (ext w)).
  split; [simpl; now rewrite app_nil_r | constructor].
Qed.

Lemma adds_only_ask message choices :
  P (Ask message choices) -> adds_only P (ask message choices).
Proof.
  intros H w. unfold ask. destruct choices as [|choice choices].
  - exists []. split; [simpl; now rewrite app_nil_r | constructor].
  - exists [Ask message (choice :: choices)].
    destruct (select_ask message (choice :: choices) (ext w)).
    split; [reflexivity | now repeat constructor].
Qed.

Lemma adds_only_write_file file content :
  P (WriteFile file content) -> adds_only P (write_file (Ext := Ext) file content).
Proof.
  intros H w. exists [WriteFile file content].
  split; [reflexivity | now repeat constructor].
Qed.
End NoLaunch.

Section NoLaunchRun.
Context {Ext : Type} `{!Collaborators Ext}.

Local Abbreviation quiet := (fun ev => starts_instance ev = false).

Local Ltac quiet_step :=
  first
    [ apply adds_only_ret | apply adds_only_raise | apply adds_only_lift
    | apply adds_only_rmtree | apply adds_only_mkdir_parents
    | apply adds_only_path_exists | apply adds_only_fresh_uuid
    | apply adds_only_check_output; reflexivity
    | apply adds_only_check_call; reflexivity
    | apply adds_only_ask; reflexivity
    | apply adds_only_write_file; reflexivity
    | apply adds_only_bind; [|intros ?]
    | apply adds_only_try_except; [|intros ? ? ?] ].

Lemma quiet__get_bento_info tag : adds_only quiet (_get_bento_info tag).
Proof. unfold _get_bento_info. repeat quiet_step. Qed.

Lemma quiet__ensure_aws_security_group group_name :
  adds_only quiet (_ensure_aws_security_group group_name).
Proof.
  unfold _ensure_aws_security_group. repeat quiet_step.
  - destruct a0; repeat quiet_step.
  - destruct e; try discriminate. injection H as <-. quiet_step.
Qed.

Lemma quiet_build_path repo branch subdirectory path_parts model tag force_rebuild :
  adds_only quiet
    (build_path repo branch subdirectory path_parts model tag force_rebuild).
Proof.
  unfold build_path, ensure_repo, clear_repo, clone_repo, build_and_query, _build_bento.
  repeat quiet_step.
  - destruct force_rebuild; quiet_step.
  - destruct (negb a0); repeat quiet_step.
    injection H as <-. repeat quiet_step.
  - destruct a0 as [|x [|y [|z l]]]; first [apply quiet__get_bento_info | quiet_step].
Qed.

Lemma quiet_get_or_build repo branch subdirectory path_parts model tag force_rebuild :
  adds_only quiet
    (get_or_build repo branch subdirectory path_parts model tag force_rebuild).
Proof.
  unfold get_or_build. apply adds_only_try_except; [apply quiet__get_bento_info|].
  intros e k H. destruct e; try discriminate. injection H as <-.
  apply quiet_build_path.
Qed.

Lemma quiet_launch_selected repo subdirectory it :
  adds_only quiet (launch_selected repo subdirectory it).
Proof.
  unfold launch_selected.
  apply adds_only_bind; [apply quiet__ensure_aws_security_group | intros id].
  repeat quiet_step. destruct it; quiet_step.
Qed.

Lemma quiet_provision_aws repo subdirectory bento_info :
  adds_only quiet (provision_aws repo subdirectory bento_info).
Proof.
  unfold provision_aws.
  apply adds_only_bind; [quiet_step | intros out].
  apply adds_only_bind; [quiet_step | intros catalog].
  apply adds_only_bind; [quiet_step | intros service].
  destruct (resources service) as [res|]; [|quiet_step].
  destruct (gpu res); [|quiet_step].
  apply adds_only_bind; [quiet_step | intros supported].
  apply adds_only_bind; [quiet_step | intros choices].
  apply adds_only_bind; [quiet_step | intros it].
  apply quiet_launch_selected.
Qed.

(** X25.  [run] never launches an instance.  Whatever the table of the
    models, the collaborators and the world, the events of an invocation
    are added to the trace, and none of them is a command
    [aws ec2 run-instances]: the command of the launch is only printed. *)
Theorem X25_run_never_launches infos model tag force_rebuild (w : World Ext) :
  exists events,
    trace (snd (run_with infos model tag force_rebuild w)) = trace w ++ events /\
    Forall (fun ev => starts_instance ev = false) events.
Proof.
  revert w. change (adds_only quiet (run_with infos model tag force_rebuild)).
  unfold run_with.
  apply adds_only_bind; [destruct (String.eqb tag "latest"); quiet_step | intros tag'].
  apply adds_only_bind; [quiet_step | intros package].
  apply adds_only_bind; [quiet_step | intros resolved].
  destruct resolved as [[[repo branch] subdirectory] path_parts].
  apply adds_only_bind; [apply quiet_get_or_build | intros bento_info].
  destruct (negb _); [quiet_step|].
  apply adds_only_bind; [quiet_step | intros cloud_provider].
  destruct (bool_decide _); [apply quiet_provision_aws | quiet_step].
Qed.
End NoLaunchRun.
